(** * IgH EtherCAT master: domain engine and per-slave request state machine

    A shallow embedding of [master/domain.c] and [master/fsm_slave.c].

    Conventions of the embedding.
    - C integers are [Z]. Logical addresses and offsets ([uint32_t],
      [unsigned int]) wrap with [wrap32]; working counters ([uint16_t],
      the 16 bit counter of the wire) wrap with [wrap16]. Sizes ([size_t])
      and the counters of list entries ([datagram_used],
      [datagram_count]) are bounded by the size of the process image and
      by the length of the lists; no wrap-around is written for them.
    - A kernel list ([struct list_head]) is a Rocq list in list order; a
      pointer to a list entry is the position of the entry in the list.
    - Bytes ([uint8_t]) are [Z]; they are only copied and compared.
    - Pointers that may be [NULL] are [option]s. *)

From stdpp Require Import base numbers option list gmap.

Local Open Scope Z_scope.

(** ** Machine arithmetic *)

Definition wrap16 (x : Z) : Z := x `mod` 65536.
Definition wrap32 (x : Z) : Z := x `mod` 4294967296.

(** [-ENOMEM] of the kernel. *)
Definition ENOMEM : Z := 12.

(** ** Byte buffers *)

(** The [size] bytes of [buf] that start at [off]: the window a C
    expression [buf + off] denotes when it is read for [size] bytes. *)
Definition window (buf : list Z) (off size : Z) : list Z :=
  take (Z.to_nat size) (drop (Z.to_nat off) buf).

(** [memcpy(dst + off, src, n)] on a buffer held as a list: the [n] bytes of
    [dst] from [off] on are replaced by the first [n] bytes of [src]. The C
    call is undefined when a buffer is too short; the list version then
    copies what there is. *)
Definition memcpy_at (dst : list Z) (off : Z) (src : list Z) (n : Z)
  : list Z :=
  take (Z.to_nat off) dst ++ take (Z.to_nat n) src
    ++ drop (Z.to_nat off + Z.to_nat n) dst.

(** * The domain engine ([master/domain.c]) *)

Module Domain.

(** ** Data model *)

(** [ec_direction_t] of the application interface. The sources index
    [datagram_used] with [EC_DIR_OUTPUT] and [EC_DIR_INPUT] only. *)
Inductive ec_direction_t := EC_DIR_OUTPUT | EC_DIR_INPUT.

#[export] Instance ec_direction_eq_dec : EqDecision ec_direction_t.
Proof. solve_decision. Defined.

Inductive ec_origin_t := EC_ORIG_INTERNAL | EC_ORIG_EXTERNAL.

#[export] Instance ec_origin_eq_dec : EqDecision ec_origin_t.
Proof. solve_decision. Defined.

Inductive ec_device_index_t := EC_DEVICE_MAIN | EC_DEVICE_BACKUP.

Inductive ec_datagram_type_t :=
  EC_DATAGRAM_LRD | EC_DATAGRAM_LWR | EC_DATAGRAM_LRW.

(** FMMU configuration, with the fields [domain.c] reads and writes. [sc]
    is the address of the parent slave configuration; only its identity is
    used. *)
Record ec_fmmu_config_t := {
  sc : nat;
  dir : ec_direction_t;
  logical_start_address : Z;
  fmmu_data_size : Z
}.

(** One sibling datagram of a pair. The payload pointer is kept in the
    pair, because the two siblings differ in what it points to. *)
Record ec_datagram_t := {
  dg_type : ec_datagram_type_t;
  dg_address : Z;
  dg_data_size : Z;
  dg_working_counter : Z
}.

(** Datagram pair as [domain.c] uses it. The payload of the main datagram is
    borrowed: [main_data] is the offset of its first byte in the process
    image of the domain ([domain->data + datagram_offset]). The backup
    datagram and the send-staging buffer have memory of their own. [used]
    is the pair of counters [(used[EC_DIR_OUTPUT], used[EC_DIR_INPUT])] the
    pair was built from. *)
Record ec_datagram_pair_t := {
  main_datagram : ec_datagram_t;
  backup_datagram : ec_datagram_t;
  main_data : Z;
  backup_data : list Z;
  send_buffer : list Z;
  pair_expected_working_counter : Z;
  used : Z * Z
}.

Record ec_domain_t := {
  index : Z;
  fmmu_configs : list ec_fmmu_config_t;
  data_size : Z;
  data : option (list Z);
  data_origin : ec_origin_t;
  logical_base_address : Z;
  datagram_pairs : list ec_datagram_pair_t;
  working_counter : Z;
  expected_working_counter : Z;
  working_counter_changes : Z;
  notify_jiffies : Z
}.

(** What the absent headers and the kernel fix: the constants of
    [globals.h] and of the kernel, the outcome of each allocation, and the
    collaborators of [datagram_pair.c] that the spec treats as given. *)
Class Platform := {
  (** [EC_MAX_DATA_SIZE], the [MAX_PAYLOAD] of the spec. *)
  EC_MAX_DATA_SIZE : Z;
  (** [HZ] and the width of [unsigned long], for the notification clock. *)
  HZ : Z;
  BITS_PER_LONG : Z;
  (** Whether the [n]-th call of [kmalloc] succeeds. *)
  kmalloc_ok : nat -> bool;
  (** Return value of the [n]-th call of [ec_datagram_pair_init]. *)
  pair_init_ret : nat -> Z;
  (** Command and expected working counter of a pair built from the
      counters [(0, 0)], a row the table of the spec leaves open. *)
  unused_row : ec_datagram_type_t * Z;
  (** [ec_datagram_pair_process]: the aggregate working counter of a pair
      after the cycle. *)
  ec_datagram_pair_process : ec_datagram_pair_t -> Z
}.

(** The allocations a function asked for, in order. *)
Inductive kmalloc_req :=
| AllocImage (size : Z)
| AllocPair.

(** ** Constructor *)

Definition ec_domain_init (idx : Z) : ec_domain_t :=
  {| index := idx;
     fmmu_configs := [];
     data_size := 0;
     data := None;
     data_origin := EC_ORIG_INTERNAL;
     logical_base_address := 0;
     datagram_pairs := [];
     working_counter := 0;
     expected_working_counter := 0;
     working_counter_changes := 0;
     notify_jiffies := 0 |}.

(** ** Registration *)

Definition ec_domain_add_fmmu_config (domain : ec_domain_t)
    (fmmu : ec_fmmu_config_t) : ec_domain_t :=
  {| index := index domain;
     fmmu_configs := fmmu_configs domain ++ [fmmu];
     data_size := data_size domain + fmmu_data_size fmmu;
     data := data domain;
     data_origin := data_origin domain;
     logical_base_address := logical_base_address domain;
     datagram_pairs := datagram_pairs domain;
     working_counter := working_counter domain;
     expected_working_counter := expected_working_counter domain;
     working_counter_changes := working_counter_changes domain;
     notify_jiffies := notify_jiffies domain |}.

(** Field updates of the domain record. *)
Definition set_fmmu_configs (l : list ec_fmmu_config_t) (d : ec_domain_t)
  : ec_domain_t :=
  {| index := index d; fmmu_configs := l; data_size := data_size d;
     data := data d; data_origin := data_origin d;
     logical_base_address := logical_base_address d;
     datagram_pairs := datagram_pairs d;
     working_counter := working_counter d;
     expected_working_counter := expected_working_counter d;
     working_counter_changes := working_counter_changes d;
     notify_jiffies := notify_jiffies d |}.

Definition set_data (img : option (list Z)) (d : ec_domain_t) : ec_domain_t :=
  {| index := index d; fmmu_configs := fmmu_configs d;
     data_size := data_size d;
     data := img; data_origin := data_origin d;
     logical_base_address := logical_base_address d;
     datagram_pairs := datagram_pairs d;
     working_counter := working_counter d;
     expected_working_counter := expected_working_counter d;
     working_counter_changes := working_counter_changes d;
     notify_jiffies := notify_jiffies d |}.

Definition set_logical_base_address (a : Z) (d : ec_domain_t) : ec_domain_t :=
  {| index := index d; fmmu_configs := fmmu_configs d;
     data_size := data_size d;
     data := data d; data_origin := data_origin d;
     logical_base_address := a;
     datagram_pairs := datagram_pairs d;
     working_counter := working_counter d;
     expected_working_counter := expected_working_counter d;
     working_counter_changes := working_counter_changes d;
     notify_jiffies := notify_jiffies d |}.

Definition set_datagram_pairs (l : list ec_datagram_pair_t) (d : ec_domain_t)
  : ec_domain_t :=
  {| index := index d; fmmu_configs := fmmu_configs d;
     data_size := data_size d;
     data := data d; data_origin := data_origin d;
     logical_base_address := logical_base_address d;
     datagram_pairs := l;
     working_counter := working_counter d;
     expected_working_counter := expected_working_counter d;
     working_counter_changes := working_counter_changes d;
     notify_jiffies := notify_jiffies d |}.

Definition set_expected_working_counter (w : Z) (d : ec_domain_t)
  : ec_domain_t :=
  {| index := index d; fmmu_configs := fmmu_configs d;
     data_size := data_size d;
     data := data d; data_origin := data_origin d;
     logical_base_address := logical_base_address d;
     datagram_pairs := datagram_pairs d;
     working_counter := working_counter d;
     expected_working_counter := w;
     working_counter_changes := working_counter_changes d;
     notify_jiffies := notify_jiffies d |}.

(** The three fields the tail of [ecrt_domain_process] writes. *)
Definition set_counters (wc changes notify : Z) (d : ec_domain_t)
  : ec_domain_t :=
  {| index := index d; fmmu_configs := fmmu_configs d;
     data_size := data_size d;
     data := data d; data_origin := data_origin d;
     logical_base_address := logical_base_address d;
     datagram_pairs := datagram_pairs d;
     working_counter := wc;
     expected_working_counter := expected_working_counter d;
     working_counter_changes := changes;
     notify_jiffies := notify |}.

(** ** Datagram pairs *)

(** Modelled from the spec: the table of command and expected working
    counter by used counts that [ec_datagram_pair_init] of
    [datagram_pair.c] implements; that file is not among the sources. The
    table has no row for the counts [(0, 0)]; [unused_row] stands for what
    the constructor does there. *)
Definition pair_row `{Platform} (u : Z * Z) : ec_datagram_type_t * Z :=
  let '(used_out, used_in) := u in
  if used_out =? 0 then
    if used_in =? 0 then unused_row else (EC_DATAGRAM_LRD, used_in)
  else
    if used_in =? 0 then (EC_DATAGRAM_LWR, used_out)
    else (EC_DATAGRAM_LRW, 3 * used_out + used_in).

(** Modelled from the spec: [ec_datagram_pair_init] of [datagram_pair.c].
    Both siblings get the same command, logical address and size; the main
    datagram borrows the window of the process image it is given; the
    backup payload and the send-staging buffer have the size of that
    window. Their first contents are not specified; they are zero here. *)
Definition ec_datagram_pair_init `{Platform} (logical_offset : Z)
    (data_ptr : Z) (size : Z) (u : Z * Z) : ec_datagram_pair_t :=
  let row := pair_row u in
  let dg := {| dg_type := row.1; dg_address := logical_offset;
               dg_data_size := size; dg_working_counter := 0 |} in
  {| main_datagram := dg;
     backup_datagram := dg;
     main_data := data_ptr;
     backup_data := replicate (Z.to_nat size) 0;
     send_buffer := replicate (Z.to_nat size) 0;
     pair_expected_working_counter := row.2;
     used := u |}.

(** The kernel as the packing code sees it: the allocations asked for so
    far and the number of pairs constructed so far. *)
Record kernel := {
  kmalloc_log : list kmalloc_req;
  pair_init_calls : nat
}.

Definition kernel_boot : kernel :=
  {| kmalloc_log := []; pair_init_calls := 0 |}.

(** [kmalloc]: logs the request and says whether it succeeded. *)
Definition kmalloc `{Platform} (k : kernel) (r : kmalloc_req)
  : bool * kernel :=
  (kmalloc_ok (length (kmalloc_log k)),
   {| kmalloc_log := kmalloc_log k ++ [r];
      pair_init_calls := pair_init_calls k |}).

(** [ec_domain_add_datagram_pair]. The result is the return value, the
    domain and the kernel afterwards. *)
Definition ec_domain_add_datagram_pair `{Platform} (k : kernel)
    (domain : ec_domain_t) (logical_offset : Z) (size : Z) (data_ptr : Z)
    (u : Z * Z) : Z * ec_domain_t * kernel :=
  let '(ok, k1) := kmalloc k AllocPair in
  if negb ok then (- ENOMEM, domain, k1)
  else
    let ret := pair_init_ret (pair_init_calls k1) in
    let k2 := {| kmalloc_log := kmalloc_log k1;
                 pair_init_calls := S (pair_init_calls k1) |} in
    if negb (ret =? 0) then (ret, domain, k2)
    else
      let datagram_pair :=
        ec_datagram_pair_init logical_offset data_ptr size u in
      (0,
       set_datagram_pairs (datagram_pairs domain ++ [datagram_pair])
         (set_expected_working_counter
            (wrap16 (expected_working_counter domain
                     + pair_expected_working_counter datagram_pair))
            domain),
       k2).

(** ** Packing *)

Definition same_sc_dir (a b : ec_fmmu_config_t) : bool :=
  bool_decide (sc a = sc b) && bool_decide (dir a = dir b).

(** The loop of [shall_count]: [n] is the number of entries from
    [first_fmmu] up to [cur_fmmu], the steps the [for] takes before its
    pointer meets [cur_fmmu]. *)
Fixpoint shall_count_walk (l : list ec_fmmu_config_t)
    (cur : ec_fmmu_config_t) (first_fmmu : nat) (n : nat) : Z :=
  match n with
  | O => 1
  | S n' =>
      match l !! first_fmmu with
      | Some f =>
          if same_sc_dir f cur then 0 (* was already counted *)
          else shall_count_walk l cur (S first_fmmu) n'
      | None => 1
      end
  end.

(** [shall_count], on the positions of the two entries in the list. *)
Definition shall_count (l : list ec_fmmu_config_t) (cur_fmmu first_fmmu : nat)
  : Z :=
  match l !! cur_fmmu with
  | Some cur => shall_count_walk l cur first_fmmu (cur_fmmu - first_fmmu)
  | None => 1
  end.

(** [datagram_used[dir]++]. *)
Definition incr_used (u : Z * Z) (d : ec_direction_t) : Z * Z :=
  match d with
  | EC_DIR_OUTPUT => (u.1 + 1, u.2)
  | EC_DIR_INPUT => (u.1, u.2 + 1)
  end.

(** The local variables of [ec_domain_finish], together with the domain
    and the kernel the loop works on. [datagram_first_fmmu] is [NULL] in C
    only while the list is empty, when nothing reads it; here it is the
    position 0 then. *)
Record finish_state := {
  datagram_offset : Z;
  datagram_size : Z;
  datagram_count : Z;
  datagram_used : Z * Z;
  datagram_first_fmmu : nat;
  fin_domain : ec_domain_t;
  fin_kernel : kernel
}.

(** The [list_for_each_entry] loop of [ec_domain_finish]. [i] is the
    position of the entry the loop is at and [todo] the entries from there
    on, which the loop has not written yet. The first component of the
    result is negative when the loop left the function with that error. *)
Fixpoint finish_loop `{Platform} (base_address : Z) (i : nat)
    (todo : list ec_fmmu_config_t) (s : finish_state)
  : Z * finish_state :=
  match todo with
  | [] => (0, s)
  | entry :: todo' =>
      (* Correct logical FMMU address *)
      let fmmu :=
        {| sc := sc entry; dir := dir entry;
           logical_start_address :=
             wrap32 (logical_start_address entry + base_address);
           fmmu_data_size := fmmu_data_size entry |} in
      let domain1 :=
        set_fmmu_configs (<[i := fmmu]> (fmmu_configs (fin_domain s)))
          (fin_domain s) in
      (* Increment Input/Output counter *)
      let used1 :=
        if negb (shall_count (fmmu_configs domain1) i
                   (datagram_first_fmmu s) =? 0)
        then incr_used (datagram_used s) (dir fmmu)
        else datagram_used s in
      if EC_MAX_DATA_SIZE <? datagram_size s + fmmu_data_size fmmu then
        let '(ret, domain2, k2) :=
          ec_domain_add_datagram_pair (fin_kernel s) domain1
            (wrap32 (logical_base_address domain1 + datagram_offset s))
            (datagram_size s) (datagram_offset s) used1 in
        if ret <? 0 then
          (ret,
           {| datagram_offset := datagram_offset s;
              datagram_size := datagram_size s;
              datagram_count := datagram_count s;
              datagram_used := used1;
              datagram_first_fmmu := datagram_first_fmmu s;
              fin_domain := domain2; fin_kernel := k2 |})
        else
          finish_loop base_address (S i) todo'
            {| datagram_offset :=
                 wrap32 (datagram_offset s + datagram_size s);
               datagram_size := 0 + fmmu_data_size fmmu;
               datagram_count := datagram_count s + 1;
               datagram_used := (0, 0);
               datagram_first_fmmu := i;
               fin_domain := domain2; fin_kernel := k2 |}
      else
        finish_loop base_address (S i) todo'
          {| datagram_offset := datagram_offset s;
             datagram_size := datagram_size s + fmmu_data_size fmmu;
             datagram_count := datagram_count s;
             datagram_used := used1;
             datagram_first_fmmu := datagram_first_fmmu s;
             fin_domain := domain1; fin_kernel := fin_kernel s |}
  end.

(** [ec_domain_finish]: return value, domain and kernel afterwards. On an
    error the domain is left as far as the packing got. The memory that
    [kmalloc] returns has no determined contents; it is zero here. *)
Definition ec_domain_finish `{Platform} (k : kernel) (domain : ec_domain_t)
    (base_address : Z) : Z * ec_domain_t * kernel :=
  let domain0 := set_logical_base_address base_address domain in
  let alloc :=
    if negb (data_size domain0 =? 0)
       && bool_decide (data_origin domain0 = EC_ORIG_INTERNAL)
    then
      let '(ok, k1) := kmalloc k (AllocImage (data_size domain0)) in
      if ok then
        inr (set_data (Some (replicate (Z.to_nat (data_size domain0)) 0))
               domain0, k1)
      else inl (set_data None domain0, k1)
    else inr (domain0, k) in
  match alloc with
  | inl (domain1, k1) => (- ENOMEM, domain1, k1)
  | inr (domain1, k1) =>
      let '(ret, s) :=
        finish_loop base_address 0 (fmmu_configs domain1)
          {| datagram_offset := 0; datagram_size := 0; datagram_count := 0;
             datagram_used := (0, 0); datagram_first_fmmu := 0%nat;
             fin_domain := domain1; fin_kernel := k1 |} in
      if ret <? 0 then (ret, fin_domain s, fin_kernel s)
      else if negb (datagram_size s =? 0) then
        (* Allocate last datagram pair, if data are left *)
        let '(ret2, domain2, k2) :=
          ec_domain_add_datagram_pair (fin_kernel s) (fin_domain s)
            (wrap32 (logical_base_address (fin_domain s)
                     + datagram_offset s))
            (datagram_size s) (datagram_offset s) (datagram_used s) in
        if ret2 <? 0 then (ret2, domain2, k2) else (0, domain2, k2)
      else (0, fin_domain s, fin_kernel s)
  end.

(** ** Cyclic send preparation *)

Definition set_buffers (backup staged : list Z) (p : ec_datagram_pair_t)
  : ec_datagram_pair_t :=
  {| main_datagram := main_datagram p;
     backup_datagram := backup_datagram p;
     main_data := main_data p;
     backup_data := backup;
     send_buffer := staged;
     pair_expected_working_counter := pair_expected_working_counter p;
     used := used p |}.

(** The payload of the main datagram: the window of the process image it
    borrows. *)
Definition main_payload (img : list Z) (p : ec_datagram_pair_t) : list Z :=
  window img (main_data p) (dg_data_size (main_datagram p)).

(** The two [memcpy] calls of the loop body of [ecrt_domain_queue]. *)
Definition queue_pair (img : list Z) (p : ec_datagram_pair_t)
  : ec_datagram_pair_t :=
  let src := drop (Z.to_nat (main_data p)) img in
  let n := dg_data_size (main_datagram p) in
  set_buffers (memcpy_at (backup_data p) 0 src n)
              (memcpy_at (send_buffer p) 0 src n) p.

(** [ecrt_domain_queue]. With the domain it returns the calls of
    [ec_master_queue_datagram] it made: position of the pair and device
    index. The result is [None] when a pair exists and [domain->data] is
    [NULL]. *)
Definition ecrt_domain_queue (domain : ec_domain_t)
  : option (ec_domain_t * list (nat * ec_device_index_t)) :=
  match datagram_pairs domain with
  | [] => Some (domain, [])
  | _ =>
      img ← data domain;
      Some (set_datagram_pairs (queue_pair img <$> datagram_pairs domain)
              domain,
            flat_map (λ i, [(i, EC_DEVICE_MAIN); (i, EC_DEVICE_BACKUP)])
              (seq 0 (length (datagram_pairs domain))))
  end.

(** ** Redundancy reconciliation *)

(** The local variables of [ecrt_domain_process] that live across
    statements. [pl_fmmu] is [None] until [list_for_each_entry] assigns the
    loop variable; [pl_datagram_offset] is [None] while its value is
    indeterminate. [pl_uninit_read] records that [fmmu] was dereferenced
    while it was still unassigned. *)
Record process_locals := {
  working_counter_sum : Z;
  pl_datagram_pair : option nat;
  pl_fmmu : option nat;
  pl_datagram_offset : option Z;
  datagram_pair_wc : Z;
  pl_uninit_read : bool
}.

(** The statements of [ecrt_domain_process] before its loop. With a pair
    in the list they read [fmmu->logical_start_address] while [fmmu] is
    unassigned, which C does not define. The run is followed on from
    there with [pl_uninit_read] set and [pl_datagram_offset]
    indeterminate, as it goes on when the read yields some value; what is
    said of a run with the flag set is said of such a run only. *)
Definition process_prologue `{Platform} (domain : ec_domain_t)
  : process_locals :=
  let fmmu : option nat := None in
  match datagram_pairs domain with
  | [] =>
      {| working_counter_sum := 0; pl_datagram_pair := None;
         pl_fmmu := fmmu; pl_datagram_offset := None;
         datagram_pair_wc := 0; pl_uninit_read := false |}
  | datagram_pair :: _ =>
      let logical_datagram_address :=
        dg_address (main_datagram datagram_pair) in
      let wc := ec_datagram_pair_process datagram_pair in
      {| working_counter_sum := wrap16 (0 + wc);
         pl_datagram_pair := Some 0%nat;
         pl_fmmu := fmmu;
         (* fmmu->logical_start_address - logical_datagram_address *)
         pl_datagram_offset :=
           (λ f, wrap32 (logical_start_address f
                         - logical_datagram_address))
             <$> (fmmu ≫= (fmmu_configs domain !!.));
         datagram_pair_wc := wc;
         pl_uninit_read := bool_decide (fmmu = None) |}
  end.

(** The variables the [while] loop over the pairs updates. *)
Record pair_cursor := {
  cur_pair : nat;
  cur_offset : Z;
  cur_size : Z;
  cur_wc : Z;
  cur_sum : Z
}.

(** [while (datagram_offset >= datagram_size)]: step to the next pair and
    process it. [rest] holds the pairs after the current one; stepping past
    the last pair leaves the list and is a fault ([None]). *)
Fixpoint seek_pair `{Platform} (start : Z) (rest : list ec_datagram_pair_t)
    (c : pair_cursor) : option pair_cursor :=
  if cur_size c <=? cur_offset c then
    match rest with
    | [] => None
    | datagram_pair :: rest' =>
        let wc := ec_datagram_pair_process datagram_pair in
        seek_pair start rest'
          {| cur_pair := S (cur_pair c);
             cur_offset :=
               wrap32 (start - dg_address (main_datagram datagram_pair));
             cur_size := dg_data_size (main_datagram datagram_pair);
             cur_wc := wc;
             cur_sum := wrap16 (cur_sum c + wc) |}
    end
  else Some c.

(** Modelled from the spec: [ec_datagram_pair_data_changed] of
    [datagram_pair.c], which is not among the sources. It says whether the
    window of [size] bytes at [offset] of the payload of one sibling
    differs from the same window of the staged send copy. *)
Definition ec_datagram_pair_data_changed (img : list Z)
    (p : ec_datagram_pair_t) (offset size : Z) (dev : ec_device_index_t)
  : bool :=
  let sent := window (send_buffer p) offset size in
  let recv :=
    match dev with
    | EC_DEVICE_MAIN =>
        window (drop (Z.to_nat (main_data p)) img) offset size
    | EC_DEVICE_BACKUP => window (backup_data p) offset size
    end in
  bool_decide (recv ≠ sent).

(** The [if]/[else if] at the end of the loop body of
    [ecrt_domain_process], as a function on the process image. *)
Definition merge_input (img : list Z) (datagram_pair : ec_datagram_pair_t)
    (offset size : Z) (pair_wc : Z) : list Z :=
  if ec_datagram_pair_data_changed img datagram_pair offset size
       EC_DEVICE_MAIN
  then img (* data changed on main link. no copying necessary. *)
  else if ec_datagram_pair_data_changed img datagram_pair offset size
            EC_DEVICE_BACKUP
          || (pair_wc =? pair_expected_working_counter datagram_pair)
  then
    (* memcpy(target, source, fmmu->data_size) *)
    memcpy_at img (main_data datagram_pair + offset)
      (drop (Z.to_nat offset) (backup_data datagram_pair)) size
  else img.

(** The body of the loop over the FMMU configurations, for the entry at
    position [i]. The state is the locals and the process image
    ([domain->data]). [None] is a fault: a [NULL] pair or image is
    dereferenced, or the pair list is left. *)
Definition process_fmmu `{Platform} (pairs : list ec_datagram_pair_t)
    (i : nat) (fmmu : ec_fmmu_config_t)
    (st : process_locals * option (list Z))
  : option (process_locals * option (list Z)) :=
  let '(l, image) := st in
  if bool_decide (dir fmmu ≠ EC_DIR_INPUT) then
    Some ({| working_counter_sum := working_counter_sum l;
             pl_datagram_pair := pl_datagram_pair l;
             pl_fmmu := Some i;
             pl_datagram_offset := pl_datagram_offset l;
             datagram_pair_wc := datagram_pair_wc l;
             pl_uninit_read := pl_uninit_read l |}, image)
  else
    idx ← pl_datagram_pair l;
    p0 ← pairs !! idx;
    c ← seek_pair (logical_start_address fmmu) (drop (S idx) pairs)
          {| cur_pair := idx;
             cur_offset :=
               wrap32 (logical_start_address fmmu
                       - dg_address (main_datagram p0));
             cur_size := dg_data_size (main_datagram p0);
             cur_wc := datagram_pair_wc l;
             cur_sum := working_counter_sum l |};
    p ← pairs !! cur_pair c;
    img ← image;
    Some ({| working_counter_sum := cur_sum c;
             pl_datagram_pair := Some (cur_pair c);
             pl_fmmu := Some i;
             pl_datagram_offset := Some (cur_offset c);
             datagram_pair_wc := cur_wc c;
             pl_uninit_read := pl_uninit_read l |},
          Some (merge_input img p (cur_offset c) (fmmu_data_size fmmu)
                  (cur_wc c))).

(** [list_for_each_entry(fmmu, &domain->fmmu_configs, list)]. *)
Fixpoint process_loop `{Platform} (pairs : list ec_datagram_pair_t)
    (i : nat) (todo : list ec_fmmu_config_t)
    (st : process_locals * option (list Z))
  : option (process_locals * option (list Z)) :=
  match todo with
  | [] => Some st
  | fmmu :: todo' =>
      st' ← process_fmmu pairs i fmmu st;
      process_loop pairs (S i) todo' st'
  end.

(** Unsigned subtraction of two [unsigned long] values. *)
Definition ulong_sub `{Platform} (a b : Z) : Z :=
  (a - b) `mod` 2 ^ BITS_PER_LONG.

(** The statements of [ecrt_domain_process] after its loop; the log lines
    are left out. *)
Definition process_epilogue `{Platform} (domain : ec_domain_t) (sum : Z)
    (jiffies : Z) : ec_domain_t :=
  let changed := bool_decide (sum ≠ working_counter domain) in
  let changes1 :=
    if changed then wrap32 (working_counter_changes domain + 1)
    else working_counter_changes domain in
  let wc1 := if changed then sum else working_counter domain in
  if negb (changes1 =? 0)
     && (HZ <? ulong_sub jiffies (notify_jiffies domain))
  then set_counters wc1 0 jiffies domain
  else set_counters wc1 changes1 (notify_jiffies domain) domain.

(** The locals and the process image when the loop of
    [ecrt_domain_process] is through. *)
Definition process_run `{Platform} (domain : ec_domain_t)
  : option (process_locals * option (list Z)) :=
  process_loop (datagram_pairs domain) 0 (fmmu_configs domain)
    (process_prologue domain, data domain).

(** [ecrt_domain_process] at the time [jiffies]. *)
Definition ecrt_domain_process `{Platform} (domain : ec_domain_t)
    (jiffies : Z) : option ec_domain_t :=
  '(l, image) ← process_run domain;
  Some (process_epilogue (set_data image domain) (working_counter_sum l)
          jiffies).

(** ** Notions the properties are stated with *)

(** Sum of the expected working counters of a list of pairs. *)
Definition pairs_expected_sum (l : list ec_datagram_pair_t) : Z :=
  foldr (λ p acc, pair_expected_working_counter p + acc) 0 l.

(** What [shall_count] compares: slave configuration and direction. *)
Definition key (f : ec_fmmu_config_t) : nat * ec_direction_t :=
  (sc f, dir f).

Definition count_dir (d : ec_direction_t)
    (counted : list (nat * ec_direction_t)) : Z :=
  Z.of_nat (length (filter (λ c, c.2 = d) counted)).

(** The counters [u] count combinations of slave configuration and
    direction of [fmmus], each at most once. *)
Definition counts_once (fmmus : list ec_fmmu_config_t) (u : Z * Z) : Prop :=
  ∃ counted : list (nat * ec_direction_t),
    NoDup counted
    ∧ counted ⊆ key <$> fmmus
    ∧ u = (count_dir EC_DIR_OUTPUT counted, count_dir EC_DIR_INPUT counted).

(** The pair has the command and the expected working counter that the
    table of the packing section gives for its used counts. *)
Definition follows_table (p : ec_datagram_pair_t) : Prop :=
  let '(used_out, used_in) := used p in
  (used_out = 0 → 0 < used_in →
   dg_type (main_datagram p) = EC_DATAGRAM_LRD
   ∧ pair_expected_working_counter p = used_in)
  ∧ (0 < used_out → used_in = 0 →
     dg_type (main_datagram p) = EC_DATAGRAM_LWR
     ∧ pair_expected_working_counter p = used_out)
  ∧ (0 < used_out → 0 < used_in →
     dg_type (main_datagram p) = EC_DATAGRAM_LRW
     ∧ pair_expected_working_counter p = 3 * used_out + used_in).

(** A pair follows the table, from counters that count each combination
    at most once. *)
Definition pair_ok `{Platform} (fmmus : list ec_fmmu_config_t)
    (p : ec_datagram_pair_t) : Prop :=
  pair_expected_working_counter p = (pair_row (used p)).2
  ∧ dg_type (main_datagram p) = (pair_row (used p)).1
  ∧ counts_once fmmus (used p).

(** The counters [u] count keys found at the positions from [first] up to
    [i], each at most once. *)
Definition counted_window (keys : list (nat * ec_direction_t))
    (first i : nat) (u : Z * Z) : Prop :=
  ∃ counted : list (nat * ec_direction_t),
    NoDup counted
    ∧ (∀ c, c ∈ counted → ∃ m, (first ≤ m < i)%nat ∧ keys !! m = Some c)
    ∧ u = (count_dir EC_DIR_OUTPUT counted, count_dir EC_DIR_INPUT counted).

(** What holds of the packing state whenever the loop of
    [ec_domain_finish] is at position [i] with [todo] left. *)
Definition finish_inv `{Platform} (l0 : list ec_fmmu_config_t) (i : nat)
    (todo : list ec_fmmu_config_t) (s : finish_state) : Prop :=
  key <$> fmmu_configs (fin_domain s) = key <$> l0
  ∧ drop i (fmmu_configs (fin_domain s)) = todo
  ∧ (datagram_first_fmmu s ≤ i)%nat
  ∧ expected_working_counter (fin_domain s)
    = wrap16 (pairs_expected_sum (datagram_pairs (fin_domain s)))
  ∧ Forall (pair_ok l0) (datagram_pairs (fin_domain s))
  ∧ counted_window (key <$> l0) (datagram_first_fmmu s) i (datagram_used s).

(** What holds of the packing state when the loop is left. *)
Definition finish_post `{Platform} (l0 : list ec_fmmu_config_t)
    (s : finish_state) : Prop :=
  key <$> fmmu_configs (fin_domain s) = key <$> l0
  ∧ expected_working_counter (fin_domain s)
    = wrap16 (pairs_expected_sum (datagram_pairs (fin_domain s)))
  ∧ Forall (pair_ok l0) (datagram_pairs (fin_domain s))
  ∧ counts_once l0 (datagram_used s).

(** A platform to run examples on: the payload limit of an Ethernet frame
    with one datagram, allocations that succeed, an aggregate working
    counter that adds the counters of the two siblings. *)
Definition example_platform : Platform :=
  {| EC_MAX_DATA_SIZE := 1486; HZ := 250; BITS_PER_LONG := 64;
     kmalloc_ok := λ _, true; pair_init_ret := λ _, 0;
     unused_row := (EC_DATAGRAM_LRD, 0);
     ec_datagram_pair_process :=
       λ p, dg_working_counter (main_datagram p)
            + dg_working_counter (backup_datagram p) |}.

(** Registration of a list of FMMU configurations given by slave
    configuration, direction and size, the way the slave configuration code
    does it: each starts at the size the domain has reached. *)
Definition register (l : list (nat * ec_direction_t * Z)) : ec_domain_t :=
  foldl (λ d e,
           ec_domain_add_fmmu_config d
             {| sc := e.1.1; dir := e.1.2;
                logical_start_address := data_size d;
                fmmu_data_size := e.2 |})
        (ec_domain_init 0) l.

(** Four FMMU configurations of two slave configurations, in one pair. *)
Definition scenario4 : ec_domain_t :=
  register [(1%nat, EC_DIR_INPUT, 2); (1%nat, EC_DIR_INPUT, 2);
            (2%nat, EC_DIR_OUTPUT, 2); (2%nat, EC_DIR_INPUT, 2)].

(** One FMMU configuration that is larger than a datagram payload. *)
Definition oversize_domain : ec_domain_t :=
  register [(1%nat, EC_DIR_INPUT, 2000)].

(** Two FMMU configurations of one slave configuration that do not fit
    into one datagram together. *)
Definition split_domain : ec_domain_t :=
  register [(1%nat, EC_DIR_INPUT, 1000); (1%nat, EC_DIR_INPUT, 1000)].

(** Payload size and used counts of the pairs of a domain. *)
Definition pair_sizes (d : ec_domain_t) : list Z :=
  (λ p, dg_data_size (main_datagram p)) <$> datagram_pairs d.

Definition pair_used (d : ec_domain_t) : list (Z * Z) :=
  used <$> datagram_pairs d.

(** What the bound on payload sizes needs of the packing state. *)
Definition size_inv `{Platform} (todo : list ec_fmmu_config_t)
    (s : finish_state) : Prop :=
  0 ≤ datagram_size s ≤ EC_MAX_DATA_SIZE
  ∧ Forall (λ f, 0 ≤ fmmu_data_size f ≤ EC_MAX_DATA_SIZE) todo
  ∧ Forall (λ p, dg_data_size (main_datagram p) ≤ EC_MAX_DATA_SIZE)
      (datagram_pairs (fin_domain s)).

(** The windows of one FMMU configuration in the three buffers of a
    pair: [size] bytes at [off] of the main payload, of the backup payload
    and of the staged send copy. *)
Definition main_window (img : list Z) (p : ec_datagram_pair_t)
    (off size : Z) : list Z :=
  window (drop (Z.to_nat (main_data p)) img) off size.

Definition backup_window (p : ec_datagram_pair_t) (off size : Z) : list Z :=
  window (backup_data p) off size.

Definition staged_window (p : ec_datagram_pair_t) (off size : Z) : list Z :=
  window (send_buffer p) off size.


(** Sum of the aggregate working counters of a list of pairs. *)
Definition pairs_wc_sum `{Platform} (l : list ec_datagram_pair_t) : Z :=
  foldr (λ p acc, ec_datagram_pair_process p + acc) 0 l.


(** What the loop of [ecrt_domain_process] keeps: [datagram_pair_wc] is
    the aggregate working counter of the current pair. *)
Definition wc_inv `{Platform} (pairs : list ec_datagram_pair_t)
    (l : process_locals) : Prop :=
  ∀ idx p, pl_datagram_pair l = Some idx → pairs !! idx = Some p →
           datagram_pair_wc l = ec_datagram_pair_process p.

(** After [ecrt_domain_queue]: the backup payload and the staged send copy
    of the pair equal the main payload over the payload window. *)
Definition payloads_equal (img : list Z) (p : ec_datagram_pair_t) : Prop :=
  window (backup_data p) 0 (dg_data_size (main_datagram p))
  = main_payload img p
  ∧ window (send_buffer p) 0 (dg_data_size (main_datagram p))
    = main_payload img p.

(** The payload window of the pair lies inside the process image. *)
Definition payload_in_image (img : list Z) (p : ec_datagram_pair_t) : Prop :=
  0 ≤ main_data p ∧ 0 ≤ dg_data_size (main_datagram p)
  ∧ main_data p + dg_data_size (main_datagram p) ≤ Z.of_nat (length img).

(** What the loop of [ecrt_domain_process] keeps: the running sum is the
    sum over the pairs up to the current one. *)
Definition sum_inv `{Platform} (pairs : list ec_datagram_pair_t)
    (l : process_locals) : Prop :=
  match pl_datagram_pair l with
  | None => pairs = [] ∧ working_counter_sum l = 0
  | Some idx =>
      (idx < length pairs)%nat
      ∧ working_counter_sum l
        = wrap16 (pairs_wc_sum (take (S idx) pairs))
  end.

(** An output FMMU configuration of four bytes, after
    [ec_domain_finish], with the bytes the application wrote. *)
Definition write_domain : ec_domain_t :=
  set_data (Some [170; 187; 204; 221])
    (ec_domain_finish (H:=example_platform) kernel_boot
       (register [(1%nat, EC_DIR_OUTPUT, 4)]) 4096).1.2.

(** The wire, when every slave answers on the main link: the main
    datagram of each pair comes back with the expected working counter. *)
Definition wire_complete (d : ec_domain_t) : ec_domain_t :=
  set_datagram_pairs
    ((λ p,
        {| main_datagram :=
             {| dg_type := dg_type (main_datagram p);
                dg_address := dg_address (main_datagram p);
                dg_data_size := dg_data_size (main_datagram p);
                dg_working_counter := pair_expected_working_counter p |};
           backup_datagram := backup_datagram p;
           main_data := main_data p;
           backup_data := backup_data p;
           send_buffer := send_buffer p;
           pair_expected_working_counter := pair_expected_working_counter p;
           used := used p |}) <$> datagram_pairs d) d.

(** An input FMMU configuration followed by two output FMMU
    configurations that end up in a pair of their own, after
    [ec_domain_finish] and a cycle in which every slave answered. *)
Definition trailing_output_domain : ec_domain_t :=
  wire_complete
    (ec_domain_finish (H:=example_platform) kernel_boot
       (register [(1%nat, EC_DIR_INPUT, 1000); (2%nat, EC_DIR_OUTPUT, 1000);
                  (3%nat, EC_DIR_OUTPUT, 400)]) 4096).1.2.

(** One input FMMU configuration of four bytes, after
    [ec_domain_finish]: the image holds [img], the backup payload
    [backup], and the staged send copy is zero. *)
Definition merge_domain (img backup : list Z) : ec_domain_t :=
  let d := (ec_domain_finish (H:=example_platform) kernel_boot
              (register [(1%nat, EC_DIR_INPUT, 4)]) 4096).1.2 in
  set_data (Some img)
    (set_datagram_pairs
       (set_buffers backup [0; 0; 0; 0] <$> datagram_pairs d) d).

(** [ecrt_domain_state]. *)
Inductive ec_wc_state_t := EC_WC_ZERO | EC_WC_INCOMPLETE | EC_WC_COMPLETE.

Definition ecrt_domain_state (domain : ec_domain_t) : Z * ec_wc_state_t :=
  (working_counter domain,
   if negb (working_counter domain =? 0) then
     if working_counter domain =? expected_working_counter domain
     then EC_WC_COMPLETE else EC_WC_INCOMPLETE
   else EC_WC_ZERO).

(** ** Memory of the domain *)

Definition set_data_origin (o : ec_origin_t) (d : ec_domain_t) : ec_domain_t :=
  {| index := index d; fmmu_configs := fmmu_configs d;
     data_size := data_size d;
     data := data d; data_origin := o;
     logical_base_address := logical_base_address d;
     datagram_pairs := datagram_pairs d;
     working_counter := working_counter d;
     expected_working_counter := expected_working_counter d;
     working_counter_changes := working_counter_changes d;
     notify_jiffies := notify_jiffies d |}.

(** What a function handed to [kfree], in order. *)
Inductive kfree_req :=
| FreeImage (bytes : list Z)
| FreePair (p : ec_datagram_pair_t).

(** [ec_domain_clear_data]: the domain afterwards and what was freed. *)
Definition ec_domain_clear_data (domain : ec_domain_t)
  : ec_domain_t * list kfree_req :=
  let freed :=
    if bool_decide (data_origin domain = EC_ORIG_INTERNAL) then
      match data domain with
      | Some img => [FreeImage img]
      | None => []
      end
    else [] in
  (set_data_origin EC_ORIG_INTERNAL (set_data None domain), freed).

(** [ec_domain_clear]: what the destructor frees. The pairs are cleared
    and freed in list order, then the image. *)
Definition ec_domain_clear (domain : ec_domain_t) : list kfree_req :=
  (FreePair <$> datagram_pairs domain) ++ (ec_domain_clear_data domain).2.

(** [ecrt_domain_external_memory]; the semaphore of the master is taken
    around the body and has no part here. *)
Definition ecrt_domain_external_memory (domain : ec_domain_t)
    (mem : option (list Z)) : ec_domain_t * list kfree_req :=
  let '(d1, freed) := ec_domain_clear_data domain in
  (set_data_origin EC_ORIG_EXTERNAL (set_data mem d1), freed).

(** [ecrt_domain_data] and [ecrt_domain_size]. *)
Definition ecrt_domain_data (domain : ec_domain_t) : option (list Z) :=
  data domain.

Definition ecrt_domain_size (domain : ec_domain_t) : Z :=
  data_size domain.

(** ** Access to the FMMU configurations *)

(** [ec_domain_fmmu_count]: [num] is an [unsigned int]. *)
Definition ec_domain_fmmu_count (domain : ec_domain_t) : Z :=
  foldl (λ num _, wrap32 (num + 1)) 0 (fmmu_configs domain).

(** The loop of [ec_domain_find_fmmu]: [if (pos--) continue; return
    fmmu;] on the entries that are left. *)
Fixpoint find_fmmu_walk (todo : list ec_fmmu_config_t) (pos : Z)
  : option ec_fmmu_config_t :=
  match todo with
  | [] => None
  | fmmu :: todo' =>
      if negb (pos =? 0) then find_fmmu_walk todo' (wrap32 (pos - 1))
      else Some fmmu
  end.

(** [ec_domain_find_fmmu]; [None] is [NULL]. *)
Definition ec_domain_find_fmmu (domain : ec_domain_t) (pos : Z)
  : option ec_fmmu_config_t :=
  find_fmmu_walk (fmmu_configs domain) pos.

(** ** More notions for the properties *)

(** Sum of the sizes of a list of FMMU configurations, and of the payload
    sizes of a list of pairs. *)
Definition fmmu_sizes_sum (l : list ec_fmmu_config_t) : Z :=
  foldr (λ f acc, fmmu_data_size f + acc) 0 l.

Definition pair_sizes_sum (l : list ec_datagram_pair_t) : Z :=
  foldr (λ p acc, dg_data_size (main_datagram p) + acc) 0 l.

(** The FMMU configuration with its logical address moved by [base]. *)
Definition relocate (base : Z) (f : ec_fmmu_config_t) : ec_fmmu_config_t :=
  {| sc := sc f; dir := dir f;
     logical_start_address := wrap32 (logical_start_address f + base);
     fmmu_data_size := fmmu_data_size f |}.

(** The pairs lie one after the other in the process image, from the
    offset [off] to the offset [off'], and the logical address of each is
    its offset moved by [base]. *)
Fixpoint tiled (base off : Z) (pairs : list ec_datagram_pair_t) (off' : Z)
  : Prop :=
  match pairs with
  | [] => off' = off
  | p :: ps =>
      main_data p = off
      ∧ dg_address (main_datagram p) = wrap32 (base + off)
      ∧ tiled base (off + dg_data_size (main_datagram p)) ps off'
  end.

(** The FMMU configurations lie one after the other from the offset
    [off], as registration leaves them. *)
Fixpoint starts_at (off : Z) (l : list ec_fmmu_config_t) : Prop :=
  match l with
  | [] => True
  | f :: l' =>
      logical_start_address f = off
      ∧ starts_at (off + fmmu_data_size f) l'
  end.

(** An input FMMU configuration that starts inside a pair ends inside
    it, and its size is not negative. *)
Definition inputs_fit (fmmus : list ec_fmmu_config_t)
    (pairs : list ec_datagram_pair_t) : Prop :=
  ∀ f p, f ∈ fmmus → dir f = EC_DIR_INPUT → p ∈ pairs →
    let off := wrap32 (logical_start_address f
                       - dg_address (main_datagram p)) in
    off < dg_data_size (main_datagram p) →
    0 ≤ fmmu_data_size f
    ∧ off + fmmu_data_size f ≤ dg_data_size (main_datagram p).

(** The domain as a complete [ec_domain_finish] at [base] leaves it for
    the FMMU configurations [l0] that registration laid out from offset 0:
    the configurations are relocated, they are not empty, the pairs tile
    the image up to the sum of their sizes, which is below 2^32, and the
    image is there. *)
Definition laid_out (base : Z) (l0 : list ec_fmmu_config_t)
    (domain : ec_domain_t) : Prop :=
  fmmu_configs domain = relocate base <$> l0
  ∧ starts_at 0 l0
  ∧ Forall (λ f, 0 < fmmu_data_size f) l0
  ∧ fmmu_sizes_sum l0 < 4294967296
  ∧ tiled base 0 (datagram_pairs domain) (fmmu_sizes_sum l0)
  ∧ Forall (λ p, 0 ≤ dg_data_size (main_datagram p)) (datagram_pairs domain)
  ∧ is_Some (data domain).

(** What the loop of [ecrt_domain_process] keeps on such a domain when
    it is at the offset [o]: the current pair starts at or before [o]. *)
Definition pair_before (pairs : list ec_datagram_pair_t) (o : Z)
    (l : process_locals) : Prop :=
  ∃ idx p, pl_datagram_pair l = Some idx ∧ pairs !! idx = Some p
           ∧ main_data p ≤ o.

(** ** Further examples *)

(** A platform on which no allocation succeeds. *)
Definition no_memory_platform : Platform :=
  {| EC_MAX_DATA_SIZE := 1486; HZ := 250; BITS_PER_LONG := 64;
     kmalloc_ok := λ _, false; pair_init_ret := λ _, 0;
     unused_row := (EC_DATAGRAM_LRD, 0);
     ec_datagram_pair_process :=
       λ p, dg_working_counter (main_datagram p)
            + dg_working_counter (backup_datagram p) |}.

(** Two input FMMU configurations of 1000 bytes of two slave
    configurations, as registered and after [ec_domain_finish]: they do
    not fit into one datagram together. *)
Definition two_inputs : ec_domain_t :=
  register [(1%nat, EC_DIR_INPUT, 1000); (2%nat, EC_DIR_INPUT, 1000)].

Definition packed_domain : ec_domain_t :=
  (ec_domain_finish (H:=example_platform) kernel_boot two_inputs 4096).1.2.

(** An output FMMU configuration of four bytes on a domain whose image the
    application provides. *)
Definition external_domain : ec_domain_t :=
  (ecrt_domain_external_memory (register [(1%nat, EC_DIR_OUTPUT, 4)])
     (Some [1; 2; 3; 4])).1.

(** ** The used counts of a pair in the words of the packing section *)

(** The platform of the examples, with [row] for what the pair constructor
    does with the used counts [(0, 0)]. *)
Definition platform_with_row (row : ec_datagram_type_t * Z) : Platform :=
  {| EC_MAX_DATA_SIZE := 1486; HZ := 250; BITS_PER_LONG := 64;
     kmalloc_ok := λ _, true; pair_init_ret := λ _, 0;
     unused_row := row;
     ec_datagram_pair_process :=
       λ p, dg_working_counter (main_datagram p)
            + dg_working_counter (backup_datagram p) |}.

(** Modelled from the spec: the table of the packing section row by row,
    command and expected working counter by used counts. It has no row for
    the counts [(0, 0)]. *)
Definition spec_table_row (u : Z * Z) : option (ec_datagram_type_t * Z) :=
  let '(used_out, used_in) := u in
  if used_out =? 0 then
    if used_in =? 0 then None else Some (EC_DATAGRAM_LRD, used_in)
  else
    if used_in =? 0 then Some (EC_DATAGRAM_LWR, used_out)
    else Some (EC_DATAGRAM_LRW, 3 * used_out + used_in).

(** The pair has the command and the expected working counter of a row of
    the table, the row of its used counts. *)
Definition in_table (p : ec_datagram_pair_t) : Prop :=
  spec_table_row (used p)
  = Some (dg_type (main_datagram p), pair_expected_working_counter p).

(** The FMMU configurations a pair carries: those that start inside its
    logical window. *)
Definition pair_members (fmmus : list ec_fmmu_config_t)
    (p : ec_datagram_pair_t) : list ec_fmmu_config_t :=
  filter (λ f, dg_address (main_datagram p) ≤ logical_start_address f
               < dg_address (main_datagram p)
                 + dg_data_size (main_datagram p)) fmmus.

(** The used counts when each combination of slave configuration and
    direction among the FMMU configurations the pair carries contributes
    once. *)
Definition members_used (fmmus : list ec_fmmu_config_t)
    (p : ec_datagram_pair_t) : Z * Z :=
  let keys := remove_dups (key <$> pair_members fmmus p) in
  (count_dir EC_DIR_OUTPUT keys, count_dir EC_DIR_INPUT keys).

(** Command and expected working counter of the pairs of a domain. *)
Definition pair_rows (d : ec_domain_t) : list (ec_datagram_type_t * Z) :=
  (λ p, (dg_type (main_datagram p), pair_expected_working_counter p))
    <$> datagram_pairs d.

(** ** The pair the reconciliation has reached *)

(** The start of the last input FMMU configuration of a list, [acc] when
    it has none. *)
Definition last_input_start (acc : option Z) (l : list ec_fmmu_config_t)
  : option Z :=
  foldl (λ a f, match dir f with
                | EC_DIR_INPUT => Some (logical_start_address f)
                | EC_DIR_OUTPUT => a
                end) acc l.

(** The current pair of the locals holds the image offset [o]. *)
Definition pair_holds (pairs : list ec_datagram_pair_t) (o : Z)
    (l : process_locals) : Prop :=
  ∃ idx p, pl_datagram_pair l = Some idx ∧ pairs !! idx = Some p
           ∧ main_data p ≤ o < main_data p + dg_data_size (main_datagram p).

(** The current pair of the locals is the pair that holds the start
    [last] of the last input FMMU configuration; it is the first pair
    (none without pairs) when there is no input FMMU configuration. *)
Definition reached_pair (pairs : list ec_datagram_pair_t)
    (last : option Z) (l : process_locals) : Prop :=
  match last with
  | None =>
      pl_datagram_pair l
      = match pairs with [] => None | _ :: _ => Some 0%nat end
  | Some o => pair_holds pairs o l
  end.

(** The number of pairs up to the current pair of the locals. *)
Definition pairs_reached (l : process_locals) : nat :=
  match pl_datagram_pair l with
  | Some idx => S idx
  | None => 0
  end.

(** Three output FMMU configurations of three slave configurations in
    two pairs, after [ec_domain_finish] and a cycle in which every slave
    answered. *)
Definition two_output_pairs : ec_domain_t :=
  wire_complete
    (ec_domain_finish (H:=example_platform) kernel_boot
       (register [(1%nat, EC_DIR_OUTPUT, 1000); (2%nat, EC_DIR_OUTPUT, 1000);
                  (3%nat, EC_DIR_OUTPUT, 400)]) 4096).1.2.

End Domain.

(** * The per-slave request state machine ([master/fsm_slave.c]) *)

Module FsmSlave.

(** ** Data model *)

Inductive ec_internal_request_state_t :=
| EC_INT_REQUEST_INIT
| EC_INT_REQUEST_QUEUED
| EC_INT_REQUEST_BUSY
| EC_INT_REQUEST_SUCCESS
| EC_INT_REQUEST_FAILURE.

#[export] Instance ec_internal_request_state_eq_dec :
  EqDecision ec_internal_request_state_t.
Proof. solve_decision. Defined.

Inductive ec_datagram_state_t :=
| EC_DATAGRAM_INIT
| EC_DATAGRAM_QUEUED
| EC_DATAGRAM_SENT
| EC_DATAGRAM_RECEIVED
| EC_DATAGRAM_TIMED_OUT
| EC_DATAGRAM_ERROR.

#[export] Instance ec_datagram_state_eq_dec : EqDecision ec_datagram_state_t.
Proof. solve_decision. Defined.

Inductive ec_datagram_type_t :=
| EC_DATAGRAM_NONE
| EC_DATAGRAM_FPRD
| EC_DATAGRAM_FPWR.

(** The state of the machine: in C [fsm->state] points to one of the
    functions [ec_fsm_slave_state_idle], [ec_fsm_slave_state_ready], ...;
    here it names it. *)
Inductive fsm_state :=
| STATE_IDLE
| STATE_READY
| STATE_SDO_REQUEST
| STATE_REG_REQUEST
| STATE_FOE_REQUEST
| STATE_SOE_REQUEST.

#[export] Instance fsm_state_eq_dec : EqDecision fsm_state.
Proof. solve_decision. Defined.

(** The wait queues of the slave that [wake_up] is called on. *)
Inductive wait_queue := sdo_queue | reg_queue | foe_queue | soe_queue.

#[export] Instance wait_queue_eq_dec : EqDecision wait_queue.
Proof. solve_decision. Defined.

(** The AL-state constants of [globals.h], which is not among the
    sources. *)
Class AlStates := {
  EC_SLAVE_STATE_INIT : Z;
  EC_SLAVE_STATE_ACK_ERR : Z
}.

(** Register request. *)
Record ec_reg_request_t := {
  reg_dir : Domain.ec_direction_t;
  reg_address : Z;
  transfer_size : Z;
  reg_data : list Z;
  reg_state : ec_internal_request_state_t
}.

Definition set_reg_state (s : ec_internal_request_state_t)
    (r : ec_reg_request_t) : ec_reg_request_t :=
  {| reg_dir := reg_dir r; reg_address := reg_address r;
     transfer_size := transfer_size r; reg_data := reg_data r;
     reg_state := s |}.

Definition set_reg_data (bytes : list Z) (r : ec_reg_request_t)
  : ec_reg_request_t :=
  {| reg_dir := reg_dir r; reg_address := reg_address r;
     transfer_size := transfer_size r; reg_data := bytes;
     reg_state := reg_state r |}.

(** The datagram the machine borrows from its slave. *)
Record ec_datagram_t := {
  dg_type : ec_datagram_type_t;
  dg_station_address : Z;
  dg_mem_address : Z;
  dg_data : list Z;
  dg_data_size : Z;
  dg_working_counter : Z;
  dg_state : ec_datagram_state_t;
  dg_device_index : Z
}.

(** The slave, with the fields [fsm_slave.c] reads. A request queue holds
    the addresses of the queued request objects, head first. [config] is
    [slave->config]; when set it gives the list [config->reg_requests]. *)
Record ec_slave_t := {
  current_state : Z;
  station_address : Z;
  device_index : Z;
  config : option (list nat);
  sdo_requests : list nat;
  reg_requests : list nat;
  foe_requests : list nat;
  soe_requests : list nat
}.

(** [ec_fsm_slave_t]: the state and the current request of each kind. *)
Record ec_fsm_slave_t := {
  state : fsm_state;
  sdo_request : option nat;
  reg_request : option nat;
  foe_request : option nat;
  soe_request : option nat
}.

(** The request objects, by address. Of an SDO, FoE or SoE request only
    the state is read or written here. *)
Record heap := {
  sdo_objs : gmap nat ec_internal_request_state_t;
  reg_objs : gmap nat ec_reg_request_t;
  foe_objs : gmap nat ec_internal_request_state_t;
  soe_objs : gmap nat ec_internal_request_state_t
}.

(** Everything a step of the machine touches. [woken] lists the calls of
    [wake_up], oldest first; [ext_queued] counts the calls of
    [ec_master_queue_external_datagram]. *)
Record world := {
  slave : ec_slave_t;
  fsm : ec_fsm_slave_t;
  datagram : ec_datagram_t;
  objs : heap;
  woken : list wait_queue;
  ext_queued : nat
}.

(** What the CoE, FoE and SoE machines answer in one step: whether
    [exec] returns non-zero, and [success]. *)
Record answers := {
  coe_exec : bool; coe_success : bool;
  foe_exec : bool; foe_success : bool;
  soe_exec : bool; soe_success : bool
}.

(** ** Field updates *)

Definition set_slave (s : ec_slave_t) (w : world) : world :=
  {| slave := s; fsm := fsm w; datagram := datagram w; objs := objs w;
     woken := woken w; ext_queued := ext_queued w |}.

Definition set_fsm (f : ec_fsm_slave_t) (w : world) : world :=
  {| slave := slave w; fsm := f; datagram := datagram w; objs := objs w;
     woken := woken w; ext_queued := ext_queued w |}.

Definition set_datagram (d : ec_datagram_t) (w : world) : world :=
  {| slave := slave w; fsm := fsm w; datagram := d; objs := objs w;
     woken := woken w; ext_queued := ext_queued w |}.

Definition set_objs (h : heap) (w : world) : world :=
  {| slave := slave w; fsm := fsm w; datagram := datagram w; objs := h;
     woken := woken w; ext_queued := ext_queued w |}.

(** [wake_up(&slave->q)]. *)
Definition wake_up (q : wait_queue) (w : world) : world :=
  {| slave := slave w; fsm := fsm w; datagram := datagram w;
     objs := objs w; woken := woken w ++ [q];
     ext_queued := ext_queued w |}.

(** [ec_master_queue_external_datagram(master, fsm->datagram)]. *)
Definition ec_master_queue_external_datagram (w : world) : world :=
  {| slave := slave w; fsm := fsm w; datagram := datagram w;
     objs := objs w; woken := woken w;
     ext_queued := S (ext_queued w) |}.

Definition set_state (s : fsm_state) (w : world) : world :=
  set_fsm {| state := s; sdo_request := sdo_request (fsm w);
             reg_request := reg_request (fsm w);
             foe_request := foe_request (fsm w);
             soe_request := soe_request (fsm w) |} w.

Definition set_sdo_request (r : option nat) (w : world) : world :=
  set_fsm {| state := state (fsm w); sdo_request := r;
             reg_request := reg_request (fsm w);
             foe_request := foe_request (fsm w);
             soe_request := soe_request (fsm w) |} w.

Definition set_reg_request (r : option nat) (w : world) : world :=
  set_fsm {| state := state (fsm w); sdo_request := sdo_request (fsm w);
             reg_request := r;
             foe_request := foe_request (fsm w);
             soe_request := soe_request (fsm w) |} w.

Definition set_foe_request (r : option nat) (w : world) : world :=
  set_fsm {| state := state (fsm w); sdo_request := sdo_request (fsm w);
             reg_request := reg_request (fsm w);
             foe_request := r;
             soe_request := soe_request (fsm w) |} w.

Definition set_soe_request (r : option nat) (w : world) : world :=
  set_fsm {| state := state (fsm w); sdo_request := sdo_request (fsm w);
             reg_request := reg_request (fsm w);
             foe_request := foe_request (fsm w);
             soe_request := r |} w.

(** [request->state = s] for the request object at address [r]. *)
Definition store_sdo_state (r : nat) (s : ec_internal_request_state_t)
    (w : world) : world :=
  set_objs {| sdo_objs := <[r := s]> (sdo_objs (objs w));
              reg_objs := reg_objs (objs w);
              foe_objs := foe_objs (objs w);
              soe_objs := soe_objs (objs w) |} w.

Definition store_foe_state (r : nat) (s : ec_internal_request_state_t)
    (w : world) : world :=
  set_objs {| sdo_objs := sdo_objs (objs w);
              reg_objs := reg_objs (objs w);
              foe_objs := <[r := s]> (foe_objs (objs w));
              soe_objs := soe_objs (objs w) |} w.

Definition store_soe_state (r : nat) (s : ec_internal_request_state_t)
    (w : world) : world :=
  set_objs {| sdo_objs := sdo_objs (objs w);
              reg_objs := reg_objs (objs w);
              foe_objs := foe_objs (objs w);
              soe_objs := <[r := s]> (soe_objs (objs w)) |} w.

Definition store_reg (r : nat) (f : ec_reg_request_t -> ec_reg_request_t)
    (w : world) : world :=
  set_objs {| sdo_objs := sdo_objs (objs w);
              reg_objs := alter f r (reg_objs (objs w));
              foe_objs := foe_objs (objs w);
              soe_objs := soe_objs (objs w) |} w.

Definition set_sdo_requests (l : list nat) (w : world) : world :=
  set_slave {| current_state := current_state (slave w);
               station_address := station_address (slave w);
               device_index := device_index (slave w);
               config := config (slave w);
               sdo_requests := l;
               reg_requests := reg_requests (slave w);
               foe_requests := foe_requests (slave w);
               soe_requests := soe_requests (slave w) |} w.

Definition set_reg_requests (l : list nat) (w : world) : world :=
  set_slave {| current_state := current_state (slave w);
               station_address := station_address (slave w);
               device_index := device_index (slave w);
               config := config (slave w);
               sdo_requests := sdo_requests (slave w);
               reg_requests := l;
               foe_requests := foe_requests (slave w);
               soe_requests := soe_requests (slave w) |} w.

Definition set_foe_requests (l : list nat) (w : world) : world :=
  set_slave {| current_state := current_state (slave w);
               station_address := station_address (slave w);
               device_index := device_index (slave w);
               config := config (slave w);
               sdo_requests := sdo_requests (slave w);
               reg_requests := reg_requests (slave w);
               foe_requests := l;
               soe_requests := soe_requests (slave w) |} w.

Definition set_soe_requests (l : list nat) (w : world) : world :=
  set_slave {| current_state := current_state (slave w);
               station_address := station_address (slave w);
               device_index := device_index (slave w);
               config := config (slave w);
               sdo_requests := sdo_requests (slave w);
               reg_requests := reg_requests (slave w);
               foe_requests := foe_requests (slave w);
               soe_requests := l |} w.

(** [slave->current_state & EC_SLAVE_STATE_ACK_ERR]. *)
Definition has_ack_err `{AlStates} (w : world) : bool :=
  negb (Z.land (current_state (slave w)) EC_SLAVE_STATE_ACK_ERR =? 0).

(** [slave->current_state == EC_SLAVE_STATE_INIT]. *)
Definition in_init `{AlStates} (w : world) : bool :=
  current_state (slave w) =? EC_SLAVE_STATE_INIT.

(** ** Constructor and entry points *)

(** [ec_fsm_slave_init]. It writes [fsm->state] and
    [fsm->datagram->data_size]; the request references keep what the memory
    of the structure held, which is [w] here. *)
Definition ec_fsm_slave_init (w : world) : world :=
  set_state STATE_IDLE
    (set_datagram
       {| dg_type := dg_type (datagram w);
          dg_station_address := dg_station_address (datagram w);
          dg_mem_address := dg_mem_address (datagram w);
          dg_data := dg_data (datagram w);
          dg_data_size := 0;
          dg_working_counter := dg_working_counter (datagram w);
          dg_state := dg_state (datagram w);
          dg_device_index := dg_device_index (datagram w) |} w).

(** [ec_fsm_slave_ready]. *)
Definition ec_fsm_slave_ready (w : world) : world :=
  if bool_decide (state (fsm w) = STATE_IDLE)
  then set_state STATE_READY w
  else w.

(** ** SDO requests *)

(** [ec_fsm_slave_action_process_sdo]. The loop returns in its first
    round, so only the head of the queue is looked at. The steps of the
    CoE machine ([ec_fsm_coe_transfer], [ec_fsm_coe_exec]) act on parts
    that are not modelled. *)
Definition ec_fsm_slave_action_process_sdo `{AlStates} (w : world)
  : Z * world :=
  match sdo_requests (slave w) with
  | [] => (0, w)
  | request :: rest =>
      let w1 := set_sdo_requests rest w in (* dequeue *)
      if has_ack_err w1 then
        (0, set_state STATE_IDLE
              (set_sdo_request None
                 (wake_up sdo_queue
                    (store_sdo_state request EC_INT_REQUEST_FAILURE w1))))
      else if in_init w1 then
        (0, set_state STATE_IDLE
              (set_sdo_request None
                 (wake_up sdo_queue
                    (store_sdo_state request EC_INT_REQUEST_FAILURE w1))))
      else
        (1, ec_master_queue_external_datagram
              (set_state STATE_SDO_REQUEST
                 (set_sdo_request (Some request)
                    (store_sdo_state request EC_INT_REQUEST_BUSY w1))))
  end.

(** [ec_fsm_slave_state_sdo_request]. [None] is the fault of writing
    through [fsm->sdo_request] when it is [NULL]. *)
Definition ec_fsm_slave_state_sdo_request (a : answers) (w : world)
  : option world :=
  if coe_exec a then Some (ec_master_queue_external_datagram w)
  else
    request ← sdo_request (fsm w);
    if negb (coe_success a) then
      Some (set_state STATE_READY
              (set_sdo_request None
                 (wake_up sdo_queue
                    (store_sdo_state request EC_INT_REQUEST_FAILURE w))))
    else
      Some (set_state STATE_READY
              (set_sdo_request None
                 (wake_up sdo_queue
                    (store_sdo_state request EC_INT_REQUEST_SUCCESS w)))).

(** ** Register requests *)

(** The search of [slave->config->reg_requests] for the first request in
    state [EC_INT_REQUEST_QUEUED]. *)
Definition find_internal_reg (w : world) : option nat :=
  match config (slave w) with
  | Some regs =>
      list_find
        (λ r, reg_state <$> reg_objs (objs w) !! r
              = Some EC_INT_REQUEST_QUEUED) regs
      ≫= λ ir, Some ir.2
  | None => None
  end.

(** [ec_datagram_fprd] followed by [ec_datagram_zero]. *)
Definition datagram_fprd_zero (station addr size : Z) (d : ec_datagram_t)
  : ec_datagram_t :=
  {| dg_type := EC_DATAGRAM_FPRD; dg_station_address := station;
     dg_mem_address := addr;
     dg_data := replicate (Z.to_nat size) 0;
     dg_data_size := size;
     dg_working_counter := dg_working_counter d;
     dg_state := dg_state d; dg_device_index := dg_device_index d |}.

(** [ec_datagram_fpwr] followed by the [memcpy] of the request data. *)
Definition datagram_fpwr_copy (station addr size : Z) (bytes : list Z)
    (d : ec_datagram_t) : ec_datagram_t :=
  {| dg_type := EC_DATAGRAM_FPWR; dg_station_address := station;
     dg_mem_address := addr;
     dg_data := memcpy_at (dg_data d) 0 bytes size;
     dg_data_size := size;
     dg_working_counter := dg_working_counter d;
     dg_state := dg_state d; dg_device_index := dg_device_index d |}.

Definition set_dg_device_index (i : Z) (d : ec_datagram_t) : ec_datagram_t :=
  {| dg_type := dg_type d; dg_station_address := dg_station_address d;
     dg_mem_address := dg_mem_address d; dg_data := dg_data d;
     dg_data_size := dg_data_size d;
     dg_working_counter := dg_working_counter d;
     dg_state := dg_state d; dg_device_index := i |}.

(** [ec_fsm_slave_action_process_reg]. [None] is the fault of reading a
    request object that does not exist. *)
Definition ec_fsm_slave_action_process_reg `{AlStates} (w : world)
  : option (Z * world) :=
  let w0 := set_reg_request None w in
  let w1 := set_reg_request (find_internal_reg w0) w0 in
  let w2 :=
    match reg_request (fsm w1), reg_requests (slave w1) with
    | None, r :: rest =>
        (* take the first external request to be processed *)
        set_reg_requests rest (set_reg_request (Some r) w1)
    | _, _ => w1
    end in
  match reg_request (fsm w2) with
  | None => Some (0, w2) (* no register request to process *)
  | Some r =>
      if has_ack_err w2 then
        Some (1, set_state STATE_IDLE
                   (wake_up reg_queue
                      (store_reg r (set_reg_state EC_INT_REQUEST_FAILURE)
                         w2)))
      else
        req ← reg_objs (objs w2) !! r;
        let w3 := store_reg r (set_reg_state EC_INT_REQUEST_BUSY) w2 in
        let dg :=
          match reg_dir req with
          | Domain.EC_DIR_INPUT =>
              datagram_fprd_zero (station_address (slave w3))
                (reg_address req) (transfer_size req) (datagram w3)
          | Domain.EC_DIR_OUTPUT =>
              datagram_fpwr_copy (station_address (slave w3))
                (reg_address req) (transfer_size req) (reg_data req)
                (datagram w3)
          end in
        Some (1, set_state STATE_REG_REQUEST
                   (ec_master_queue_external_datagram
                      (set_datagram
                         (set_dg_device_index (device_index (slave w3)) dg)
                         w3)))
  end.

(** [ec_fsm_slave_state_reg_request]. *)
Definition ec_fsm_slave_state_reg_request (w : world) : option world :=
  match reg_request (fsm w) with
  | None =>
      (* configuration was cleared in the meantime *)
      Some (set_state STATE_READY w)
  | Some r =>
      if bool_decide (dg_state (datagram w) ≠ EC_DATAGRAM_RECEIVED) then
        Some (set_state STATE_READY
                (wake_up reg_queue
                   (store_reg r (set_reg_state EC_INT_REQUEST_FAILURE) w)))
      else
        req ← reg_objs (objs w) !! r;
        let w1 :=
          if dg_working_counter (datagram w) =? 1 then
            let w0 :=
              match reg_dir req with
              | Domain.EC_DIR_INPUT => (* read request *)
                  store_reg r
                    (λ q, set_reg_data
                            (memcpy_at (reg_data q) 0 (dg_data (datagram w))
                               (transfer_size q)) q) w
              | Domain.EC_DIR_OUTPUT => w
              end in
            store_reg r (set_reg_state EC_INT_REQUEST_SUCCESS) w0
          else store_reg r (set_reg_state EC_INT_REQUEST_FAILURE) w in
        Some (set_state STATE_READY (wake_up reg_queue w1))
  end.

(** ** FoE requests *)

(** [ec_fsm_slave_action_process_foe]. *)
Definition ec_fsm_slave_action_process_foe `{AlStates} (w : world)
  : Z * world :=
  match foe_requests (slave w) with
  | [] => (0, w)
  | request :: rest =>
      let w1 := set_foe_requests rest w in (* dequeue *)
      if has_ack_err w1 then
        (0, wake_up sdo_queue
              (store_foe_state request EC_INT_REQUEST_FAILURE w1))
      else
        (1, ec_master_queue_external_datagram
              (set_state STATE_FOE_REQUEST
                 (set_foe_request (Some request)
                    (store_foe_state request EC_INT_REQUEST_BUSY w1))))
  end.

(** [ec_fsm_slave_state_foe_request]. *)
Definition ec_fsm_slave_state_foe_request (a : answers) (w : world)
  : option world :=
  if foe_exec a then Some (ec_master_queue_external_datagram w)
  else
    request ← foe_request (fsm w);
    if negb (foe_success a) then
      Some (set_state STATE_READY
              (set_foe_request None
                 (wake_up foe_queue
                    (store_foe_state request EC_INT_REQUEST_FAILURE w))))
    else
      Some (set_state STATE_READY
              (set_foe_request None
                 (wake_up foe_queue
                    (store_foe_state request EC_INT_REQUEST_SUCCESS w)))).

(** ** SoE requests *)

(** [ec_fsm_slave_action_process_soe]. *)
Definition ec_fsm_slave_action_process_soe `{AlStates} (w : world)
  : Z * world :=
  match soe_requests (slave w) with
  | [] => (0, w)
  | req :: rest =>
      let w1 := set_soe_requests rest w in (* dequeue *)
      if has_ack_err w1 then
        (0, set_state STATE_IDLE
              (wake_up soe_queue
                 (store_soe_state req EC_INT_REQUEST_FAILURE w1)))
      else if in_init w1 then
        (0, set_state STATE_IDLE
              (wake_up soe_queue
                 (store_soe_state req EC_INT_REQUEST_FAILURE w1)))
      else
        (1, ec_master_queue_external_datagram
              (set_state STATE_SOE_REQUEST
                 (set_soe_request (Some req)
                    (store_soe_state req EC_INT_REQUEST_BUSY w1))))
  end.

(** [ec_fsm_slave_state_soe_request]. *)
Definition ec_fsm_slave_state_soe_request (a : answers) (w : world)
  : option world :=
  if soe_exec a then Some (ec_master_queue_external_datagram w)
  else
    request ← soe_request (fsm w);
    if negb (soe_success a) then
      Some (set_state STATE_READY
              (set_soe_request None
                 (wake_up soe_queue
                    (store_soe_state request EC_INT_REQUEST_FAILURE w))))
    else
      Some (set_state STATE_READY
              (set_soe_request None
                 (wake_up soe_queue
                    (store_soe_state request EC_INT_REQUEST_SUCCESS w)))).

(** ** The states *)

(** [ec_fsm_slave_state_ready]: the four checks in their fixed order; a
    check that returns zero lets the next one run. *)
Definition ec_fsm_slave_state_ready `{AlStates} (w : world)
  : option world :=
  let '(r1, w1) := ec_fsm_slave_action_process_sdo w in
  if negb (r1 =? 0) then Some w1
  else
    '(r2, w2) ← ec_fsm_slave_action_process_reg w1;
    if negb (r2 =? 0) then Some w2
    else
      let '(r3, w3) := ec_fsm_slave_action_process_foe w2 in
      if negb (r3 =? 0) then Some w3
      else Some (ec_fsm_slave_action_process_soe w3).2.

(** The call [fsm->state(fsm)]. *)
Definition run_state `{AlStates} (a : answers) (w : world) : option world :=
  match state (fsm w) with
  | STATE_IDLE => Some w (* ec_fsm_slave_state_idle: do nothing *)
  | STATE_READY => ec_fsm_slave_state_ready w
  | STATE_SDO_REQUEST => ec_fsm_slave_state_sdo_request a w
  | STATE_REG_REQUEST => ec_fsm_slave_state_reg_request w
  | STATE_FOE_REQUEST => ec_fsm_slave_state_foe_request a w
  | STATE_SOE_REQUEST => ec_fsm_slave_state_soe_request a w
  end.

(** [ec_fsm_slave_exec]. *)
Definition ec_fsm_slave_exec `{AlStates} (a : answers) (w : world)
  : option world :=
  if bool_decide (dg_state (datagram w) = EC_DATAGRAM_SENT)
     || bool_decide (dg_state (datagram w) = EC_DATAGRAM_QUEUED)
  then Some w (* datagram was not sent or received yet. *)
  else run_state a w.

(** ** Runs of the machine *)

(** What the rest of the master and the application may do between two
    steps: anything to the slave, the datagram and the request objects; of
    the machine itself they only clear [reg_request], when the slave
    configuration goes away. *)
Definition env_step (w w' : world) : Prop :=
  state (fsm w') = state (fsm w)
  ∧ sdo_request (fsm w') = sdo_request (fsm w)
  ∧ foe_request (fsm w') = foe_request (fsm w)
  ∧ soe_request (fsm w') = soe_request (fsm w)
  ∧ (reg_request (fsm w') = reg_request (fsm w)
     ∨ reg_request (fsm w') = None).

(** The memory of a machine that holds no request reference. *)
Definition no_request (w : world) : Prop :=
  sdo_request (fsm w) = None ∧ reg_request (fsm w) = None
  ∧ foe_request (fsm w) = None ∧ soe_request (fsm w) = None.

(** The states between steps of a machine constructed in memory that held
    no request reference. *)
Inductive reachable `{AlStates} : world -> Prop :=
| reach_init w : no_request w -> reachable (ec_fsm_slave_init w)
| reach_exec a w w' :
    reachable w -> ec_fsm_slave_exec a w = Some w' -> reachable w'
| reach_ready w : reachable w -> reachable (ec_fsm_slave_ready w)
| reach_env w w' : reachable w -> env_step w w' -> reachable w'.

(** ** Notions the properties are stated with *)

(** The references of the SDO, FoE and SoE kinds agree with the state:
    the reference of a kind is set in the request state of that kind and
    in no other state. *)
Definition refs_inv (w : world) : Prop :=
  match state (fsm w) with
  | STATE_SDO_REQUEST =>
      is_Some (sdo_request (fsm w)) ∧ foe_request (fsm w) = None
      ∧ soe_request (fsm w) = None
  | STATE_FOE_REQUEST =>
      sdo_request (fsm w) = None ∧ is_Some (foe_request (fsm w))
      ∧ soe_request (fsm w) = None
  | STATE_SOE_REQUEST =>
      sdo_request (fsm w) = None ∧ foe_request (fsm w) = None
      ∧ is_Some (soe_request (fsm w))
  | _ =>
      sdo_request (fsm w) = None ∧ foe_request (fsm w) = None
      ∧ soe_request (fsm w) = None
  end.

(** ** Worlds to run examples on *)

(** The AL-state codes of the EtherCAT standard: INIT is 1, the error flag
    is bit 4. *)
Definition example_al_states : AlStates :=
  {| EC_SLAVE_STATE_INIT := 1; EC_SLAVE_STATE_ACK_ERR := 16 |}.

(** A slave in the AL-state [al] without requests, a machine whose memory
    is zero, an unused datagram. *)
Definition blank_world (al : Z) : world :=
  {| slave := {| current_state := al; station_address := 1001;
                 device_index := 0; config := None;
                 sdo_requests := []; reg_requests := [];
                 foe_requests := []; soe_requests := [] |};
     fsm := {| state := STATE_IDLE; sdo_request := None;
               reg_request := None; foe_request := None;
               soe_request := None |};
     datagram := {| dg_type := EC_DATAGRAM_NONE; dg_station_address := 0;
                    dg_mem_address := 0; dg_data := [0; 0; 0; 0];
                    dg_data_size := 0; dg_working_counter := 0;
                    dg_state := EC_DATAGRAM_INIT; dg_device_index := 0 |};
     objs := {| sdo_objs := ∅; reg_objs := ∅; foe_objs := ∅;
                soe_objs := ∅ |};
     woken := []; ext_queued := 0 |}.

(** The application queues the FoE request at address 7. *)
Definition submit_foe (w : world) : world :=
  store_foe_state 7 EC_INT_REQUEST_QUEUED (set_foe_requests [7%nat] w).

(** The application queues a register read request at address 5. *)
Definition submit_reg (w : world) : world :=
  set_objs {| sdo_objs := sdo_objs (objs w);
              reg_objs :=
                <[5%nat := {| reg_dir := Domain.EC_DIR_INPUT;
                              reg_address := 304; transfer_size := 2;
                              reg_data := [0; 0];
                              reg_state := EC_INT_REQUEST_QUEUED |}]>
                  (reg_objs (objs w));
              foe_objs := foe_objs (objs w);
              soe_objs := soe_objs (objs w) |}
    (set_reg_requests [5%nat] w).

(** The master hands the datagram back as received, with the working
    counter 1 and two bytes of data. *)
Definition receive_datagram (w : world) : world :=
  set_datagram
    {| dg_type := dg_type (datagram w);
       dg_station_address := dg_station_address (datagram w);
       dg_mem_address := dg_mem_address (datagram w);
       dg_data := [8; 0];
       dg_data_size := dg_data_size (datagram w);
       dg_working_counter := 1;
       dg_state := EC_DATAGRAM_RECEIVED;
       dg_device_index := dg_device_index (datagram w) |} w.

(** A machine that is ready, on a slave in OP with the error flag set (AL
    state 0x18), with one FoE request queued. *)
Definition foe_error_world : world :=
  submit_foe (ec_fsm_slave_ready (ec_fsm_slave_init (blank_world 24))).

(** A machine that is ready, on a slave in OP (AL state 0x08), with one
    register request queued. *)
Definition reg_world : world :=
  submit_reg (ec_fsm_slave_ready (ec_fsm_slave_init (blank_world 8))).

(** A step that sends nothing: the AL-state, the datagram and the number
    of queued datagrams are as before, and the state of the machine is as
    before or idle. *)
Definition quiet (w w' : world) : Prop :=
  current_state (slave w') = current_state (slave w)
  ∧ ext_queued w' = ext_queued w
  ∧ datagram w' = datagram w
  ∧ (state (fsm w') = state (fsm w) ∨ state (fsm w') = STATE_IDLE).

(** The datagram is with the master: [ec_fsm_slave_exec] skips the
    step. *)
Definition in_flight (w : world) : Prop :=
  dg_state (datagram w) = EC_DATAGRAM_SENT
  ∨ dg_state (datagram w) = EC_DATAGRAM_QUEUED.

(** ** Further examples *)

(** The machines of the protocols report that they are done, with
    success. *)
Definition done_answers : answers :=
  {| coe_exec := false; coe_success := true;
     foe_exec := false; foe_success := true;
     soe_exec := false; soe_success := true |}.

(** The application queues the SDO request at address 3. *)
Definition submit_sdo (w : world) : world :=
  store_sdo_state 3 EC_INT_REQUEST_QUEUED (set_sdo_requests [3%nat] w).

(** A machine that is ready, on a slave in the AL-state [al], with one
    SDO request queued. *)
Definition sdo_world (al : Z) : world :=
  submit_sdo (ec_fsm_slave_ready (ec_fsm_slave_init (blank_world al))).

End FsmSlave.

(** * Properties of the domain engine *)

Section DomainFacts.
Import Domain.
Context `{Platform}.

Lemma wrap16_add_l a b : wrap16 (wrap16 a + b) = wrap16 (a + b).
Proof. unfold wrap16. apply Zplus_mod_idemp_l. Qed.

Lemma pairs_expected_sum_snoc l p :
  pairs_expected_sum (l ++ [p])
  = pairs_expected_sum l + pair_expected_working_counter p.
Proof.
  unfold pairs_expected_sum.
  induction l as [|q l IH]; simpl; [lia|]. rewrite IH. lia.
Qed.

Lemma same_sc_dir_key a b : same_sc_dir a b = true ↔ key a = key b.
Proof.
  unfold same_sc_dir, key. rewrite andb_true_iff, !bool_decide_eq_true.
  split; [intros [-> ->]; done | intros [= -> ->]; done].
Qed.

Lemma shall_count_walk_nonzero l cur first n :
  shall_count_walk l cur first n ≠ 0 →
  ∀ m f, (first ≤ m < first + n)%nat → l !! m = Some f → key f ≠ key cur.
Proof.
  revert first. induction n as [|n IH]; intros first Hw m f Hm Hf; [lia|].
  simpl in Hw. destruct (l !! first) as [g|] eqn:Hg.
  - destruct (same_sc_dir g cur) eqn:Hs; [done|].
    destruct (decide (m = first)) as [->|Hne].
    + simplify_eq. intros Hk. apply same_sc_dir_key in Hk. congruence.
    + apply (IH (S first) Hw m f); [lia | done].
  - assert (l !! m = None); [|congruence].
    apply lookup_ge_None. apply lookup_ge_None in Hg. lia.
Qed.

(** The two outcomes of [ec_domain_add_datagram_pair]. *)
Lemma add_datagram_pair_cases k d lo size dp u ret d' k' :
  ec_domain_add_datagram_pair k d lo size dp u = (ret, d', k') →
  (ret ≠ 0 ∧ d' = d)
  ∨ (ret = 0
     ∧ d' = set_datagram_pairs
              (datagram_pairs d ++ [ec_datagram_pair_init lo dp size u])
              (set_expected_working_counter
                 (wrap16 (expected_working_counter d
                          + pair_expected_working_counter
                              (ec_datagram_pair_init lo dp size u))) d)).
Proof.
  unfold ec_domain_add_datagram_pair, kmalloc. simpl.
  destruct (kmalloc_ok _); simpl.
  - destruct (pair_init_ret _ =? 0) eqn:Hr; simpl; intros [= <- <- <-].
    + right. done.
    + left. split; [|done]. lia.
  - intros [= <- <- <-]. left. split; [|done]. unfold ENOMEM. lia.
Qed.

Lemma counted_window_once l0 first i u :
  counted_window (key <$> l0) first i u → counts_once l0 u.
Proof.
  intros (counted & Hnd & Hpos & Hu). exists counted. split_and!; [done| |done].
  intros c Hc. destruct (Hpos c Hc) as (m & _ & Hm).
  by eapply list_elem_of_lookup_2.
Qed.

Lemma count_dir_snoc d counted c :
  count_dir d (counted ++ [c])
  = count_dir d counted + (if decide (c.2 = d) then 1 else 0).
Proof.
  unfold count_dir. rewrite filter_app, length_app.
  rewrite filter_cons, filter_nil. destruct (decide (c.2 = d)); simpl; lia.
Qed.

(** Counting the entry at position [i] keeps the window exact. *)
Lemma counted_window_step l keys first i u cur :
  (first ≤ i)%nat →
  key <$> l = keys →
  l !! i = Some cur →
  counted_window keys first i u →
  counted_window keys first (S i)
    (if negb (shall_count l i first =? 0) then incr_used u (dir cur) else u).
Proof.
  intros Hle Hkeys Hcur (counted & Hnd & Hpos & ->).
  destruct (shall_count l i first =? 0) eqn:Hsc; simpl.
  - exists counted. split_and!; [done| |done].
    intros c Hc. destruct (Hpos c Hc) as (m & Hm & Hk). exists m. split; [lia|done].
  - exists (counted ++ [key cur]). split_and!.
    + apply NoDup_app. split_and!; [done| |apply NoDup_singleton].
      intros c Hc ->%list_elem_of_singleton.
      destruct (Hpos _ Hc) as (m & Hm & Hk).
      subst keys. rewrite list_lookup_fmap in Hk.
      destruct (l !! m) as [f|] eqn:Hf; [|done]. simpl in Hk.
      unfold shall_count in Hsc. rewrite Hcur in Hsc.
      apply Z.eqb_neq in Hsc.
      apply (shall_count_walk_nonzero _ _ _ _ Hsc m f); [lia|done|congruence].
    + intros c [Hc| ->%list_elem_of_singleton]%elem_of_app.
      * destruct (Hpos c Hc) as (m & Hm & Hk). exists m. split; [lia|done].
      * exists i. split; [lia|]. subst keys. by rewrite list_lookup_fmap, Hcur.
    + rewrite !count_dir_snoc. unfold key; simpl.
      destruct (dir cur); simpl; repeat case_decide; try done; f_equal; lia.
Qed.

Lemma pair_init_ok l0 lo dp size u :
  counts_once l0 u → pair_ok l0 (ec_datagram_pair_init lo dp size u).
Proof. intros Hu. by split_and!. Qed.

Lemma finish_loop_inv base l0 todo : ∀ i s ret s',
  finish_inv l0 i todo s →
  finish_loop base i todo s = (ret, s') →
  finish_post l0 s'.
Proof.
  induction todo as [|entry todo IH]; intros i s ret s' Hinv Hrun.
  - simpl in Hrun. simplify_eq.
    destruct Hinv as (Hk & _ & _ & He & Hp & Hw).
    split_and!; [done|done|done|by eapply counted_window_once].
  - destruct Hinv as (Hk & Hd & Hle & He & Hp & Hw).
    simpl in Hrun.
    set (fmmu := {| sc := sc entry; dir := dir entry;
                    logical_start_address := wrap32 (logical_start_address entry + base);
                    fmmu_data_size := fmmu_data_size entry |}) in *.
    set (l1 := <[i := fmmu]> (fmmu_configs (fin_domain s))) in *.
    assert (Hi : fmmu_configs (fin_domain s) !! i = Some entry).
    { rewrite <- (Nat.add_0_r i), <- lookup_drop, Hd. done. }
    assert (Hlen : (i < length (fmmu_configs (fin_domain s)))%nat)
      by (by eapply lookup_lt_Some).
    assert (Hk1 : key <$> l1 = key <$> l0).
    { unfold l1. rewrite list_fmap_insert, <- Hk. apply list_insert_id.
      by rewrite list_lookup_fmap, Hi. }
    assert (Hd1 : drop (S i) l1 = todo).
    { unfold l1. rewrite drop_insert_lt by lia.
      rewrite <- (Nat.add_1_r i), <- drop_drop, Hd. done. }
    assert (Hcur : l1 !! i = Some fmmu)
      by (unfold l1; by apply list_lookup_insert_eq).
    pose proof (counted_window_step l1 _ _ _ _ fmmu Hle Hk1 Hcur Hw) as Hw1.
    simpl in Hw1.
    destruct (EC_MAX_DATA_SIZE <? _) eqn:Hcut.
    + destruct (ec_domain_add_datagram_pair _ _ _ _ _ _) as [[r d2] k2] eqn:Hadd.
      apply add_datagram_pair_cases in Hadd.
      assert (Hd2 : fmmu_configs d2 = l1
                    ∧ expected_working_counter d2
                      = wrap16 (pairs_expected_sum (datagram_pairs d2))
                    ∧ Forall (pair_ok l0) (datagram_pairs d2)).
      { destruct Hadd as [[_ ->]|[_ ->]]; simpl; [done|].
        split_and!; [done| |].
        - rewrite pairs_expected_sum_snoc, He, wrap16_add_l. done.
        - apply Forall_app. split; [done|]. apply Forall_singleton.
          apply pair_init_ok. by eapply counted_window_once. }
      destruct Hd2 as (Hf2 & He2 & Hp2).
      destruct (r <? 0).
      * simplify_eq. split_and!; simpl; [by rewrite Hf2|done|done|].
        by eapply counted_window_once.
      * eapply IH; [|exact Hrun]. split_and!; simpl;
          [by rewrite Hf2|by rewrite Hf2|lia|done|done|].
        exists []. split_and!; [apply NoDup_nil_2| |done].
        intros c Hc. by apply elem_of_nil in Hc.
    + eapply IH; [|exact Hrun]. split_and!; simpl; [done|done|lia|done|done|done].
Qed.

Lemma count_dir_nonneg d counted : 0 ≤ count_dir d counted.
Proof. unfold count_dir. lia. Qed.

Lemma pair_ok_follows_table l0 p : pair_ok l0 p → follows_table p.
Proof.
  intros (He & Ht & counted & _ & _ & Hu). unfold follows_table.
  rewrite He, Ht, Hu. unfold pair_row.
  pose proof (count_dir_nonneg EC_DIR_OUTPUT counted).
  pose proof (count_dir_nonneg EC_DIR_INPUT counted).
  split_and!; intros Ho Hi.
  - rewrite Ho. simpl. destruct (Z.eqb_spec (count_dir EC_DIR_INPUT counted) 0); [lia|done].
  - rewrite Hi. destruct (Z.eqb_spec (count_dir EC_DIR_OUTPUT counted) 0); [lia|done].
  - destruct (Z.eqb_spec (count_dir EC_DIR_OUTPUT counted) 0); [lia|].
    destruct (Z.eqb_spec (count_dir EC_DIR_INPUT counted) 0); [lia|done].
Qed.

(** What [ec_domain_finish] leaves, in the terms of the loop. *)
Lemma finish_post_domain k domain base ret domain' k' :
  datagram_pairs domain = [] →
  expected_working_counter domain = 0 →
  ec_domain_finish k domain base = (ret, domain', k') →
  expected_working_counter domain'
  = wrap16 (pairs_expected_sum (datagram_pairs domain'))
  ∧ Forall (pair_ok (fmmu_configs domain)) (datagram_pairs domain').
Proof.
  intros Hp0 He0. unfold ec_domain_finish.
  set (domain0 := set_logical_base_address base domain).
  set (alloc := if _ : bool then _ else _).
  assert (Halloc : match alloc with
                   | inl (d1, _) | inr (d1, _) =>
                       fmmu_configs d1 = fmmu_configs domain
                       ∧ datagram_pairs d1 = []
                       ∧ expected_working_counter d1 = 0
                   end).
  { unfold alloc. destruct (_ && _); [|done].
    unfold kmalloc. simpl. by destruct (kmalloc_ok _). }
  destruct alloc as [[d1 k1]|[d1 k1]]; destruct Halloc as (Hf1 & Hp1 & He1).
  - intros [= <- <- <-]. rewrite Hp1, He1. done.
  - destruct (finish_loop _ _ _ _) as [r s] eqn:Hloop.
    apply (finish_loop_inv _ (fmmu_configs domain)) in Hloop.
    2:{ split_and!; simpl; [by rewrite Hf1|done|lia|by rewrite Hp1, He1|by rewrite Hp1|].
        exists []. split_and!; [apply NoDup_nil_2| |done].
        intros c Hc. by apply elem_of_nil in Hc. }
    destruct Hloop as (Hk & He & Hp & Hu).
    destruct (r <? 0); [intros [= <- <- <-]; done|].
    destruct (negb _); [|intros [= <- <- <-]; done].
    destruct (ec_domain_add_datagram_pair _ _ _ _ _ _) as [[r2 d2] k2] eqn:Hadd.
    apply add_datagram_pair_cases in Hadd.
    assert (expected_working_counter d2
            = wrap16 (pairs_expected_sum (datagram_pairs d2))
            ∧ Forall (pair_ok (fmmu_configs domain)) (datagram_pairs d2)) as Hd2.
    { destruct Hadd as [[_ ->]|[_ ->]]; simpl; [done|]. split.
      - rewrite pairs_expected_sum_snoc, He, wrap16_add_l. done.
      - apply Forall_app. split; [done|]. apply Forall_singleton.
        by apply pair_init_ok. }
    destruct (r2 <? 0); intros [= <- <- <-]; done.
Qed.

(** After [ec_domain_finish] on a domain that has no pairs yet, the
    expected working counter of the domain is the sum of the expected
    working counters of its pairs, as a 16 bit value (the sum itself when
    it fits); a pair whose used counts are not [(0, 0)] has the command
    and the expected working counter of the table for them, and no used
    count exceeds the number of combinations of slave configuration and
    direction in the domain. *)
Theorem finish_expected_working_counter k domain base ret domain' k' :
  datagram_pairs domain = [] →
  expected_working_counter domain = 0 →
  ec_domain_finish k domain base = (ret, domain', k') →
  expected_working_counter domain'
  = wrap16 (pairs_expected_sum (datagram_pairs domain'))
  ∧ (0 ≤ pairs_expected_sum (datagram_pairs domain') < 65536 →
     expected_working_counter domain'
     = pairs_expected_sum (datagram_pairs domain'))
  ∧ Forall (λ p, follows_table p
                 ∧ counts_once (fmmu_configs domain) (used p))
      (datagram_pairs domain').
Proof.
  intros Hp0 He0 Hfin.
  destruct (finish_post_domain _ _ _ _ _ _ Hp0 He0 Hfin) as [He Hp].
  split_and!; [done| |].
  - intros Hr. rewrite He. unfold wrap16. by apply Z.mod_small.
  - eapply Forall_impl; [exact Hp|]. intros p Hok. split.
    + by eapply pair_ok_follows_table.
    + by destruct Hok as (_ & _ & ?).
Qed.

(** ** Payload sizes *)

Lemma add_datagram_pair_sizes k d lo size dp u ret d' k' :
  size ≤ EC_MAX_DATA_SIZE →
  Forall (λ p, dg_data_size (main_datagram p) ≤ EC_MAX_DATA_SIZE)
    (datagram_pairs d) →
  ec_domain_add_datagram_pair k d lo size dp u = (ret, d', k') →
  Forall (λ p, dg_data_size (main_datagram p) ≤ EC_MAX_DATA_SIZE)
    (datagram_pairs d').
Proof.
  intros Hs Hp [[_ ->]|[_ ->]]%add_datagram_pair_cases; [done|]. simpl.
  apply Forall_app. split; [done|]. by apply Forall_singleton.
Qed.

Lemma finish_loop_sizes base todo : ∀ i s ret s',
  size_inv todo s →
  finish_loop base i todo s = (ret, s') →
  0 ≤ datagram_size s' ≤ EC_MAX_DATA_SIZE
  ∧ Forall (λ p, dg_data_size (main_datagram p) ≤ EC_MAX_DATA_SIZE)
      (datagram_pairs (fin_domain s')).
Proof.
  induction todo as [|entry todo IH]; intros i s ret s' (Hs & Ht & Hp) Hrun.
  - simpl in Hrun. by simplify_eq.
  - apply Forall_cons in Ht as [He Ht]. simpl in Hrun.
    destruct (EC_MAX_DATA_SIZE <? _) eqn:Hcut.
    + destruct (ec_domain_add_datagram_pair _ _ _ _ _ _)
        as [[r d2] k2] eqn:Hadd.
      apply add_datagram_pair_sizes in Hadd; [|lia|done].
      destruct (r <? 0).
      * by simplify_eq.
      * eapply IH; [|exact Hrun]. split_and!; simpl; [lia|lia|done|done].
    + apply Z.ltb_ge in Hcut.
      eapply IH; [|exact Hrun]. split_and!; simpl; [lia|lia|done|done].
Qed.

(** X23. When no FMMU configuration is larger than a datagram payload, no
    pair that [ec_domain_finish] emits is. *)
Lemma finish_payload_bound k domain base ret domain' k' :
  0 ≤ EC_MAX_DATA_SIZE →
  Forall (λ f, 0 ≤ fmmu_data_size f ≤ EC_MAX_DATA_SIZE)
    (fmmu_configs domain) →
  datagram_pairs domain = [] →
  ec_domain_finish k domain base = (ret, domain', k') →
  Forall (λ p, dg_data_size (main_datagram p) ≤ EC_MAX_DATA_SIZE)
    (datagram_pairs domain').
Proof.
  intros Hmax Hsz Hp0. unfold ec_domain_finish.
  set (domain0 := set_logical_base_address base domain).
  set (alloc := if _ : bool then _ else _).
  assert (Halloc : match alloc with
                   | inl (d1, _) | inr (d1, _) =>
                       fmmu_configs d1 = fmmu_configs domain
                       ∧ datagram_pairs d1 = []
                   end).
  { unfold alloc. destruct (_ && _); [|done].
    unfold kmalloc. simpl. by destruct (kmalloc_ok _). }
  destruct alloc as [[d1 k1]|[d1 k1]]; destruct Halloc as (Hf1 & Hp1).
  - intros [= <- <- <-]. by rewrite Hp1.
  - destruct (finish_loop _ _ _ _) as [r s] eqn:Hloop.
    apply finish_loop_sizes in Hloop as [Hs Hp].
    2:{ split_and!; simpl; [lia|lia|by rewrite Hf1|by rewrite Hp1]. }
    destruct (r <? 0); [intros [= <- <- <-]; done|].
    destruct (negb _); [|intros [= <- <- <-]; done].
    destruct (ec_domain_add_datagram_pair _ _ _ _ _ _)
      as [[r2 d2] k2] eqn:Hadd.
    apply add_datagram_pair_sizes in Hadd; [|lia|done].
    destruct (r2 <? 0); intros [= <- <- <-]; done.
Qed.

(** C10. On a domain without FMMU configurations, of size zero and with
    internal origin, that has no pairs and an expected working counter of
    zero, [ec_domain_finish] returns 0, asks for no memory, emits no pair
    and leaves the expected working counter at zero. *)
Theorem finish_empty_domain k domain base :
  fmmu_configs domain = [] →
  data_size domain = 0 →
  data_origin domain = EC_ORIG_INTERNAL →
  datagram_pairs domain = [] →
  expected_working_counter domain = 0 →
  ∃ domain',
    ec_domain_finish k domain base = (0, domain', k)
    ∧ data domain' = data domain
    ∧ datagram_pairs domain' = []
    ∧ expected_working_counter domain' = 0
    ∧ logical_base_address domain' = base.
Proof.
  intros Hf Hs Ho Hp He. exists (set_logical_base_address base domain).
  unfold ec_domain_finish. cbn [data_size set_logical_base_address].
  rewrite Hs. cbn [Z.eqb negb andb].
  change (fmmu_configs (set_logical_base_address base domain))
    with (fmmu_configs domain).
  rewrite Hf. simpl. done.
Qed.

(** ** Byte buffers *)




(** ** Reconciliation *)


Lemma prologue_wc_inv domain :
  wc_inv (datagram_pairs domain) (process_prologue domain).
Proof.
  unfold wc_inv, process_prologue. intros idx p.
  destruct (datagram_pairs domain) as [|q ps]; simpl; [done|].
  intros [= <-] [= <-]. done.
Qed.



(** An FMMU configuration that is not an input leaves the image as it
    is. *)
Lemma process_fmmu_output pairs i fmmu l image :
  dir fmmu = EC_DIR_OUTPUT →
  ∃ l', process_fmmu pairs i fmmu (l, image) = Some (l', image)
        ∧ working_counter_sum l' = working_counter_sum l
        ∧ pl_datagram_pair l' = pl_datagram_pair l.
Proof.
  intros Hdir. unfold process_fmmu.
  rewrite bool_decide_eq_true_2 by (by rewrite Hdir).
  eexists. split_and!; done.
Qed.

Lemma process_loop_cons pairs i fmmu todo st :
  process_loop pairs i (fmmu :: todo) st
  = process_fmmu pairs i fmmu st ≫= process_loop pairs (S i) todo.
Proof. done. Qed.

(** The read of the loop variable before the loop is seen at the end of
    every run. *)
Lemma process_loop_uninit_read pairs todo : ∀ i l image l' image',
  process_loop pairs i todo (l, image) = Some (l', image') →
  pl_uninit_read l' = pl_uninit_read l.
Proof.
  induction todo as [|fmmu todo IH]; intros i l image l' image' Hrun.
  - simpl in Hrun. by simplify_eq.
  - rewrite process_loop_cons in Hrun.
    destruct (process_fmmu pairs i fmmu (l, image)) as [[l1 image1]|] eqn:Hb;
      simpl in Hrun; [|done].
    apply IH in Hrun. rewrite Hrun.
    unfold process_fmmu in Hb.
    destruct (bool_decide _); [by injection Hb as <- _|].
    destruct (pl_datagram_pair l) as [idx0|]; [|done]. simpl in Hb.
    destruct (pairs !! idx0) as [p0|]; [|done]. simpl in Hb.
    destruct (seek_pair _ _ _) as [c|]; [|done]. simpl in Hb.
    destruct (pairs !! cur_pair c) as [p|]; [|done]. simpl in Hb.
    destruct image as [img|]; [|done]. simpl in Hb.
    by injection Hb as <- _.
Qed.

(** C5. When the domain has a datagram pair, the statements of
    [ecrt_domain_process] before its loop read
    [fmmu->logical_start_address] while [fmmu] is unassigned: the read is
    recorded, the offset computed from it has no determined value, and the
    record is still there at the end of every run. *)
Theorem process_reads_unassigned_fmmu domain :
  datagram_pairs domain ≠ [] →
  pl_fmmu (process_prologue domain) = None
  ∧ pl_uninit_read (process_prologue domain) = true
  ∧ pl_datagram_offset (process_prologue domain) = None
  ∧ ∀ l image, process_run domain = Some (l, image) →
               pl_uninit_read l = true.
Proof.
  intros Hne.
  assert (Hpre : pl_uninit_read (process_prologue domain) = true).
  { unfold process_prologue. by destruct (datagram_pairs domain). }
  split_and!; [| done | |].
  - unfold process_prologue. by destruct (datagram_pairs domain).
  - unfold process_prologue. by destruct (datagram_pairs domain).
  - intros l image Hrun. unfold process_run in Hrun.
    apply process_loop_uninit_read in Hrun. by rewrite Hrun.
Qed.

(** ** The working counter of the domain *)

Lemma pairs_wc_sum_snoc l p :
  pairs_wc_sum (l ++ [p]) = pairs_wc_sum l + ec_datagram_pair_process p.
Proof.
  unfold pairs_wc_sum.
  induction l as [|q l IH]; simpl; [lia|]. rewrite IH. lia.
Qed.

(** The [while] loop adds the working counter of each pair it steps to. *)
Lemma seek_pair_sum pairs start rest : ∀ c c',
  rest = drop (S (cur_pair c)) pairs →
  (cur_pair c < length pairs)%nat →
  cur_sum c = wrap16 (pairs_wc_sum (take (S (cur_pair c)) pairs)) →
  seek_pair start rest c = Some c' →
  (cur_pair c' < length pairs)%nat
  ∧ cur_sum c' = wrap16 (pairs_wc_sum (take (S (cur_pair c')) pairs)).
Proof.
  induction rest as [|p rest IH]; intros c c' Hrest Hlt Hsum Hrun.
  - simpl in Hrun. destruct (cur_size c <=? cur_offset c); [done|].
    by simplify_eq.
  - simpl in Hrun. destruct (cur_size c <=? cur_offset c); [|by simplify_eq].
    assert (Hp : pairs !! S (cur_pair c) = Some p).
    { rewrite <- (Nat.add_0_r (S (cur_pair c))), <- lookup_drop, <- Hrest.
      done. }
    apply IH in Hrun; [done| | |]; simpl.
    + rewrite <- (Nat.add_1_r (S (cur_pair c))), <- drop_drop, <- Hrest. done.
    + by eapply lookup_lt_Some.
    + rewrite (take_S_r _ _ _ Hp), pairs_wc_sum_snoc, Hsum, wrap16_add_l.
      done.
Qed.

Lemma process_fmmu_sum pairs i fmmu l image l' image' :
  sum_inv pairs l →
  process_fmmu pairs i fmmu (l, image) = Some (l', image') →
  sum_inv pairs l'.
Proof.
  unfold sum_inv, process_fmmu. intros Hinv Hb.
  destruct (bool_decide _); [by injection Hb as <- _|].
  destruct (pl_datagram_pair l) as [idx0|]; [|done]. simpl in Hb.
  destruct Hinv as [Hlt Hsum].
  destruct (pairs !! idx0) as [p0|]; [|done]. simpl in Hb.
  destruct (seek_pair _ _ _) as [c|] eqn:Hseek; [|done]. simpl in Hb.
  destruct (pairs !! cur_pair c) as [p|]; [|done]. simpl in Hb.
  destruct image as [img|]; [|done]. simpl in Hb.
  injection Hb as <- _. simpl.
  by apply (seek_pair_sum pairs) in Hseek.
Qed.

Lemma process_loop_sum pairs todo : ∀ i l image l' image',
  sum_inv pairs l →
  process_loop pairs i todo (l, image) = Some (l', image') →
  sum_inv pairs l'.
Proof.
  induction todo as [|fmmu todo IH]; intros i l image l' image' Hinv Hrun.
  - simpl in Hrun. by simplify_eq.
  - rewrite process_loop_cons in Hrun.
    destruct (process_fmmu pairs i fmmu (l, image)) as [[l1 image1]|] eqn:Hb;
      simpl in Hrun; [|done].
    eapply IH; [|exact Hrun]. by eapply process_fmmu_sum.
Qed.

Lemma process_epilogue_working_counter domain sum jiffies :
  working_counter (process_epilogue domain sum jiffies) = sum.
Proof.
  unfold process_epilogue.
  destruct (_ && _); simpl; case_bool_decide as Hc; try done;
    by apply dec_stable in Hc.
Qed.

(** The change counter is incremented exactly when the sum differs from
    the working counter so far; the notification may then zero it. *)
Lemma process_epilogue_changes domain sum jiffies :
  let incremented :=
    if bool_decide (sum ≠ working_counter domain)
    then wrap32 (working_counter_changes domain + 1)
    else working_counter_changes domain in
  working_counter_changes (process_epilogue domain sum jiffies)
  = incremented
  ∨ (incremented ≠ 0
     ∧ HZ < ulong_sub jiffies (notify_jiffies domain)
     ∧ working_counter_changes (process_epilogue domain sum jiffies) = 0).
Proof.
  unfold process_epilogue. simpl.
  destruct (negb _ && _) eqn:Hn; simpl; [|by left].
  apply andb_true_iff in Hn as [Hz Hj].
  right. split_and!; [|lia|done].
  apply negb_true_iff, Z.eqb_neq in Hz. done.
Qed.

(** What [ecrt_domain_process] leaves in [domain->working_counter]: the
    sum, as a 16 bit value, of the working counters of the pairs up to the
    last pair that an input FMMU configuration made the loop step to. *)
Lemma process_working_counter_prefix domain jiffies domain' :
  ecrt_domain_process domain jiffies = Some domain' →
  ∃ n, (n ≤ length (datagram_pairs domain))%nat
       ∧ (datagram_pairs domain ≠ [] → (1 ≤ n)%nat)
       ∧ working_counter domain'
         = wrap16 (pairs_wc_sum (take n (datagram_pairs domain))).
Proof.
  unfold ecrt_domain_process, process_run. intros Hrun.
  destruct (process_loop _ _ _ _) as [[l image]|] eqn:Hloop; [|done].
  simpl in Hrun. injection Hrun as <-.
  rewrite process_epilogue_working_counter.
  apply (process_loop_sum (datagram_pairs domain)) in Hloop.
  - unfold sum_inv in Hloop. destruct (pl_datagram_pair l) as [idx|].
    + exists (S idx). destruct Hloop as [Hlt ->]. split_and!; [lia|lia|done].
    + destruct Hloop as [Hnil ->]. exists 0%nat. rewrite Hnil. done.
  - unfold sum_inv, process_prologue.
    destruct (datagram_pairs domain) as [|p ps]; simpl; [done|].
    split; [lia|]. unfold pairs_wc_sum. simpl. f_equal. lia.
Qed.

(** ** Send preparation *)

Lemma queue_pair_equal img p :
  payload_in_image img p → payloads_equal img (queue_pair img p).
Proof.
  intros (Hm & Hn & Hlen). unfold payloads_equal, queue_pair, main_payload.
  simpl.
  assert (dg_data_size (main_datagram p)
          ≤ Z.of_nat (length (drop (Z.to_nat (main_data p)) img)))
    by (rewrite length_drop; lia).
  unfold memcpy_at, window. simpl.
  change (Z.to_nat 0) with 0%nat. rewrite !drop_0.
  rewrite !take_app_length' by (rewrite length_take; lia). done.
Qed.

(** What [queue_pair] leaves alone: the datagrams of the pair, the place
    of its payload in the image and its counters are as before, and so
    are the bytes of the backup payload and of the staged send copy past
    the payload size. *)
Lemma queue_pair_frame img p :
  payload_in_image img p →
  let p' := queue_pair img p in
  main_datagram p' = main_datagram p
  ∧ backup_datagram p' = backup_datagram p
  ∧ main_data p' = main_data p
  ∧ pair_expected_working_counter p' = pair_expected_working_counter p
  ∧ used p' = used p
  ∧ drop (Z.to_nat (dg_data_size (main_datagram p))) (backup_data p')
    = drop (Z.to_nat (dg_data_size (main_datagram p))) (backup_data p)
  ∧ drop (Z.to_nat (dg_data_size (main_datagram p))) (send_buffer p')
    = drop (Z.to_nat (dg_data_size (main_datagram p))) (send_buffer p).
Proof.
  intros (Hm & Hn & Hlen). simpl. split_and!; try done.
  - unfold memcpy_at. change (Z.to_nat 0) with 0%nat. simpl.
    rewrite drop_app_length'; [done|].
    rewrite length_take, length_drop. lia.
  - unfold memcpy_at. change (Z.to_nat 0) with 0%nat. simpl.
    rewrite drop_app_length'; [done|].
    rewrite length_take, length_drop. lia.
Qed.

(** C7. [ecrt_domain_queue] on a domain with a process image, when the
    payload window of every pair lies inside the image, returns and
    queues the two datagrams of every pair, in list order; it leaves the
    image as it is. The pair at each position keeps its datagrams (so its
    payload size), the place of its payload in the image and its
    counters; afterwards its backup payload and its staged send copy
    equal its main payload, the window of the image, byte for byte over
    the payload size, and are as before past it. *)
Theorem queue_payloads_equal domain img :
  data domain = Some img →
  Forall (payload_in_image img) (datagram_pairs domain) →
  ∃ domain' calls,
    ecrt_domain_queue domain = Some (domain', calls)
    ∧ data domain' = Some img
    ∧ length (datagram_pairs domain') = length (datagram_pairs domain)
    ∧ Forall (payloads_equal img) (datagram_pairs domain')
    ∧ calls = flat_map (λ i, [(i, EC_DEVICE_MAIN); (i, EC_DEVICE_BACKUP)])
                (seq 0 (length (datagram_pairs domain)))
    ∧ ∀ i p, datagram_pairs domain !! i = Some p →
        ∃ p', datagram_pairs domain' !! i = Some p'
          ∧ main_datagram p' = main_datagram p
          ∧ backup_datagram p' = backup_datagram p
          ∧ main_data p' = main_data p
          ∧ pair_expected_working_counter p'
            = pair_expected_working_counter p
          ∧ used p' = used p
          ∧ window (backup_data p') 0 (dg_data_size (main_datagram p))
            = main_payload img p
          ∧ window (send_buffer p') 0 (dg_data_size (main_datagram p))
            = main_payload img p
          ∧ drop (Z.to_nat (dg_data_size (main_datagram p)))
              (backup_data p')
            = drop (Z.to_nat (dg_data_size (main_datagram p)))
                (backup_data p)
          ∧ drop (Z.to_nat (dg_data_size (main_datagram p)))
              (send_buffer p')
            = drop (Z.to_nat (dg_data_size (main_datagram p)))
                (send_buffer p).
Proof.
  intros Himg Hwf.
  assert (Hpairs : ∃ calls,
            ecrt_domain_queue domain
            = Some (set_datagram_pairs
                      (queue_pair img <$> datagram_pairs domain) domain,
                    calls)
            ∧ calls = flat_map (λ i, [(i, EC_DEVICE_MAIN);
                                      (i, EC_DEVICE_BACKUP)])
                        (seq 0 (length (datagram_pairs domain)))).
  { unfold ecrt_domain_queue. rewrite Himg.
    destruct (datagram_pairs domain) as [|p ps] eqn:Hp.
    - eexists. split; [|done]. simpl. f_equal. f_equal.
      destruct domain. simpl in *. by rewrite Hp.
    - eexists. split; [|done]. done. }
  destruct Hpairs as (calls & Hq & Hcalls).
  do 2 eexists. split; [exact Hq|]. simpl.
  split_and!; [done|by rewrite length_fmap| |done|].
  - apply Forall_fmap. eapply Forall_impl; [exact Hwf|].
    intros q Hq'. by apply queue_pair_equal.
  - intros i p Hp. exists (queue_pair img p).
    assert (Hin : payload_in_image img p).
    { eapply Forall_lookup_1; [exact Hwf|exact Hp]. }
    destruct (queue_pair_frame img p Hin)
      as (Hmd & Hbd & Hdata & He & Hu & Hb & Hs).
    destruct (queue_pair_equal img p Hin) as [Heq1 Heq2].
    unfold main_payload in *. rewrite Hmd, Hdata in Heq1, Heq2.
    split_and!; try done.
    by rewrite list_lookup_fmap, Hp.
Qed.

(** ** More on packing *)

Lemma shall_count_walk_zero l cur first n :
  shall_count_walk l cur first n = 0
  ↔ ∃ m f, (first ≤ m < first + n)%nat ∧ l !! m = Some f
           ∧ key f = key cur.
Proof.
  revert first. induction n as [|n IH]; intros first; simpl.
  - split; [done|]. intros (m & f & Hm & _). lia.
  - destruct (l !! first) as [g|] eqn:Hg.
    + destruct (same_sc_dir g cur) eqn:Hs.
      * split; [|done]. intros _. exists first, g.
        split; [lia|]. split; [done|]. by apply same_sc_dir_key.
      * rewrite IH. split.
        -- intros (m & f & Hm & Hf & Hk). exists m, f.
           split; [lia|]. by split.
        -- intros (m & f & Hm & Hf & Hk).
           destruct (decide (m = first)) as [->|Hne].
           ++ rewrite Hg in Hf. injection Hf as <-.
              apply same_sc_dir_key in Hk. congruence.
           ++ exists m, f. split; [lia|]. by split.
    + split; [done|]. intros (m & f & Hm & Hf & _).
      apply lookup_ge_None in Hg. apply lookup_lt_Some in Hf. lia.
Qed.

Lemma shall_count_walk_bool l cur first n :
  shall_count_walk l cur first n = 0 ∨ shall_count_walk l cur first n = 1.
Proof.
  revert first. induction n as [|n IH]; intros first; simpl; [by right|].
  destruct (l !! first); [|by right].
  destruct (same_sc_dir _ _); [by left|apply IH].
Qed.

(** X1. [shall_count] for the entry at position [cur] of the list and a
    first entry at or before it returns 0 exactly when an entry from
    [first] up to [cur], [cur] excluded, has the slave configuration and
    the direction of the entry at [cur]; otherwise it returns 1. *)
Theorem shall_count_spec l (cur first : nat) f :
  l !! cur = Some f →
  (first ≤ cur)%nat →
  (shall_count l cur first = 0
   ↔ ∃ m g, (first ≤ m < cur)%nat ∧ l !! m = Some g
            ∧ sc g = sc f ∧ dir g = dir f)
  ∧ (shall_count l cur first = 0 ∨ shall_count l cur first = 1).
Proof.
  intros Hf Hle. unfold shall_count. rewrite Hf. split.
  - rewrite shall_count_walk_zero. split.
    + intros (m & g & Hm & Hg & Hk). exists m, g. injection Hk as Hs Hd.
      split; [lia|]. by split_and!.
    + intros (m & g & Hm & Hg & Hs & Hd). exists m, g.
      split; [lia|]. split; [done|]. unfold key. by rewrite Hs, Hd.
  - apply shall_count_walk_bool.
Qed.

(** A pair is added unless the allocation or the constructor fails. *)
Lemma add_datagram_pair_nonneg k d lo size dp u ret d' k' :
  (∀ n, pair_init_ret n ≤ 0) →
  ec_domain_add_datagram_pair k d lo size dp u = (ret, d', k') →
  0 ≤ ret →
  ret = 0
  ∧ d' = set_datagram_pairs
           (datagram_pairs d ++ [ec_datagram_pair_init lo dp size u])
           (set_expected_working_counter
              (wrap16 (expected_working_counter d
                       + pair_expected_working_counter
                           (ec_datagram_pair_init lo dp size u))) d).
Proof.
  intros Hinit. unfold ec_domain_add_datagram_pair, kmalloc. simpl.
  destruct (kmalloc_ok _); simpl.
  - destruct (pair_init_ret _ =? 0) eqn:Hr; simpl; intros [= <- <- <-] Hret.
    + done.
    + apply Z.eqb_neq in Hr.
      pose proof (Hinit (pair_init_calls k)). lia.
  - intros [= <- <- <-]. unfold ENOMEM. lia.
Qed.

Lemma add_datagram_pair_frame k d lo size dp u ret d' k' :
  ec_domain_add_datagram_pair k d lo size dp u = (ret, d', k') →
  fmmu_configs d' = fmmu_configs d
  ∧ data d' = data d ∧ data_origin d' = data_origin d
  ∧ data_size d' = data_size d
  ∧ logical_base_address d' = logical_base_address d
  ∧ kmalloc_log k' = kmalloc_log k ++ [AllocPair].
Proof.
  intros Hadd.
  assert (Hlog : kmalloc_log k' = kmalloc_log k ++ [AllocPair]).
  { revert Hadd. unfold ec_domain_add_datagram_pair, kmalloc. simpl.
    destruct (kmalloc_ok _); simpl; [destruct (_ =? 0); simpl|];
      by intros [= <- <- <-]. }
  apply add_datagram_pair_cases in Hadd as [[_ ->]|[_ ->]]; done.
Qed.

(** The entries up to [n] have been relocated, the others not. *)
Lemma finish_loop_relocates base l0 todo : ∀ i s ret s',
  fmmu_configs (fin_domain s)
  = (relocate base <$> take i l0) ++ drop i l0 →
  todo = drop i l0 →
  finish_loop base i todo s = (ret, s') →
  ∃ n, fmmu_configs (fin_domain s')
       = (relocate base <$> take n l0) ++ drop n l0
       ∧ (0 ≤ ret → fmmu_configs (fin_domain s') = relocate base <$> l0).
Proof.
  induction todo as [|entry todo IH]; intros i s ret s' Hl Hd Hrun.
  - simpl in Hrun. injection Hrun as <- <-. exists i. split; [done|].
    intros _. rewrite Hl.
    assert (length l0 ≤ i)%nat.
    { apply (f_equal length) in Hd. rewrite length_drop in Hd.
      simpl in Hd. lia. }
    by rewrite take_ge, drop_ge, app_nil_r.
  - simpl in Hrun.
    assert (Hi : l0 !! i = Some entry).
    { rewrite <- (Nat.add_0_r i), <- lookup_drop, <- Hd. done. }
    assert (Hlen : (i < length l0)%nat) by (by eapply lookup_lt_Some).
    assert (Hl1 : <[i := relocate base entry]> (fmmu_configs (fin_domain s))
                  = (relocate base <$> take (S i) l0) ++ drop (S i) l0).
    { rewrite Hl, insert_app_r_alt
        by (rewrite length_fmap, length_take; lia).
      rewrite length_fmap, length_take, Nat.min_l, Nat.sub_diag by lia.
      rewrite <- Hd. simpl. rewrite (take_S_r _ _ _ Hi), fmap_app. simpl.
      rewrite <- app_assoc. simpl. do 2 f_equal.
      rewrite <- (Nat.add_1_r i), <- drop_drop, <- Hd. done. }
    assert (Hd1 : todo = drop (S i) l0).
    { rewrite <- (Nat.add_1_r i), <- drop_drop, <- Hd. done. }
    change {| sc := sc entry; dir := dir entry;
              logical_start_address :=
                wrap32 (logical_start_address entry + base);
              fmmu_data_size := fmmu_data_size entry |}
      with (relocate base entry) in Hrun.
    destruct (EC_MAX_DATA_SIZE <? _).
    + destruct (ec_domain_add_datagram_pair _ _ _ _ _ _)
        as [[r d2] k2] eqn:Hadd.
      apply add_datagram_pair_frame in Hadd as (Hf2 & _).
      simpl in Hf2. destruct (r <? 0) eqn:Hr.
      * simplify_eq. exists (S i). simpl. rewrite Hf2. split; [done|]. lia.
      * eapply IH; [| |exact Hrun]; simpl; [by rewrite Hf2|done].
    + eapply IH; [| |exact Hrun]; simpl; done.
Qed.

(** X2. [ec_domain_finish] moves the logical start address of FMMU
    configurations by the base address, modulo 2^32, in list order: when
    it returns 0, every configuration has been moved exactly once and
    nothing else of it has changed; when it fails, a prefix of the list
    has been moved and the rest has not. *)
Theorem finish_relocates k domain base :
  let r := ec_domain_finish k domain base in
  (∃ n, fmmu_configs r.1.2
        = (relocate base <$> take n (fmmu_configs domain))
            ++ drop n (fmmu_configs domain))
  ∧ (r.1.1 = 0 → fmmu_configs r.1.2 = relocate base <$> fmmu_configs domain).
Proof.
  unfold ec_domain_finish.
  set (domain0 := set_logical_base_address base domain).
  set (alloc := if _ : bool then _ else _).
  assert (Halloc : match alloc with
                   | inl (d1, _) | inr (d1, _) =>
                       fmmu_configs d1 = fmmu_configs domain
                   end).
  { unfold alloc. destruct (_ && _); [|done].
    unfold kmalloc. simpl. by destruct (kmalloc_ok _). }
  destruct alloc as [[d1 k1]|[d1 k1]]; simpl.
  - split; [exists 0%nat; by rewrite Halloc|]. unfold ENOMEM. lia.
  - destruct (finish_loop _ _ _ _) as [r s] eqn:Hloop.
    apply (finish_loop_relocates _ (fmmu_configs domain)) in Hloop
      as (n & Hn & Hall); [|simpl; by rewrite Halloc..].
    destruct (r <? 0) eqn:Hr; simpl.
    { split; [by exists n|]. lia. }
    apply Z.ltb_ge in Hr. specialize (Hall Hr).
    destruct (negb _); simpl.
    2:{ split; [|done]. exists (length (fmmu_configs domain)).
        by rewrite take_ge, drop_ge, app_nil_r. }
    destruct (ec_domain_add_datagram_pair _ _ _ _ _ _)
      as [[r2 d2] k2] eqn:Hadd.
    apply add_datagram_pair_frame in Hadd as (Hf2 & _).
    assert (fmmu_configs d2 = relocate base <$> fmmu_configs domain)
      by (by rewrite Hf2).
    destruct (r2 <? 0); simpl; (split; [|done]);
      exists (length (fmmu_configs domain));
      by rewrite take_ge, drop_ge, app_nil_r.
Qed.

Lemma tiled_snoc base off pairs off' p :
  tiled base off pairs off' →
  main_data p = off' →
  dg_address (main_datagram p) = wrap32 (base + off') →
  tiled base off (pairs ++ [p]) (off' + dg_data_size (main_datagram p)).
Proof.
  revert off. induction pairs as [|q pairs IH]; intros off; simpl.
  - intros -> Hm Ha. done.
  - intros (Hq & Hqa & Ht) Hm Ha. split_and!; [done|done|]. by apply IH.
Qed.

Lemma pair_sizes_sum_snoc l p :
  pair_sizes_sum (l ++ [p])
  = pair_sizes_sum l + dg_data_size (main_datagram p).
Proof.
  unfold pair_sizes_sum.
  induction l as [|q l IH]; simpl; [lia|]. rewrite IH. lia.
Qed.

(** The pairs tile the part of the image that the loop has packed. *)
Lemma finish_loop_tiled base todo : ∀ i s ret s',
  (∀ n, pair_init_ret n ≤ 0) →
  Forall (λ f, 0 ≤ fmmu_data_size f) todo →
  logical_base_address (fin_domain s) = base →
  0 ≤ datagram_offset s → 0 ≤ datagram_size s →
  datagram_offset s + datagram_size s + fmmu_sizes_sum todo < 4294967296 →
  tiled base 0 (datagram_pairs (fin_domain s)) (datagram_offset s) →
  pair_sizes_sum (datagram_pairs (fin_domain s)) = datagram_offset s →
  Forall (λ p, 0 ≤ dg_data_size (main_datagram p))
    (datagram_pairs (fin_domain s)) →
  finish_loop base i todo s = (ret, s') →
  0 ≤ ret →
  logical_base_address (fin_domain s') = base
  ∧ 0 ≤ datagram_offset s' ∧ 0 ≤ datagram_size s'
  ∧ datagram_offset s' + datagram_size s'
    = datagram_offset s + datagram_size s + fmmu_sizes_sum todo
  ∧ tiled base 0 (datagram_pairs (fin_domain s')) (datagram_offset s')
  ∧ pair_sizes_sum (datagram_pairs (fin_domain s')) = datagram_offset s'
  ∧ Forall (λ p, 0 ≤ dg_data_size (main_datagram p))
      (datagram_pairs (fin_domain s')).
Proof.
  induction todo as [|entry todo IH];
    intros i s ret s' Hinit Hsz Hb Ho Hs Hlt Ht Hsum Hnn Hrun Hret.
  - simpl in Hrun. simplify_eq. simpl. split_and!; [done|done|done|lia|done..].
  - apply Forall_cons in Hsz as [He Hsz].
    change (fmmu_sizes_sum (entry :: todo))
      with (fmmu_data_size entry + fmmu_sizes_sum todo) in *.
    assert (0 ≤ fmmu_sizes_sum todo).
    { clear -Hsz. induction Hsz; simpl; [done|].
      change (fmmu_sizes_sum (x :: l))
        with (fmmu_data_size x + fmmu_sizes_sum l). lia. }
    simpl in Hrun. destruct (EC_MAX_DATA_SIZE <? _).
    + destruct (ec_domain_add_datagram_pair _ _ _ _ _ _)
        as [[r d2] k2] eqn:Hadd.
      destruct (r <? 0) eqn:Hr; [simplify_eq; lia|].
      apply Z.ltb_ge in Hr.
      apply add_datagram_pair_nonneg in Hadd as [-> ->]; [|done|done].
      assert (Hw : wrap32 (datagram_offset s + datagram_size s)
                   = datagram_offset s + datagram_size s).
      { unfold wrap32. apply Z.mod_small. lia. }
      eapply IH in Hrun; [|done|done|simpl..|done].
      * simpl in Hrun. rewrite Hw in Hrun.
        destruct Hrun as (? & ? & ? & Heq & ? & ? & ?).
        split_and!; [done|done|done|lia|done|done|done].
      * done.
      * rewrite Hw. lia.
      * lia.
      * rewrite Hw. lia.
      * rewrite Hw.
        apply (tiled_snoc _ _ _ _
                 (ec_datagram_pair_init _ _ (datagram_size s) _));
          [done|done|]. simpl. by rewrite Hb.
      * rewrite Hw, pair_sizes_sum_snoc. simpl. lia.
      * apply Forall_app. split; [done|]. by apply Forall_singleton.
    + eapply IH in Hrun; [|done|done|simpl..|done]; simpl in *;
        [|done|done|lia|lia|done|done|done].
      destruct Hrun as (? & ? & ? & Heq & ? & ? & ?).
      split_and!; [done|done|done|lia|done|done|done].
Qed.

(** X3. When [ec_domain_finish] returns 0 on a domain without pairs whose
    FMMU sizes are not negative and sum up to less than 2^32 (and the pair
    constructor has no positive return value), the pairs it emitted lie
    one after the other in the process image, from offset 0 to the sum of
    the FMMU sizes, each at the logical address base + offset; so their
    payload sizes sum up to the sum of the FMMU sizes. *)
Theorem finish_tiles_image k domain base domain' k' :
  (∀ n, pair_init_ret n ≤ 0) →
  Forall (λ f, 0 ≤ fmmu_data_size f) (fmmu_configs domain) →
  fmmu_sizes_sum (fmmu_configs domain) < 4294967296 →
  datagram_pairs domain = [] →
  ec_domain_finish k domain base = (0, domain', k') →
  tiled base 0 (datagram_pairs domain')
    (fmmu_sizes_sum (fmmu_configs domain))
  ∧ pair_sizes_sum (datagram_pairs domain')
    = fmmu_sizes_sum (fmmu_configs domain).
Proof.
  intros Hinit Hsz Hlt Hp0. unfold ec_domain_finish.
  set (domain0 := set_logical_base_address base domain).
  set (alloc := if _ : bool then _ else _).
  assert (Halloc : match alloc with
                   | inl (d1, _) | inr (d1, _) =>
                       fmmu_configs d1 = fmmu_configs domain
                       ∧ datagram_pairs d1 = []
                       ∧ logical_base_address d1 = base
                   end).
  { unfold alloc. destruct (_ && _); [|done].
    unfold kmalloc. simpl. by destruct (kmalloc_ok _). }
  destruct alloc as [[d1 k1]|[d1 k1]]; destruct Halloc as (Hf1 & Hp1 & Hb1).
  { by intros [= ? ? ?]. }
  destruct (finish_loop _ _ _ _) as [r s] eqn:Hloop.
  destruct (r <? 0) eqn:Hr; [intros [= -> _ _]; lia|].
  apply Z.ltb_ge in Hr.
  apply finish_loop_tiled in Hloop; simpl; rewrite ?Hf1, ?Hp1;
    [|done || lia..].
  simpl in Hloop. rewrite ?Hf1 in Hloop.
  destruct Hloop as (Hb & Ho & Hs & Heq & Ht & Hsum & _).
  destruct (negb _) eqn:Hz.
  - destruct (ec_domain_add_datagram_pair _ _ _ _ _ _)
      as [[r2 d2] k2] eqn:Hadd.
    destruct (r2 <? 0) eqn:Hr2; [intros [= -> _ _]; lia|].
    apply Z.ltb_ge in Hr2.
    apply add_datagram_pair_nonneg in Hadd as [-> ->]; [|done|done].
    intros [= <- <-]. simpl.
    replace (fmmu_sizes_sum (fmmu_configs domain))
      with (datagram_offset s + datagram_size s) by lia. split.
    + apply (tiled_snoc _ _ _ _
               (ec_datagram_pair_init _ _ (datagram_size s) _));
        [done|done|]. simpl. by rewrite Hb.
    + rewrite pair_sizes_sum_snoc. simpl. lia.
  - apply negb_false_iff, Z.eqb_eq in Hz. intros [= <- <-].
    replace (fmmu_sizes_sum (fmmu_configs domain))
      with (datagram_offset s) by lia. done.
Qed.

(** X4. Registration keeps the size of the domain equal to the sum of the
    sizes of its FMMU configurations, keeps them in the order of
    registration, and leaves the domain without pairs, image and expected
    working counter. *)
Theorem registration_data_size idx l :
  let d := foldl ec_domain_add_fmmu_config (ec_domain_init idx) l in
  fmmu_configs d = l
  ∧ ecrt_domain_size d = fmmu_sizes_sum l
  ∧ datagram_pairs d = []
  ∧ ecrt_domain_data d = None
  ∧ expected_working_counter d = 0.
Proof.
  simpl. induction l as [|f l IH] using rev_ind; [done|].
  rewrite foldl_app. simpl. destruct IH as (Hl & Hs & Hp & Hd & He).
  unfold ecrt_domain_size, ecrt_domain_data in *. simpl.
  rewrite Hl, Hs. split_and!; [done| |done..].
  unfold fmmu_sizes_sum. rewrite foldr_app. simpl.
  clear. induction l as [|g l IH]; simpl; [lia|]. rewrite <- IH. lia.
Qed.

Lemma finish_loop_frame base todo : ∀ i s ret s',
  finish_loop base i todo s = (ret, s') →
  data (fin_domain s') = data (fin_domain s)
  ∧ data_origin (fin_domain s') = data_origin (fin_domain s)
  ∧ data_size (fin_domain s') = data_size (fin_domain s)
  ∧ ∃ n, kmalloc_log (fin_kernel s')
         = kmalloc_log (fin_kernel s) ++ replicate n AllocPair.
Proof.
  induction todo as [|entry todo IH]; intros i s ret s' Hrun.
  - simpl in Hrun. injection Hrun as <- <-. split_and!; [done..|].
    exists 0%nat. by rewrite app_nil_r.
  - simpl in Hrun. destruct (EC_MAX_DATA_SIZE <? _).
    + destruct (ec_domain_add_datagram_pair _ _ _ _ _ _)
        as [[r d2] k2] eqn:Hadd.
      apply add_datagram_pair_frame in Hadd
        as (_ & Hd & Ho & Hs & _ & Hlog). simpl in *.
      destruct (r <? 0).
      * injection Hrun as <- <-. simpl. split_and!; [done..|].
        by exists 1%nat.
      * apply IH in Hrun as (Hd' & Ho' & Hs' & n & Hn). simpl in *.
        split_and!; [congruence..|]. exists (S n).
        rewrite Hn, Hlog, <- app_assoc. done.
    + by apply IH in Hrun.
Qed.

(** X5. [ec_domain_finish] on a domain with external memory asks for no
    image: whatever it returns, the image pointer and the origin are as
    before, and every allocation it asked for is one of a datagram
    pair. *)
Theorem finish_external_memory k domain base :
  data_origin domain = EC_ORIG_EXTERNAL →
  let r := ec_domain_finish k domain base in
  ecrt_domain_data r.1.2 = ecrt_domain_data domain
  ∧ data_origin r.1.2 = EC_ORIG_EXTERNAL
  ∧ ∃ n, kmalloc_log r.2 = kmalloc_log k ++ replicate n AllocPair.
Proof.
  intros Ho. unfold ec_domain_finish, ecrt_domain_data.
  cbn [data_origin set_logical_base_address]. rewrite Ho.
  rewrite bool_decide_eq_false_2, andb_false_r by done.
  destruct (finish_loop _ _ _ _) as [r s] eqn:Hloop.
  apply finish_loop_frame in Hloop as (Hd & Hor & _ & n & Hn).
  simpl in Hd, Hor, Hn.
  destruct (r <? 0); simpl.
  { split_and!; [done|congruence|by exists n]. }
  destruct (negb _); simpl.
  2:{ split_and!; [done|congruence|by exists n]. }
  destruct (ec_domain_add_datagram_pair _ _ _ _ _ _)
    as [[r2 d2] k2] eqn:Hadd.
  apply add_datagram_pair_frame in Hadd as (_ & Hd2 & Ho2 & _ & _ & Hlog).
  assert (∃ m, kmalloc_log k2 = kmalloc_log k ++ replicate m AllocPair).
  { exists (n + 1)%nat.
    rewrite Hlog, Hn, replicate_add, <- app_assoc. done. }
  destruct (r2 <? 0); simpl; split_and!; congruence || done.
Qed.

(** X6. When the allocation of the image fails, [ec_domain_finish]
    returns [-ENOMEM] before it packs anything: the FMMU configurations
    keep their addresses, no pair is made, the expected working counter is
    untouched, the image pointer is [NULL]. *)
Theorem finish_image_allocation_fails k domain base :
  data_size domain ≠ 0 →
  data_origin domain = EC_ORIG_INTERNAL →
  kmalloc_ok (length (kmalloc_log k)) = false →
  let r := ec_domain_finish k domain base in
  r.1.1 = - ENOMEM
  ∧ fmmu_configs r.1.2 = fmmu_configs domain
  ∧ datagram_pairs r.1.2 = datagram_pairs domain
  ∧ expected_working_counter r.1.2 = expected_working_counter domain
  ∧ ecrt_domain_data r.1.2 = None
  ∧ logical_base_address r.1.2 = base
  ∧ kmalloc_log r.2 = kmalloc_log k ++ [AllocImage (data_size domain)].
Proof.
  intros Hs Ho Hk. unfold ec_domain_finish, kmalloc.
  cbn [data_origin data_size set_logical_base_address kmalloc_log].
  rewrite Ho, Hk. apply Z.eqb_neq in Hs. rewrite Hs. simpl. done.
Qed.

(** ** Access to the FMMU configurations *)

Lemma find_fmmu_walk_lookup l : ∀ pos,
  0 ≤ pos < 4294967296 →
  find_fmmu_walk l pos = l !! Z.to_nat pos.
Proof.
  induction l as [|f l IH]; intros pos Hpos; simpl; [done|].
  destruct (Z.eqb_spec pos 0) as [->|Hne]; simpl; [done|].
  assert (Hw : wrap32 (pos - 1) = pos - 1).
  { unfold wrap32. apply Z.mod_small. lia. }
  rewrite Hw, IH by lia.
  replace (Z.to_nat pos) with (S (Z.to_nat (pos - 1))) by lia. done.
Qed.

Lemma fmmu_count_foldl (l : list ec_fmmu_config_t) : ∀ num,
  0 ≤ num → num + Z.of_nat (length l) < 4294967296 →
  foldl (λ num _, wrap32 (num + 1)) num l = num + Z.of_nat (length l).
Proof.
  induction l as [|f l IH]; intros num H0 Hlt; simpl; [lia|].
  simpl in Hlt.
  assert (Hw : wrap32 (num + 1) = num + 1).
  { unfold wrap32. apply Z.mod_small. lia. }
  rewrite Hw, IH by lia. lia.
Qed.

(** X7. On a domain with fewer than 2^32 FMMU configurations,
    [ec_domain_fmmu_count] is their number, and [ec_domain_find_fmmu]
    returns the configuration at a position below the count and [NULL] at
    a position from the count on. *)
Theorem find_fmmu_by_position domain pos :
  Z.of_nat (length (fmmu_configs domain)) < 4294967296 →
  0 ≤ pos < 4294967296 →
  ec_domain_fmmu_count domain = Z.of_nat (length (fmmu_configs domain))
  ∧ ec_domain_find_fmmu domain pos = fmmu_configs domain !! Z.to_nat pos
  ∧ (is_Some (ec_domain_find_fmmu domain pos)
     ↔ pos < ec_domain_fmmu_count domain).
Proof.
  intros Hlen Hpos.
  assert (Hc : ec_domain_fmmu_count domain
               = Z.of_nat (length (fmmu_configs domain))).
  { unfold ec_domain_fmmu_count. rewrite fmmu_count_foldl; lia. }
  unfold ec_domain_find_fmmu. rewrite find_fmmu_walk_lookup by done.
  split_and!; [done|done|]. rewrite Hc, lookup_lt_is_Some. lia.
Qed.

(** X8. An FMMU configuration added with [ec_domain_add_fmmu_config] is
    found by [ec_domain_find_fmmu] at the position that was the count
    before, the count grows by one, the size of the domain by the size of
    the configuration, and the configurations at the positions before are
    the ones that were there. *)
Theorem add_fmmu_config_found domain fmmu :
  Z.of_nat (length (fmmu_configs domain)) + 1 < 4294967296 →
  let domain' := ec_domain_add_fmmu_config domain fmmu in
  ec_domain_find_fmmu domain' (ec_domain_fmmu_count domain) = Some fmmu
  ∧ ec_domain_fmmu_count domain' = ec_domain_fmmu_count domain + 1
  ∧ ecrt_domain_size domain' = ecrt_domain_size domain + fmmu_data_size fmmu
  ∧ ∀ pos, 0 ≤ pos < ec_domain_fmmu_count domain →
           ec_domain_find_fmmu domain' pos = ec_domain_find_fmmu domain pos.
Proof.
  intros Hlen.
  assert (Hc : ec_domain_fmmu_count domain
               = Z.of_nat (length (fmmu_configs domain))).
  { unfold ec_domain_fmmu_count. rewrite fmmu_count_foldl; lia. }
  assert (Hc' : ec_domain_fmmu_count (ec_domain_add_fmmu_config domain fmmu)
                = Z.of_nat (length (fmmu_configs domain)) + 1).
  { unfold ec_domain_fmmu_count. rewrite fmmu_count_foldl; simpl;
      rewrite ?length_app; simpl; lia. }
  simpl. rewrite Hc, Hc'. unfold ec_domain_find_fmmu. split_and!.
  - rewrite find_fmmu_walk_lookup by lia. simpl.
    rewrite Nat2Z.id. by rewrite lookup_app_r, Nat.sub_diag.
  - done.
  - done.
  - intros pos Hpos. rewrite !find_fmmu_walk_lookup by lia. simpl.
    apply lookup_app_l. lia.
Qed.

(** ** Memory of the domain *)

(** X9. [ecrt_domain_external_memory] frees the image the domain holds
    only when the domain allocated it itself; afterwards
    [ecrt_domain_data] returns the memory that was given, and that memory
    is never freed by the domain: not when other memory is attached, not
    by [ec_domain_clear_data], not by the destructor. *)
Theorem external_memory_not_freed domain mem :
  let r := ecrt_domain_external_memory domain mem in
  ecrt_domain_data r.1 = mem
  ∧ data_origin r.1 = EC_ORIG_EXTERNAL
  ∧ r.2 = match data_origin domain, data domain with
          | EC_ORIG_INTERNAL, Some img => [FreeImage img]
          | _, _ => []
          end
  ∧ (∀ mem', (ecrt_domain_external_memory r.1 mem').2 = [])
  ∧ (ec_domain_clear_data r.1).2 = []
  ∧ ec_domain_clear r.1 = FreePair <$> datagram_pairs domain.
Proof.
  unfold ecrt_domain_external_memory, ec_domain_clear, ec_domain_clear_data,
    ecrt_domain_data. simpl. split_and!; try done.
  - destruct (data_origin domain); simpl; [|done]. by destruct (data domain).
  - by rewrite app_nil_r.
Qed.

(** ** A cycle without news *)

Lemma take_drop_take {A} (l : list A) (off size n : nat) :
  (off + size ≤ n)%nat →
  take size (drop off (take n l)) = take size (drop off l).
Proof.
  intros Hle. rewrite !take_drop_commute, take_take.
  by rewrite Nat.min_l by lia.
Qed.

(** After [queue_pair], a window inside the payload reads the same in
    the main payload, the backup payload and the staged send copy. *)
Lemma queue_pair_windows img p off size :
  payload_in_image img p →
  0 ≤ off → 0 ≤ size →
  off + size ≤ dg_data_size (main_datagram p) →
  backup_window (queue_pair img p) off size
  = main_window img (queue_pair img p) off size
  ∧ staged_window (queue_pair img p) off size
    = main_window img (queue_pair img p) off size.
Proof.
  intros (Hm & Hn & Hlen) Hoff Hsz Hfit.
  unfold backup_window, staged_window, main_window, queue_pair, window,
    memcpy_at. simpl. change (Z.to_nat 0) with 0%nat. simpl.
  set (src := drop (Z.to_nat (main_data p)) img).
  assert (Hsrc : (Z.to_nat (dg_data_size (main_datagram p)) ≤ length src)%nat)
    by (unfold src; rewrite length_drop; lia).
  assert (Hgen : ∀ rest : list Z,
            take (Z.to_nat size)
              (drop (Z.to_nat off)
                 (take (Z.to_nat (dg_data_size (main_datagram p))) src
                  ++ rest))
            = take (Z.to_nat size) (drop (Z.to_nat off) src)).
  { intros rest. rewrite drop_app_le by (rewrite length_take; lia).
    rewrite take_app_le by (rewrite length_drop, length_take; lia).
    apply take_drop_take. lia. }
  by rewrite !Hgen.
Qed.

(** Copying bytes over equal bytes leaves the buffer as it is. *)
Lemma memcpy_at_same dst a b src n :
  0 ≤ a → 0 ≤ b →
  take (Z.to_nat n) src
  = take (Z.to_nat n) (drop (Z.to_nat b) (drop (Z.to_nat a) dst)) →
  memcpy_at dst (a + b) src n = dst.
Proof.
  intros Ha Hb Heq. unfold memcpy_at. rewrite Heq, drop_drop.
  rewrite Z2Nat.inj_add by lia.
  rewrite <- (drop_drop dst (Z.to_nat n)).
  by rewrite !take_drop.
Qed.

(** The [while] loop stops at a pair that the address lies in, with the
    offset of the address in that pair. *)
Lemma seek_pair_located pairs start rest : ∀ c c',
  rest = drop (S (cur_pair c)) pairs →
  (∃ p, pairs !! cur_pair c = Some p
        ∧ cur_offset c = wrap32 (start - dg_address (main_datagram p))
        ∧ cur_size c = dg_data_size (main_datagram p)) →
  seek_pair start rest c = Some c' →
  ∃ p, pairs !! cur_pair c' = Some p
       ∧ cur_offset c' = wrap32 (start - dg_address (main_datagram p))
       ∧ cur_size c' = dg_data_size (main_datagram p)
       ∧ cur_offset c' < cur_size c'.
Proof.
  induction rest as [|q rest IH]; intros c c' Hrest Hc Hrun.
  - simpl in Hrun.
    destruct (Z.leb_spec (cur_size c) (cur_offset c)); [done|].
    injection Hrun as <-. destruct Hc as (p & ? & ? & ?). by exists p.
  - simpl in Hrun.
    destruct (Z.leb_spec (cur_size c) (cur_offset c)).
    2:{ injection Hrun as <-. destruct Hc as (p & ? & ? & ?). by exists p. }
    assert (Hq : pairs !! S (cur_pair c) = Some q).
    { rewrite <- (Nat.add_0_r (S (cur_pair c))), <- lookup_drop, <- Hrest.
      done. }
    eapply IH; [| |exact Hrun]; simpl.
    + rewrite <- (Nat.add_1_r (S (cur_pair c))), <- drop_drop, <- Hrest. done.
    + by exists q.
Qed.

Lemma wrap32_nonneg x : 0 ≤ wrap32 x.
Proof. unfold wrap32. apply Z.mod_pos_bound. lia. Qed.

(** One round of the loop of [ecrt_domain_process] right after
    [queue_pair] was applied to every pair. *)
Lemma process_fmmu_after_queue img pairs i fmmu l l' image' :
  Forall (payload_in_image img) pairs →
  (∀ p, p ∈ pairs → dir fmmu = EC_DIR_INPUT →
     let off := wrap32 (logical_start_address fmmu
                        - dg_address (main_datagram p)) in
     off < dg_data_size (main_datagram p) →
     0 ≤ fmmu_data_size fmmu
     ∧ off + fmmu_data_size fmmu ≤ dg_data_size (main_datagram p)) →
  process_fmmu (queue_pair img <$> pairs) i fmmu (l, Some img)
  = Some (l', image') →
  image' = Some img.
Proof.
  intros Hwf Hfit. unfold process_fmmu.
  case_bool_decide as Hdir; [by intros [= _ <-]|].
  destruct (pl_datagram_pair l) as [idx0|]; [|done]. simpl.
  destruct ((queue_pair img <$> pairs) !! idx0) as [p0|] eqn:Hp0; [|done].
  simpl. destruct (seek_pair _ _ _) as [c|] eqn:Hseek; [|done]. simpl.
  apply (seek_pair_located (queue_pair img <$> pairs)) in Hseek
    as (q & Hq & Hoff & Hsize & Hlt); simpl; [|done|by exists p0].
  rewrite Hq. simpl. intros [= _ <-]. f_equal.
  apply list_lookup_fmap_Some in Hq as (p & -> & Hp).
  assert (Hin : p ∈ pairs) by (by eapply list_elem_of_lookup_2).
  pose proof (proj1 (Forall_forall _ _) Hwf p Hin) as Hpi.
  destruct (Hfit p Hin Hdir) as [Hfs Hfe].
  { simpl in Hoff, Hsize. rewrite <- Hoff, <- Hsize. done. }
  simpl in Hoff. rewrite <- Hoff in Hfe.
  pose proof (wrap32_nonneg
                (logical_start_address fmmu
                 - dg_address (main_datagram p))) as Hnn.
  rewrite <- Hoff in Hnn.
  destruct (queue_pair_windows img p (cur_offset c) (fmmu_data_size fmmu)
              Hpi Hnn Hfs Hfe) as [Hb Hs].
  unfold merge_input, ec_datagram_pair_data_changed.
  fold (main_window img (queue_pair img p) (cur_offset c)
          (fmmu_data_size fmmu)).
  fold (backup_window (queue_pair img p) (cur_offset c)
          (fmmu_data_size fmmu)).
  fold (staged_window (queue_pair img p) (cur_offset c)
          (fmmu_data_size fmmu)).
  rewrite Hb, Hs.
  rewrite !bool_decide_eq_false_2 by (by intros []). simpl.
  destruct (_ =? _); [|done].
  apply memcpy_at_same; [by destruct Hpi|done|].
  unfold backup_window, main_window, window in Hb. exact Hb.
Qed.

Lemma process_loop_after_queue img pairs fmmus : ∀ i l l' image',
  Forall (payload_in_image img) pairs →
  (∀ f p, f ∈ fmmus → dir f = EC_DIR_INPUT → p ∈ pairs →
     let off := wrap32 (logical_start_address f
                        - dg_address (main_datagram p)) in
     off < dg_data_size (main_datagram p) →
     0 ≤ fmmu_data_size f
     ∧ off + fmmu_data_size f ≤ dg_data_size (main_datagram p)) →
  process_loop (queue_pair img <$> pairs) i fmmus (l, Some img)
  = Some (l', image') →
  image' = Some img.
Proof.
  induction fmmus as [|f fmmus IH]; intros i l l' image' Hwf Hfit Hrun.
  - simpl in Hrun. by injection Hrun as _ <-.
  - rewrite process_loop_cons in Hrun.
    destruct (process_fmmu _ i f (l, Some img)) as [[l1 image1]|] eqn:Hb;
      simpl in Hrun; [|done].
    apply process_fmmu_after_queue in Hb; [|done|].
    + subst image1. eapply IH; [done| |exact Hrun].
      intros g p Hg. apply Hfit. by apply elem_of_cons; right.
    + intros p Hp Hdir. apply Hfit; [by apply elem_of_cons; left|done..].
Qed.

(** X10. A cycle without news leaves the process image as it is: when
    [ecrt_domain_process] runs on what [ecrt_domain_queue] left (nothing
    was received in between), with the payload of every pair inside the
    image and every input FMMU configuration inside the pair it starts in,
    the image afterwards is the image before, whatever the working
    counters are. *)
Theorem process_after_queue_keeps_image domain img domain1 calls jiffies
    domain2 :
  data domain = Some img →
  Forall (payload_in_image img) (datagram_pairs domain) →
  inputs_fit (fmmu_configs domain) (datagram_pairs domain) →
  ecrt_domain_queue domain = Some (domain1, calls) →
  ecrt_domain_process domain1 jiffies = Some domain2 →
  ecrt_domain_data domain2 = Some img.
Proof.
  intros Himg Hwf Hfit Hq Hp.
  assert (Hd1 : data domain1 = Some img
                ∧ fmmu_configs domain1 = fmmu_configs domain
                ∧ datagram_pairs domain1
                  = queue_pair img <$> datagram_pairs domain).
  { unfold ecrt_domain_queue in Hq. rewrite Himg in Hq.
    destruct (datagram_pairs domain) eqn:Hps.
    - injection Hq as <- _. by rewrite Hps.
    - simpl in Hq. by injection Hq as <- _. }
  destruct Hd1 as (Hi1 & Hf1 & Hp1).
  unfold ecrt_domain_process, process_run in Hp.
  rewrite Hi1, Hf1, Hp1 in Hp.
  destruct (process_loop _ _ _ _) as [[l image']|] eqn:Hloop; [|done].
  apply process_loop_after_queue in Hloop; [|done|exact Hfit].
  simpl in Hp. injection Hp as <-. subst image'.
  unfold ecrt_domain_data, process_epilogue. by destruct (_ && _).
Qed.

(** ** Domains without inputs, and repeated calls *)

Lemma process_loop_outputs pairs fmmus : ∀ i l image,
  Forall (λ f, dir f = EC_DIR_OUTPUT) fmmus →
  ∃ l', process_loop pairs i fmmus (l, image) = Some (l', image)
        ∧ working_counter_sum l' = working_counter_sum l.
Proof.
  induction fmmus as [|f fmmus IH]; intros i l image Hout.
  - by exists l.
  - apply Forall_cons in Hout as [Hf Hout].
    rewrite process_loop_cons.
    destruct (process_fmmu_output pairs i f l image Hf)
      as (l1 & -> & Hs1 & _). simpl.
    destruct (IH (S i) l1 image Hout) as (l' & -> & Hs).
    exists l'. split; [done|]. congruence.
Qed.

(** X11. On a domain whose FMMU configurations are all outputs, a call
    of [ecrt_domain_process] that returns has left the process image and
    the pairs as they are and has set the working counter of the domain
    to the aggregate working counter of the first pair alone (0 without
    pairs), however many pairs there are. Without pairs the call returns,
    and it reads nothing through the unassigned [fmmu]. *)
Theorem process_output_only_domain domain jiffies :
  Forall (λ f, dir f = EC_DIR_OUTPUT) (fmmu_configs domain) →
  (datagram_pairs domain = [] →
   pl_uninit_read (process_prologue domain) = false
   ∧ is_Some (ecrt_domain_process domain jiffies))
  ∧ ∀ domain',
      ecrt_domain_process domain jiffies = Some domain' →
      ecrt_domain_data domain' = ecrt_domain_data domain
      ∧ datagram_pairs domain' = datagram_pairs domain
      ∧ working_counter domain'
        = match datagram_pairs domain with
          | [] => 0
          | p :: _ => wrap16 (ec_datagram_pair_process p)
          end.
Proof.
  intros Hout. unfold ecrt_domain_process, process_run.
  destruct (process_loop_outputs (datagram_pairs domain)
              (fmmu_configs domain) 0 (process_prologue domain)
              (data domain) Hout) as (l' & -> & Hs).
  simpl. split.
  - intros Hnil. split; [|by eexists].
    unfold process_prologue. by rewrite Hnil.
  - intros domain' [= <-].
    rewrite process_epilogue_working_counter, Hs.
    split_and!.
    + unfold ecrt_domain_data, process_epilogue. by destruct (_ && _).
    + unfold process_epilogue. by destruct (_ && _).
    + unfold process_prologue. by destruct (datagram_pairs domain).
Qed.

(** The locals at the end of a round do not depend on the image. *)
Lemma process_fmmu_locals pairs i fmmu l im1 im2 l1 l2 im1' im2' :
  process_fmmu pairs i fmmu (l, im1) = Some (l1, im1') →
  process_fmmu pairs i fmmu (l, im2) = Some (l2, im2') →
  l1 = l2.
Proof.
  unfold process_fmmu. destruct (bool_decide _); [congruence|].
  destruct (pl_datagram_pair l) as [idx0|]; [|done]. simpl.
  destruct (pairs !! idx0) as [p0|]; [|done]. simpl.
  destruct (seek_pair _ _ _) as [c|]; [|done]. simpl.
  destruct (pairs !! cur_pair c) as [p|]; [|done]. simpl.
  destruct im1, im2; simpl; congruence.
Qed.

Lemma process_loop_locals pairs fmmus : ∀ i l im1 im2 l1 l2 im1' im2',
  process_loop pairs i fmmus (l, im1) = Some (l1, im1') →
  process_loop pairs i fmmus (l, im2) = Some (l2, im2') →
  l1 = l2.
Proof.
  induction fmmus as [|f fmmus IH]; intros i l im1 im2 l1 l2 im1' im2' H1 H2.
  - simpl in *. congruence.
  - rewrite process_loop_cons in H1, H2.
    destruct (process_fmmu pairs i f (l, im1)) as [[la ima]|] eqn:Ha;
      simpl in H1; [|done].
    destruct (process_fmmu pairs i f (l, im2)) as [[lb imb]|] eqn:Hb;
      simpl in H2; [|done].
    pose proof (process_fmmu_locals _ _ _ _ _ _ _ _ _ _ Ha Hb) as ->.
    by eapply IH.
Qed.

(** X12. A second call of [ecrt_domain_process] on the same received
    datagrams finds the working counter it left: the working counter of
    the domain stays, and the change counter is not incremented (it stays,
    or the notification zeroes it). *)
Theorem process_twice_same_counter domain j1 j2 domain1 domain2 :
  ecrt_domain_process domain j1 = Some domain1 →
  ecrt_domain_process domain1 j2 = Some domain2 →
  working_counter domain2 = working_counter domain1
  ∧ (working_counter_changes domain2 = working_counter_changes domain1
     ∨ working_counter_changes domain2 = 0).
Proof.
  unfold ecrt_domain_process, process_run. intros H1.
  destruct (process_loop _ _ _ _) as [[l1 im1]|] eqn:Hl1; [|done].
  simpl in H1. injection H1 as <-. intros H2.
  assert (Hsame : datagram_pairs
                    (process_epilogue (set_data im1 domain)
                       (working_counter_sum l1) j1) = datagram_pairs domain
                  ∧ fmmu_configs
                      (process_epilogue (set_data im1 domain)
                         (working_counter_sum l1) j1) = fmmu_configs domain).
  { unfold process_epilogue. by destruct (_ && _). }
  destruct Hsame as [Hps Hfs].
  assert (Hpro : process_prologue
                   (process_epilogue (set_data im1 domain)
                      (working_counter_sum l1) j1)
                 = process_prologue domain).
  { unfold process_prologue. by rewrite Hps. }
  rewrite Hps, Hfs, Hpro in H2.
  destruct (process_loop _ _ _ (_, data (process_epilogue _ _ _)))
    as [[l2 im2]|] eqn:Hl2; [|done].
  simpl in H2. injection H2 as <-.
  pose proof (process_loop_locals _ _ _ _ _ _ _ _ _ _ Hl1 Hl2) as ->.
  rewrite !process_epilogue_working_counter. split; [done|].
  set (d1 := process_epilogue (set_data im1 domain)
               (working_counter_sum l2) j1).
  assert (Hwc : working_counter (set_data im2 d1) = working_counter_sum l2).
  { simpl. apply process_epilogue_working_counter. }
  pose proof (process_epilogue_changes (set_data im2 d1)
                (working_counter_sum l2) j2) as Hch.
  cbv zeta in Hch. rewrite Hwc in Hch.
  rewrite bool_decide_eq_false_2 in Hch by (by intros []).
  destruct Hch as [->|(_ & _ & ->)]; [by left|by right].
Qed.

(** ** Totality of the reconciliation on a packed domain *)

Lemma wrap32_sub_relocated o base m :
  0 ≤ o - m < 4294967296 →
  wrap32 (wrap32 (o + base) - wrap32 (base + m)) = o - m.
Proof.
  intros Hr. unfold wrap32.
  rewrite Zminus_mod_idemp_l, Zminus_mod_idemp_r.
  replace (o + base - (base + m)) with (o - m) by lia.
  by apply Z.mod_small.
Qed.

(** What [tiled] says position by position. *)
Lemma tiled_lookup base pairs : ∀ off off' k p,
  tiled base off pairs off' →
  Forall (λ p, 0 ≤ dg_data_size (main_datagram p)) pairs →
  pairs !! k = Some p →
  off ≤ main_data p
  ∧ dg_address (main_datagram p) = wrap32 (base + main_data p)
  ∧ match pairs !! S k with
    | Some q => main_data q = main_data p + dg_data_size (main_datagram p)
    | None => off' = main_data p + dg_data_size (main_datagram p)
    end.
Proof.
  induction pairs as [|q pairs IH]; intros off off' k p Ht Hnn Hp; [done|].
  apply Forall_cons in Hnn as [Hq Hnn]. destruct Ht as (Hm & Ha & Ht).
  destruct k as [|k]; simpl in Hp.
  - injection Hp as ->. split_and!; [lia|by rewrite Ha, Hm|].
    simpl. destruct pairs as [|q' pairs']; simpl in *.
    + lia.
    + destruct Ht as (Hm' & _). lia.
  - destruct (IH _ _ _ _ Ht Hnn Hp) as (Hle & Hadr & Hnext).
    split_and!; [lia|done|done].
Qed.

(** On tiled pairs the [while] loop finds the pair that holds an offset
    below the end of the image. *)
Lemma seek_pair_finds base pairs total o rest : ∀ c p,
  tiled base 0 pairs total →
  Forall (λ p, 0 ≤ dg_data_size (main_datagram p)) pairs →
  total < 4294967296 →
  rest = drop (S (cur_pair c)) pairs →
  pairs !! cur_pair c = Some p →
  cur_offset c = o - main_data p →
  cur_size c = dg_data_size (main_datagram p) →
  main_data p ≤ o < total →
  ∃ c' p', seek_pair (wrap32 (o + base)) rest c = Some c'
           ∧ pairs !! cur_pair c' = Some p'
           ∧ main_data p' ≤ o
             < main_data p' + dg_data_size (main_datagram p').
Proof.
  induction rest as [|q rest IH];
    intros c p Ht Hnn Htot Hrest Hp Hoff Hsize Ho.
  - simpl. destruct (Z.leb_spec (cur_size c) (cur_offset c)) as [Hle|Hlt].
    + destruct (tiled_lookup _ _ _ _ _ _ Ht Hnn Hp) as (_ & _ & Hnext).
      assert (Hnone : pairs !! S (cur_pair c) = None).
      { apply lookup_ge_None. apply (f_equal length) in Hrest.
        rewrite length_drop in Hrest. simpl in Hrest. lia. }
      rewrite Hnone in Hnext. lia.
    + exists c, p. split; [done|]. split; [done|]. lia.
  - simpl. destruct (Z.leb_spec (cur_size c) (cur_offset c)) as [Hle|Hlt].
    2:{ exists c, p. split; [done|]. split; [done|]. lia. }
    assert (Hq : pairs !! S (cur_pair c) = Some q).
    { rewrite <- (Nat.add_0_r (S (cur_pair c))), <- lookup_drop, <- Hrest.
      done. }
    destruct (tiled_lookup _ _ _ _ _ _ Ht Hnn Hp) as (_ & _ & Hnext).
    rewrite Hq in Hnext.
    destruct (tiled_lookup _ _ _ _ _ _ Ht Hnn Hq) as (Hq0 & Hqa & _).
    eapply (IH _ q); simpl; [done|done|done| |done| |done|lia].
    + rewrite <- (Nat.add_1_r (S (cur_pair c))), <- drop_drop, <- Hrest. done.
    + rewrite Hqa. apply wrap32_sub_relocated. lia.
Qed.

(** One round of the loop on a packed domain returns and keeps the
    current pair at or before the next offset; the round of an input FMMU
    configuration ends in the pair that holds its start, the round of an
    output FMMU configuration leaves the current pair. *)
Lemma process_fmmu_returns base pairs total i f o l img :
  tiled base 0 pairs total →
  Forall (λ p, 0 ≤ dg_data_size (main_datagram p)) pairs →
  total < 4294967296 →
  logical_start_address f = o →
  0 < fmmu_data_size f →
  o + fmmu_data_size f ≤ total →
  pair_before pairs o l →
  ∃ l' img',
    process_fmmu pairs i (relocate base f) (l, Some img) = Some (l', Some img')
    ∧ pair_before pairs (o + fmmu_data_size f) l'
    ∧ match dir f with
      | EC_DIR_INPUT => pair_holds pairs o l'
      | EC_DIR_OUTPUT => pl_datagram_pair l' = pl_datagram_pair l
      end.
Proof.
  intros Ht Hnn Htot <- Hpos Hend (idx & p & Hidx & Hp & Hle).
  unfold process_fmmu. simpl.
  case_bool_decide as Hdir.
  - do 2 eexists. split; [done|]. split.
    + exists idx, p. simpl. split; [done|]. split; [done|]. lia.
    + by destruct (dir f).
  - rewrite Hdir. rewrite Hidx. simpl. rewrite Hp. simpl.
    destruct (tiled_lookup _ _ _ _ _ _ Ht Hnn Hp) as (Hp0 & Hpa & _).
    destruct (seek_pair_finds base pairs total (logical_start_address f)
                (drop (S idx) pairs)
                {| cur_pair := idx;
                   cur_offset :=
                     wrap32 (wrap32 (logical_start_address f + base)
                             - dg_address (main_datagram p));
                   cur_size := dg_data_size (main_datagram p);
                   cur_wc := datagram_pair_wc l;
                   cur_sum := working_counter_sum l |} p)
      as (c' & p' & Hseek & Hp' & Hle'); simpl; try done.
    + rewrite Hpa. apply wrap32_sub_relocated. lia.
    + lia.
    + rewrite Hseek. simpl. rewrite Hp'. simpl.
      do 2 eexists. split; [done|]. split.
      * exists (cur_pair c'), p'. simpl. split; [done|]. split; [done|]. lia.
      * exists (cur_pair c'), p'. simpl. split; [done|]. split; done.
Qed.

Lemma fmmu_sizes_sum_cons f l :
  fmmu_sizes_sum (f :: l) = fmmu_data_size f + fmmu_sizes_sum l.
Proof. done. Qed.

Lemma fmmu_sizes_sum_nonneg l :
  Forall (λ f, 0 < fmmu_data_size f) l → 0 ≤ fmmu_sizes_sum l.
Proof.
  induction 1 as [|f l Hf _ IH]; [done|]. rewrite fmmu_sizes_sum_cons. lia.
Qed.

(** The loop on a packed domain returns, and it ends in the pair that
    holds the start of the last input FMMU configuration. *)
Lemma process_loop_returns base pairs total todo : ∀ i o acc l img,
  tiled base 0 pairs total →
  Forall (λ p, 0 ≤ dg_data_size (main_datagram p)) pairs →
  total < 4294967296 →
  starts_at o todo →
  Forall (λ f, 0 < fmmu_data_size f) todo →
  o + fmmu_sizes_sum todo ≤ total →
  (todo ≠ [] → pair_before pairs o l) →
  reached_pair pairs acc l →
  ∃ l' img',
    process_loop pairs i (relocate base <$> todo) (l, Some img)
    = Some (l', Some img')
    ∧ reached_pair pairs (last_input_start acc todo) l'.
Proof.
  induction todo as [|f todo IH];
    intros i o acc l img Ht Hnn Htot Hst Hpos Hsum Hinv Hacc.
  - by do 2 eexists.
  - destruct Hst as [Hstart Hst]. apply Forall_cons in Hpos as [Hf Hpos].
    rewrite fmmu_sizes_sum_cons in Hsum.
    pose proof (fmmu_sizes_sum_nonneg _ Hpos).
    rewrite fmap_cons, process_loop_cons.
    destruct (process_fmmu_returns base pairs total i f o l img)
      as (l1 & img1 & -> & Hinv1 & Hdir);
      [done|done|done|done|done|lia|by apply Hinv|].
    simpl. eapply IH; [done|done|done|exact Hst|done|lia|done|].
    destruct (dir f); [|simpl; by rewrite Hstart].
    destruct acc as [a|]; simpl in *.
    + destruct Hacc as (idx & p & Hidx & Hrest). exists idx, p.
      by rewrite Hdir.
    + by rewrite Hdir.
Qed.

(** The statements before the loop leave the first pair as the current
    pair; on tiled pairs it starts at offset 0. *)
Lemma first_pair_before base pairs total l :
  tiled base 0 pairs total →
  pairs ≠ [] →
  pl_datagram_pair l = Some 0%nat →
  pair_before pairs 0 l.
Proof.
  intros Ht Hne Hl. destruct pairs as [|p ps]; [done|].
  exists 0%nat, p. destruct Ht as (-> & _). done.
Qed.

(** A laid out domain with FMMU configurations has pairs. *)
Lemma laid_out_pairs base l0 domain :
  laid_out base l0 domain → l0 ≠ [] → datagram_pairs domain ≠ [].
Proof.
  intros (_ & _ & Hpos & _ & Ht & _) Hne Hnil. rewrite Hnil in Ht.
  simpl in Ht. destruct l0 as [|f l0]; [done|].
  apply Forall_cons in Hpos as [Hfp Hpos].
  pose proof (fmmu_sizes_sum_nonneg _ Hpos).
  rewrite fmmu_sizes_sum_cons in Ht. lia.
Qed.

(** X13. On a domain laid out the way a complete [ec_domain_finish]
    leaves it (the pairs tile the image, the FMMU configurations are not
    empty and follow one another, the logical addresses are moved by the
    base, even around 2^32), the loop of [ecrt_domain_process] over the
    FMMU configurations, entered with the first pair as the current pair
    and whatever values the other locals hold, runs to its end: the search
    for the pair of an input FMMU configuration never leaves the pair
    list, no [NULL] pair or image is read, nothing unassigned is read, and
    the current pair at the end is a pair of the list. *)
Theorem process_loop_returns_on_packed_domain base l0 domain l :
  laid_out base l0 domain →
  datagram_pairs domain ≠ [] →
  pl_datagram_pair l = Some 0%nat →
  ∃ l' img',
    process_loop (datagram_pairs domain) 0 (fmmu_configs domain)
      (l, ecrt_domain_data domain) = Some (l', Some img')
    ∧ pl_uninit_read l' = pl_uninit_read l
    ∧ ∃ idx, pl_datagram_pair l' = Some idx
             ∧ is_Some (datagram_pairs domain !! idx).
Proof.
  intros Hlaid Hne Hl.
  pose proof Hlaid as (Hf & Hst & Hpos & Htot & Ht & Hnn & [img Himg]).
  unfold ecrt_domain_data. rewrite Hf, Himg.
  destruct (process_loop_returns base (datagram_pairs domain)
              (fmmu_sizes_sum l0) l0 0 0 None l img)
    as (l' & img' & Hrun & Hreach); [done|done|done|done|done|lia| |..].
  - intros _. by eapply first_pair_before.
  - simpl. rewrite Hl. by destruct (datagram_pairs domain).
  - exists l', img'. split; [done|]. split.
    + by eapply process_loop_uninit_read.
    + destruct (last_input_start None l0) as [o|]; simpl in Hreach.
      * destruct Hreach as (idx & p & Hidx & Hp & _). exists idx.
        split; [done|]. by eexists.
      * exists 0%nat. destruct (datagram_pairs domain) as [|p ps]; [done|].
        split; [done|]. by eexists.
Qed.

(** X24. What [ecrt_domain_process] leaves in [domain->working_counter]
    when it returns: the sum, as a 16 bit value, of the aggregate working
    counters of the pairs up to the current pair of the loop at its end.
    On a domain laid out the way a complete [ec_domain_finish] leaves it,
    that pair is the one that holds the start of the last input FMMU
    configuration, and the first pair when there is none. *)
Theorem process_working_counter_reach domain jiffies domain' :
  ecrt_domain_process domain jiffies = Some domain' →
  ∃ l image,
    process_run domain = Some (l, image)
    ∧ working_counter domain'
      = wrap16 (pairs_wc_sum (take (pairs_reached l)
                                (datagram_pairs domain)))
    ∧ (pairs_reached l ≤ length (datagram_pairs domain))%nat
    ∧ (datagram_pairs domain ≠ [] → (1 ≤ pairs_reached l)%nat)
    ∧ ∀ base l0, laid_out base l0 domain →
        reached_pair (datagram_pairs domain) (last_input_start None l0) l.
Proof.
  unfold ecrt_domain_process. intros Hrun.
  destruct (process_run domain) as [[l image]|] eqn:Hloop; [|done].
  simpl in Hrun. injection Hrun as <-. exists l, image. split; [done|].
  rewrite process_epilogue_working_counter.
  unfold process_run in Hloop.
  assert (Hsum : sum_inv (datagram_pairs domain) l).
  { eapply process_loop_sum; [|exact Hloop].
    unfold sum_inv, process_prologue.
    destruct (datagram_pairs domain) as [|p ps]; simpl; [done|].
    split; [lia|]. unfold pairs_wc_sum. simpl. f_equal. lia. }
  unfold sum_inv, pairs_reached in *.
  split_and!.
  - destruct (pl_datagram_pair l) as [idx|]; [by destruct Hsum|].
    by destruct Hsum as [-> ->].
  - destruct (pl_datagram_pair l) as [idx|]; [|lia]. destruct Hsum. lia.
  - intros Hne. destruct (pl_datagram_pair l) as [idx|]; [lia|].
    by destruct Hsum.
  - intros base l0 Hlaid.
    pose proof Hlaid as (Hf & Hst & Hpos & Htot & Ht & Hnn & [img Himg]).
    rewrite Hf, Himg in Hloop.
    destruct (process_loop_returns base (datagram_pairs domain)
                (fmmu_sizes_sum l0) l0 0 0 None (process_prologue domain)
                img)
      as (l' & img' & Hrun & Hreach); [done|done|done|done|done|lia| |..].
    + intros Hl0. eapply first_pair_before; [done| |].
      * by eapply laid_out_pairs.
      * unfold process_prologue.
        pose proof (laid_out_pairs _ _ _ Hlaid Hl0).
        by destruct (datagram_pairs domain).
    + simpl. unfold process_prologue.
      by destruct (datagram_pairs domain).
    + rewrite Hrun in Hloop. by injection Hloop as <- _.
Qed.

(** X14. A complete [ec_domain_finish] lays the domain out for the
    cyclic path: on a domain with internal memory and without pairs, whose
    FMMU configurations are not empty and were registered one after the
    other from offset 0 with a total size below 2^32 that the domain
    records, a return value of 0 means that the image is allocated, the
    configurations are relocated and the pairs tile the image. *)
Theorem finish_lays_out k domain base domain' k' :
  (∀ n, pair_init_ret n ≤ 0) →
  fmmu_configs domain ≠ [] →
  starts_at 0 (fmmu_configs domain) →
  Forall (λ f, 0 < fmmu_data_size f) (fmmu_configs domain) →
  fmmu_sizes_sum (fmmu_configs domain) < 4294967296 →
  data_size domain = fmmu_sizes_sum (fmmu_configs domain) →
  data_origin domain = EC_ORIG_INTERNAL →
  datagram_pairs domain = [] →
  ec_domain_finish k domain base = (0, domain', k') →
  laid_out base (fmmu_configs domain) domain'.
Proof.
  intros Hinit Hne Hst Hpos Htot Hds Hor Hp0.
  assert (Hsz : Forall (λ f, 0 ≤ fmmu_data_size f) (fmmu_configs domain)).
  { eapply Forall_impl; [exact Hpos|]. simpl. lia. }
  assert (Hnz : data_size domain ≠ 0).
  { rewrite Hds. destruct (fmmu_configs domain) as [|f l]; [done|].
    apply Forall_cons in Hpos as [Hf Hpos].
    pose proof (fmmu_sizes_sum_nonneg _ Hpos).
    rewrite fmmu_sizes_sum_cons. lia. }
  unfold ec_domain_finish, kmalloc.
  cbn [data_size data_origin set_logical_base_address].
  rewrite Hor. apply Z.eqb_neq in Hnz. rewrite Hnz. simpl.
  destruct (kmalloc_ok _); [|by intros [= ? ? ?]].
  destruct (finish_loop _ _ _ _) as [r s] eqn:Hloop.
  destruct (r <? 0) eqn:Hr; [intros [= -> _ _]; lia|].
  apply Z.ltb_ge in Hr.
  pose proof Hloop as Hrel.
  apply (finish_loop_relocates _ (fmmu_configs domain)) in Hrel
    as (_ & _ & Hrel); [|done..]. specialize (Hrel Hr).
  pose proof Hloop as Hfr.
  apply finish_loop_frame in Hfr as (Hdata & _). simpl in Hdata.
  apply finish_loop_tiled in Hloop; simpl; rewrite ?Hp0;
    [|done || lia..].
  simpl in Hloop.
  destruct Hloop as (Hb & Ho & Hs & Heq & Ht & Hsum & Hnn).
  destruct (negb _) eqn:Hz.
  - destruct (ec_domain_add_datagram_pair _ _ _ _ _ _)
      as [[r2 d2] k2] eqn:Hadd.
    destruct (r2 <? 0) eqn:Hr2; [intros [= -> _ _]; lia|].
    apply Z.ltb_ge in Hr2.
    apply add_datagram_pair_nonneg in Hadd as [-> ->]; [|done|done].
    intros [= <- <-]. unfold laid_out. simpl.
    replace (fmmu_sizes_sum (fmmu_configs domain))
      with (datagram_offset s + datagram_size s) in * by lia.
    split_and!; [done|done|done|done| | |by rewrite Hdata].
    + apply (tiled_snoc _ _ _ _
               (ec_datagram_pair_init _ _ (datagram_size s) _));
        [done|done|]. simpl. by rewrite Hb.
    + apply Forall_app. split; [done|]. by apply Forall_singleton.
  - apply negb_false_iff, Z.eqb_eq in Hz. intros [= <- <-].
    unfold laid_out.
    replace (fmmu_sizes_sum (fmmu_configs domain))
      with (datagram_offset s) in * by lia.
    split_and!; [done|done|done|done|done|done|by rewrite Hdata].
Qed.
End DomainFacts.

Section DomainExamples.
Import Domain.

Lemma finish_expected_working_counter_witness :
  let r := ec_domain_finish (H:=example_platform) kernel_boot scenario4
             4096 in
  expected_working_counter r.1.2
  = wrap16 (pairs_expected_sum (datagram_pairs r.1.2))
  ∧ (0 ≤ pairs_expected_sum (datagram_pairs r.1.2) < 65536 →
     expected_working_counter r.1.2
     = pairs_expected_sum (datagram_pairs r.1.2))
  ∧ Forall (λ p, follows_table p
                 ∧ counts_once (fmmu_configs scenario4) (used p))
      (datagram_pairs r.1.2).
Proof.
  intros r.
  apply (finish_expected_working_counter (H:=example_platform)
           kernel_boot scenario4 4096 r.1.1 r.1.2 r.2).
  - reflexivity.
  - reflexivity.
  - subst r. by destruct (ec_domain_finish _ _ _) as [[? ?] ?].
Defined.

Lemma finish_empty_domain_witness :
  ∃ domain',
    ec_domain_finish (H:=example_platform) kernel_boot (ec_domain_init 0)
      4096 = (0, domain', kernel_boot)
    ∧ data domain' = None
    ∧ datagram_pairs domain' = []
    ∧ expected_working_counter domain' = 0
    ∧ logical_base_address domain' = 4096.
Proof.
  exact (finish_empty_domain (H:=example_platform) kernel_boot
           (ec_domain_init 0) 4096 eq_refl eq_refl eq_refl eq_refl eq_refl).
Defined.

(** C2. An FMMU configuration of 2000 bytes, with a payload limit of 1486
    bytes: [ec_domain_finish] returns 0 and emits an empty pair and a pair
    with a payload of 2000 bytes, which is above the limit. *)
Theorem finish_oversize_fmmu_payload :
  let r := ec_domain_finish (H:=example_platform) kernel_boot
             oversize_domain 4096 in
  r.1.1 = 0
  ∧ pair_sizes r.1.2 = [0; 2000]
  ∧ ¬ Forall (λ p, dg_data_size (main_datagram p)
                   ≤ EC_MAX_DATA_SIZE (Platform:=example_platform))
        (datagram_pairs r.1.2).
Proof.
  split_and!; [reflexivity|reflexivity|].
  intros Hall. vm_compute in Hall.
  apply Forall_cons in Hall as [_ Hall].
  apply Forall_cons in Hall as [Hle _]. by apply Hle.
Qed.

(** C6. Two FMMU configurations of 1000 bytes of one slave configuration
    and direction, with a payload limit of 1486 bytes:
    [ec_domain_finish] returns 0 and emits two pairs, the second one from
    the used counts (0, 0). *)
Theorem finish_emits_unused_pair :
  let r := ec_domain_finish (H:=example_platform) kernel_boot
             split_domain 4096 in
  r.1.1 = 0
  ∧ pair_sizes r.1.2 = [1000; 1000]
  ∧ pair_used r.1.2 = [(0, 1); (0, 0)].
Proof. split_and!; reflexivity. Qed.

(** C1. Two FMMU configurations of 1000 bytes of one slave configuration
    and direction, with a payload limit of 1486 bytes, whatever the pair
    constructor does with the used counts (0, 0): [ec_domain_finish]
    returns 0 with two pairs. The second pair carries the second FMMU
    configuration, an input, so one combination of slave configuration and
    direction contributes to it; the used counts it was built from are
    (0, 0). The table has no row for them: the command and the expected
    working counter of the pair are what the constructor does there, and
    the expected working counter of the domain is 1 plus that value, not
    the sum 1 + 1 of the table over the pairs. *)
Theorem finish_pair_counts_miss_cut_fmmu row :
  let r := ec_domain_finish (H:=platform_with_row row) kernel_boot
             split_domain 4096 in
  r.1.1 = 0
  ∧ members_used (fmmu_configs r.1.2) <$> datagram_pairs r.1.2
    = [(0, 1); (0, 1)]
  ∧ pair_used r.1.2 = [(0, 1); (0, 0)]
  ∧ spec_table_row <$> pair_used r.1.2
    = [Some (EC_DATAGRAM_LRD, 1); None]
  ∧ pair_rows r.1.2 = [(EC_DATAGRAM_LRD, 1); row]
  ∧ expected_working_counter r.1.2 = wrap16 (1 + row.2)
  ∧ ¬ Forall in_table (datagram_pairs r.1.2).
Proof.
  destruct row as [cmd wc]. split_and!; try reflexivity.
  intros Hall. apply Forall_cons in Hall as [_ Hall].
  apply Forall_cons in Hall as [Hrow _]. discriminate Hrow.
Qed.


Lemma process_reads_unassigned_fmmu_witness :
  let d := merge_domain [0; 0; 0; 0] [5; 6; 7; 8] in
  pl_fmmu (process_prologue (H:=example_platform) d) = None
  ∧ pl_uninit_read (process_prologue (H:=example_platform) d) = true
  ∧ pl_datagram_offset (process_prologue (H:=example_platform) d) = None
  ∧ ∀ l image, process_run (H:=example_platform) d = Some (l, image) →
               pl_uninit_read l = true.
Proof.
  apply (process_reads_unassigned_fmmu (H:=example_platform)
           (merge_domain [0; 0; 0; 0] [5; 6; 7; 8])).
  simpl. discriminate.
Defined.

Lemma queue_payloads_equal_witness :
  let img := [170; 187; 204; 221] in
  ∃ domain' calls,
    ecrt_domain_queue write_domain = Some (domain', calls)
    ∧ data domain' = Some img
    ∧ length (datagram_pairs domain') = length (datagram_pairs write_domain)
    ∧ Forall (payloads_equal img) (datagram_pairs domain')
    ∧ calls = flat_map (λ i, [(i, EC_DEVICE_MAIN); (i, EC_DEVICE_BACKUP)])
                (seq 0 (length (datagram_pairs write_domain)))
    ∧ ∀ i p, datagram_pairs write_domain !! i = Some p →
        ∃ p', datagram_pairs domain' !! i = Some p'
          ∧ main_datagram p' = main_datagram p
          ∧ backup_datagram p' = backup_datagram p
          ∧ main_data p' = main_data p
          ∧ pair_expected_working_counter p'
            = pair_expected_working_counter p
          ∧ used p' = used p
          ∧ window (backup_data p') 0 (dg_data_size (main_datagram p))
            = main_payload img p
          ∧ window (send_buffer p') 0 (dg_data_size (main_datagram p))
            = main_payload img p
          ∧ drop (Z.to_nat (dg_data_size (main_datagram p)))
              (backup_data p')
            = drop (Z.to_nat (dg_data_size (main_datagram p)))
                (backup_data p)
          ∧ drop (Z.to_nat (dg_data_size (main_datagram p)))
              (send_buffer p')
            = drop (Z.to_nat (dg_data_size (main_datagram p)))
                (send_buffer p).
Proof.
  intros img.
  apply (queue_payloads_equal write_domain [170; 187; 204; 221]).
  - reflexivity.
  - simpl. apply Forall_singleton. unfold payload_in_image. simpl. lia.
Defined.

(** C4. An input FMMU configuration followed by output FMMU
    configurations that fill a second pair, every slave having answered:
    [ecrt_domain_process] leaves the working counter of the first pair, 4,
    in [domain->working_counter], while the working counters of the two
    pairs sum up to 5, the expected working counter of the domain; the
    domain is reported as incomplete. *)
Theorem process_skips_trailing_output_pair :
  pair_used trailing_output_domain = [(1, 1); (1, 0)]
  ∧ pairs_wc_sum (H:=example_platform) (datagram_pairs trailing_output_domain)
    = 5
  ∧ working_counter
      <$> ecrt_domain_process (H:=example_platform) trailing_output_domain 0
    = Some 4
  ∧ ecrt_domain_state
      <$> ecrt_domain_process (H:=example_platform) trailing_output_domain 0
    = Some (4, EC_WC_INCOMPLETE).
Proof. split_and!; vm_compute; reflexivity. Qed.

(** ** The further properties on examples *)

Local Ltac by_computation :=
  vm_compute;
  repeat match goal with |- _ ∧ _ => split end;
  first [reflexivity | by intros [=]].

Local Ltac concrete_forall :=
  vm_compute;
  repeat (apply Forall_cons_2; [by_computation|]);
  apply Forall_nil_2.

Lemma shall_count_spec_witness :
  let l := fmmu_configs split_domain in
  let f := {| sc := 1; dir := EC_DIR_INPUT; logical_start_address := 1000;
              fmmu_data_size := 1000 |} in
  (shall_count l 1 0 = 0
   ↔ ∃ m g, (0 ≤ m < 1)%nat ∧ l !! m = Some g
            ∧ sc g = sc f ∧ dir g = dir f)
  ∧ (shall_count l 1 0 = 0 ∨ shall_count l 1 0 = 1).
Proof.
  intros l f. apply (shall_count_spec l 1 0 f); [reflexivity|lia].
Defined.

Lemma finish_tiles_image_witness :
  let r := ec_domain_finish (H:=example_platform) kernel_boot split_domain
             4096 in
  tiled 4096 0 (datagram_pairs r.1.2)
    (fmmu_sizes_sum (fmmu_configs split_domain))
  ∧ pair_sizes_sum (datagram_pairs r.1.2)
    = fmmu_sizes_sum (fmmu_configs split_domain).
Proof.
  intros r.
  apply (finish_tiles_image (H:=example_platform) kernel_boot split_domain
           4096 r.1.2 r.2).
  - intros n. simpl. lia.
  - concrete_forall.
  - by_computation.
  - reflexivity.
  - vm_compute. reflexivity.
Defined.

Lemma finish_external_memory_witness :
  let r := ec_domain_finish (H:=example_platform) kernel_boot
             external_domain 4096 in
  ecrt_domain_data r.1.2 = ecrt_domain_data external_domain
  ∧ data_origin r.1.2 = EC_ORIG_EXTERNAL
  ∧ ∃ n, kmalloc_log r.2 = kmalloc_log kernel_boot ++ replicate n AllocPair.
Proof.
  apply (finish_external_memory (H:=example_platform) kernel_boot
           external_domain 4096).
  reflexivity.
Defined.

Lemma finish_image_allocation_fails_witness :
  let d := register [(1%nat, EC_DIR_INPUT, 4)] in
  let r := ec_domain_finish (H:=no_memory_platform) kernel_boot d 4096 in
  r.1.1 = - ENOMEM
  ∧ fmmu_configs r.1.2 = fmmu_configs d
  ∧ datagram_pairs r.1.2 = datagram_pairs d
  ∧ expected_working_counter r.1.2 = expected_working_counter d
  ∧ ecrt_domain_data r.1.2 = None
  ∧ logical_base_address r.1.2 = 4096
  ∧ kmalloc_log r.2 = kmalloc_log kernel_boot ++ [AllocImage (data_size d)].
Proof.
  intros d.
  apply (finish_image_allocation_fails (H:=no_memory_platform) kernel_boot
           d 4096).
  - by_computation.
  - reflexivity.
  - reflexivity.
Defined.

Lemma find_fmmu_by_position_witness :
  ec_domain_fmmu_count scenario4
  = Z.of_nat (length (fmmu_configs scenario4))
  ∧ ec_domain_find_fmmu scenario4 2 = fmmu_configs scenario4 !! Z.to_nat 2
  ∧ (is_Some (ec_domain_find_fmmu scenario4 2)
     ↔ 2 < ec_domain_fmmu_count scenario4).
Proof.
  apply (find_fmmu_by_position scenario4 2); [by_computation|lia].
Defined.

Lemma add_fmmu_config_found_witness :
  let fmmu := {| sc := 3; dir := EC_DIR_OUTPUT; logical_start_address := 8;
                 fmmu_data_size := 2 |} in
  let domain' := ec_domain_add_fmmu_config scenario4 fmmu in
  ec_domain_find_fmmu domain' (ec_domain_fmmu_count scenario4) = Some fmmu
  ∧ ec_domain_fmmu_count domain' = ec_domain_fmmu_count scenario4 + 1
  ∧ ecrt_domain_size domain'
    = ecrt_domain_size scenario4 + fmmu_data_size fmmu
  ∧ ∀ pos, 0 ≤ pos < ec_domain_fmmu_count scenario4 →
           ec_domain_find_fmmu domain' pos
           = ec_domain_find_fmmu scenario4 pos.
Proof.
  intros fmmu. apply (add_fmmu_config_found scenario4 fmmu). by_computation.
Defined.

Lemma process_after_queue_keeps_image_witness :
  let d := merge_domain [1; 2; 3; 4] [5; 6; 7; 8] in
  let q := default (d, []) (ecrt_domain_queue d) in
  let d2 := default d (ecrt_domain_process (H:=example_platform) q.1 0) in
  ecrt_domain_data d2 = Some [1; 2; 3; 4].
Proof.
  intros d q d2.
  apply (process_after_queue_keeps_image (H:=example_platform) d
           [1; 2; 3; 4] q.1 q.2 0 d2).
  - reflexivity.
  - concrete_forall.
  - intros f p Hf Hdir Hp. vm_compute in Hf, Hp.
    apply list_elem_of_singleton in Hf, Hp. subst f p. by_computation.
  - vm_compute. reflexivity.
  - vm_compute. reflexivity.
Defined.

Lemma process_output_only_domain_witness :
  let d := two_output_pairs in
  let d' := default d (ecrt_domain_process (H:=example_platform) d 0) in
  ec_datagram_pair_process (Platform:=example_platform) <$> datagram_pairs d
  = [2; 1]
  ∧ ecrt_domain_data d' = ecrt_domain_data d
  ∧ datagram_pairs d' = datagram_pairs d
  ∧ working_counter d'
    = match datagram_pairs d with
      | [] => 0
      | p :: _ =>
          wrap16 (ec_datagram_pair_process (Platform:=example_platform) p)
      end.
Proof.
  intros d d'. split; [vm_compute; reflexivity|].
  assert (Hout : Forall (λ f, dir f = EC_DIR_OUTPUT) (fmmu_configs d))
    by concrete_forall.
  apply (proj2 (process_output_only_domain (H:=example_platform) d 0 Hout)
           d').
  vm_compute. reflexivity.
Defined.

Lemma process_twice_same_counter_witness :
  let d := trailing_output_domain in
  let d1 := default d (ecrt_domain_process (H:=example_platform) d 0) in
  let d2 := default d (ecrt_domain_process (H:=example_platform) d1 1) in
  working_counter d2 = working_counter d1
  ∧ (working_counter_changes d2 = working_counter_changes d1
     ∨ working_counter_changes d2 = 0).
Proof.
  intros d d1 d2.
  apply (process_twice_same_counter (H:=example_platform) d 0 1 d1 d2).
  - vm_compute. reflexivity.
  - vm_compute. reflexivity.
Defined.

Lemma process_loop_returns_on_packed_domain_witness :
  let l := {| working_counter_sum := 0; pl_datagram_pair := Some 0%nat;
              pl_fmmu := None; pl_datagram_offset := None;
              datagram_pair_wc := 0; pl_uninit_read := false |} in
  ∃ l' img',
    process_loop (H:=example_platform) (datagram_pairs packed_domain) 0
      (fmmu_configs packed_domain) (l, ecrt_domain_data packed_domain)
    = Some (l', Some img')
    ∧ pl_uninit_read l' = pl_uninit_read l
    ∧ ∃ idx, pl_datagram_pair l' = Some idx
             ∧ is_Some (datagram_pairs packed_domain !! idx).
Proof.
  intros l.
  apply (process_loop_returns_on_packed_domain (H:=example_platform) 4096
           (fmmu_configs two_inputs) packed_domain l).
  - unfold laid_out. split_and!.
    + vm_compute. reflexivity.
    + by_computation.
    + concrete_forall.
    + by_computation.
    + by_computation.
    + concrete_forall.
    + vm_compute. by eexists.
  - by_computation.
  - reflexivity.
Defined.

Lemma finish_lays_out_witness :
  laid_out 4096 (fmmu_configs two_inputs) packed_domain.
Proof.
  apply (finish_lays_out (H:=example_platform) kernel_boot two_inputs 4096
           packed_domain
           (ec_domain_finish (H:=example_platform) kernel_boot two_inputs
              4096).2).
  - intros n. simpl. lia.
  - by_computation.
  - by_computation.
  - concrete_forall.
  - by_computation.
  - by_computation.
  - reflexivity.
  - reflexivity.
  - vm_compute. reflexivity.
Defined.

Lemma finish_payload_bound_witness :
  let r := ec_domain_finish (H:=example_platform) kernel_boot split_domain
             4096 in
  Forall (λ p, dg_data_size (main_datagram p)
               ≤ EC_MAX_DATA_SIZE (Platform:=example_platform))
    (datagram_pairs r.1.2).
Proof.
  intros r.
  apply (finish_payload_bound (H:=example_platform) kernel_boot split_domain
           4096 r.1.1 r.1.2 r.2).
  - by_computation.
  - concrete_forall.
  - reflexivity.
  - subst r. by destruct (ec_domain_finish _ _ _) as [[? ?] ?].
Defined.

Lemma process_working_counter_prefix_witness :
  let d := trailing_output_domain in
  let d' := default d (ecrt_domain_process (H:=example_platform) d 0) in
  ∃ n, (n ≤ length (datagram_pairs d))%nat
       ∧ (datagram_pairs d ≠ [] → (1 ≤ n)%nat)
       ∧ working_counter d'
         = wrap16 (pairs_wc_sum (H:=example_platform)
                     (take n (datagram_pairs d))).
Proof.
  intros d d'.
  apply (process_working_counter_prefix (H:=example_platform) d 0 d').
  vm_compute. reflexivity.
Defined.

Lemma process_working_counter_reach_witness :
  let d := trailing_output_domain in
  let d' := default d (ecrt_domain_process (H:=example_platform) d 0) in
  let l0 := fmmu_configs
              (register [(1%nat, EC_DIR_INPUT, 1000);
                         (2%nat, EC_DIR_OUTPUT, 1000);
                         (3%nat, EC_DIR_OUTPUT, 400)]) in
  last_input_start None l0 = Some 0
  ∧ ∃ l image,
      process_run (H:=example_platform) d = Some (l, image)
      ∧ working_counter d'
        = wrap16 (pairs_wc_sum (H:=example_platform)
                    (take (pairs_reached l) (datagram_pairs d)))
      ∧ (pairs_reached l ≤ length (datagram_pairs d))%nat
      ∧ (datagram_pairs d ≠ [] → (1 ≤ pairs_reached l)%nat)
      ∧ reached_pair (datagram_pairs d) (last_input_start None l0) l.
Proof.
  intros d d' l0. split; [reflexivity|].
  assert (Hrun : ecrt_domain_process (H:=example_platform) d 0 = Some d')
    by (vm_compute; reflexivity).
  destruct (process_working_counter_reach (H:=example_platform) d 0 d' Hrun)
    as (l & image & Hl & Hwc & Hlen & Hne & Hlaid).
  exists l, image. split; [exact Hl|]. split; [exact Hwc|].
  split; [exact Hlen|]. split; [exact Hne|].
  apply (Hlaid 4096 l0). unfold laid_out. split_and!.
  - vm_compute. reflexivity.
  - by_computation.
  - concrete_forall.
  - by_computation.
  - by_computation.
  - concrete_forall.
  - vm_compute. by eexists.
Defined.

End DomainExamples.

(** * Properties of the request state machine *)

Section FsmFacts.
Import FsmSlave.
Context `{AlStates}.

(** ** Requests on a slave with the error flag *)

(** An SDO request met with the error flag set is failed, the SDO queue is
    woken and the machine is idle. *)
Lemma sdo_abort_ack_err w request rest :
  has_ack_err w = true →
  sdo_requests (slave w) = request :: rest →
  ∃ w', ec_fsm_slave_action_process_sdo w = (0, w')
        ∧ sdo_objs (objs w') !! request = Some EC_INT_REQUEST_FAILURE
        ∧ woken w' = woken w ++ [sdo_queue]
        ∧ state (fsm w') = STATE_IDLE
        ∧ sdo_request (fsm w') = None.
Proof.
  intros Hack Hq. unfold ec_fsm_slave_action_process_sdo. rewrite Hq.
  change (has_ack_err (set_sdo_requests rest w)) with (has_ack_err w).
  rewrite Hack. eexists. split_and!; [done| |done|done|done].
  simpl. apply lookup_insert_eq.
Qed.

(** A register request met with the error flag set is failed, the
    register queue is woken and the machine is idle. *)
Lemma reg_abort_ack_err w r rest :
  has_ack_err w = true →
  find_internal_reg w = None →
  reg_requests (slave w) = r :: rest →
  ∃ w', ec_fsm_slave_action_process_reg w = Some (1, w')
        ∧ reg_state <$> reg_objs (objs w') !! r
          = (λ _, EC_INT_REQUEST_FAILURE) <$> reg_objs (objs w) !! r
        ∧ woken w' = woken w ++ [reg_queue]
        ∧ state (fsm w') = STATE_IDLE.
Proof.
  intros Hack Hint Hq. unfold ec_fsm_slave_action_process_reg.
  change (find_internal_reg (set_reg_request None w))
    with (find_internal_reg w).
  rewrite Hint. simpl. rewrite Hq. simpl.
  change (has_ack_err _) with (has_ack_err w). rewrite Hack.
  eexists. split_and!; [done| |done|done].
  simpl. rewrite lookup_alter_eq. by destruct (reg_objs (objs w) !! r).
Qed.

(** An SoE request met with the error flag set is failed, the SoE queue is
    woken and the machine is idle. *)
Lemma soe_abort_ack_err w req rest :
  has_ack_err w = true →
  soe_requests (slave w) = req :: rest →
  ∃ w', ec_fsm_slave_action_process_soe w = (0, w')
        ∧ soe_objs (objs w') !! req = Some EC_INT_REQUEST_FAILURE
        ∧ woken w' = woken w ++ [soe_queue]
        ∧ state (fsm w') = STATE_IDLE.
Proof.
  intros Hack Hq. unfold ec_fsm_slave_action_process_soe. rewrite Hq.
  change (has_ack_err (set_soe_requests rest w)) with (has_ack_err w).
  rewrite Hack. eexists. split_and!; [done| |done|done].
  simpl. apply lookup_insert_eq.
Qed.

(** An FoE request met with the error flag set is failed; the queue that
    is woken is the SDO queue and the state of the machine is not
    written. *)
Lemma foe_abort_ack_err w request rest :
  has_ack_err w = true →
  foe_requests (slave w) = request :: rest →
  ∃ w', ec_fsm_slave_action_process_foe w = (0, w')
        ∧ foe_objs (objs w') !! request = Some EC_INT_REQUEST_FAILURE
        ∧ woken w' = woken w ++ [sdo_queue]
        ∧ fsm w' = fsm w.
Proof.
  intros Hack Hq. unfold ec_fsm_slave_action_process_foe. rewrite Hq.
  change (has_ack_err (set_foe_requests rest w)) with (has_ack_err w).
  rewrite Hack. eexists. split_and!; [done| |done|done].
  simpl. apply lookup_insert_eq.
Qed.

(** ** References and states *)

(** The fields of the machine after each of the four checks. *)
Lemma process_sdo_fsm w r w' :
  ec_fsm_slave_action_process_sdo w = (r, w') →
  reg_request (fsm w') = reg_request (fsm w)
  ∧ foe_request (fsm w') = foe_request (fsm w)
  ∧ soe_request (fsm w') = soe_request (fsm w)
  ∧ ((r = 0 ∧ sdo_request (fsm w') = sdo_request (fsm w)
      ∧ state (fsm w') = state (fsm w))
     ∨ (r = 0 ∧ sdo_request (fsm w') = None
        ∧ state (fsm w') = STATE_IDLE)
     ∨ (r = 1 ∧ is_Some (sdo_request (fsm w'))
        ∧ state (fsm w') = STATE_SDO_REQUEST)).
Proof.
  unfold ec_fsm_slave_action_process_sdo.
  destruct (sdo_requests (slave w)) as [|request rest].
  - intros [= <- <-]. split_and!; try done. by left.
  - destruct (has_ack_err _); [|destruct (in_init _)]; intros [= <- <-];
      (split_and!; [done|done|done|]); simpl; eauto 10.
Qed.

Lemma process_reg_fsm w r w' :
  ec_fsm_slave_action_process_reg w = Some (r, w') →
  sdo_request (fsm w') = sdo_request (fsm w)
  ∧ foe_request (fsm w') = foe_request (fsm w)
  ∧ soe_request (fsm w') = soe_request (fsm w)
  ∧ ((r = 0 ∧ state (fsm w') = state (fsm w))
     ∨ (r = 1 ∧ state (fsm w') = STATE_IDLE)
     ∨ (r = 1 ∧ is_Some (reg_request (fsm w'))
        ∧ state (fsm w') = STATE_REG_REQUEST)).
Proof.
  unfold ec_fsm_slave_action_process_reg.
  set (w1 := set_reg_request (find_internal_reg _) _).
  set (w2 := match reg_request (fsm w1) with Some _ => _ | None => _ end).
  assert (Hw2 : sdo_request (fsm w2) = sdo_request (fsm w)
                ∧ foe_request (fsm w2) = foe_request (fsm w)
                ∧ soe_request (fsm w2) = soe_request (fsm w)
                ∧ state (fsm w2) = state (fsm w)).
  { unfold w2. destruct (reg_request (fsm w1)); [done|].
    by destruct (reg_requests (slave w1)). }
  destruct Hw2 as (Hs & Hf & Ho & Hst).
  destruct (reg_request (fsm w2)) as [rr|] eqn:Hrr.
  - destruct (has_ack_err w2).
    + intros [= <- <-]. simpl. split_and!; [done|done|done|]. eauto.
    + destruct (reg_objs (objs w2) !! rr) as [req|]; [|done].
      simpl. intros [= <- <-]. simpl. split_and!; [done|done|done|].
      right. right. rewrite Hrr. eauto.
  - intros [= <- <-]. split_and!; [done|done|done|]. by left.
Qed.

Lemma process_foe_fsm w r w' :
  ec_fsm_slave_action_process_foe w = (r, w') →
  sdo_request (fsm w') = sdo_request (fsm w)
  ∧ soe_request (fsm w') = soe_request (fsm w)
  ∧ ((r = 0 ∧ foe_request (fsm w') = foe_request (fsm w)
      ∧ state (fsm w') = state (fsm w))
     ∨ (r = 1 ∧ is_Some (foe_request (fsm w'))
        ∧ state (fsm w') = STATE_FOE_REQUEST)).
Proof.
  unfold ec_fsm_slave_action_process_foe.
  destruct (foe_requests (slave w)) as [|request rest].
  - intros [= <- <-]. split_and!; try done. by left.
  - destruct (has_ack_err _); intros [= <- <-];
      (split_and!; [done|done|]); simpl; eauto 10.
Qed.

Lemma process_soe_fsm w r w' :
  ec_fsm_slave_action_process_soe w = (r, w') →
  sdo_request (fsm w') = sdo_request (fsm w)
  ∧ foe_request (fsm w') = foe_request (fsm w)
  ∧ ((soe_request (fsm w') = soe_request (fsm w)
      ∧ (state (fsm w') = state (fsm w) ∨ state (fsm w') = STATE_IDLE))
     ∨ (is_Some (soe_request (fsm w'))
        ∧ state (fsm w') = STATE_SOE_REQUEST)).
Proof.
  unfold ec_fsm_slave_action_process_soe.
  destruct (soe_requests (slave w)) as [|request rest].
  - intros [= <- <-]. split_and!; try done. left. eauto.
  - destruct (has_ack_err _); [|destruct (in_init _)]; intros [= <- <-];
      (split_and!; [done|done|]); simpl; eauto 10.
Qed.

(** A step of the ready state keeps the agreement of the SDO, FoE and SoE
    references with the state. *)
Lemma state_ready_refs_inv w w' :
  state (fsm w) = STATE_READY →
  refs_inv w →
  ec_fsm_slave_state_ready w = Some w' →
  refs_inv w'.
Proof.
  unfold refs_inv. intros Hst. rewrite Hst. intros (Hs & Hf & Ho).
  unfold ec_fsm_slave_state_ready.
  destruct (ec_fsm_slave_action_process_sdo w) as [r1 w1] eqn:H1.
  apply process_sdo_fsm in H1 as (Hr1 & Hf1 & Ho1 & Hc1).
  rewrite Hf in Hf1. rewrite Ho in Ho1.
  destruct (negb (r1 =? 0)) eqn:Hn1.
  { intros [= <-].
    destruct Hc1 as [(-> & _)|[(-> & _)|(_ & Hs1 & ->)]]; done. }
  assert (Hw1 : sdo_request (fsm w1) = None
                ∧ (state (fsm w1) = STATE_READY
                   ∨ state (fsm w1) = STATE_IDLE)).
  { destruct Hc1 as [(_ & -> & ->)|[(_ & -> & ->)|(-> & _)]]; [eauto..|done]. }
  clear Hc1. destruct Hw1 as [Hs1 Hst1].
  destruct (ec_fsm_slave_action_process_reg w1) as [[r2 w2]|] eqn:H2; [|done].
  apply process_reg_fsm in H2 as (Hs2 & Hf2 & Ho2 & Hc2).
  rewrite Hs1 in Hs2. rewrite Hf1 in Hf2. rewrite Ho1 in Ho2. simpl.
  destruct (negb (r2 =? 0)) eqn:Hn2.
  { intros [= <-].
    destruct Hc2 as [(-> & _)|[(_ & ->)|(_ & _ & ->)]]; done. }
  assert (Hst2 : state (fsm w2) = STATE_READY ∨ state (fsm w2) = STATE_IDLE).
  { destruct Hc2 as [(_ & ->)|[(-> & _)|(-> & _)]]; done. }
  clear Hc2.
  destruct (ec_fsm_slave_action_process_foe w2) as [r3 w3] eqn:H3.
  apply process_foe_fsm in H3 as (Hs3 & Ho3 & Hc3).
  rewrite Hs2 in Hs3. rewrite Ho2 in Ho3.
  destruct (negb (r3 =? 0)) eqn:Hn3.
  { intros [= <-].
    destruct Hc3 as [(-> & _)|(_ & Hf3 & ->)]; done. }
  assert (Hw3 : foe_request (fsm w3) = None
                ∧ (state (fsm w3) = STATE_READY
                   ∨ state (fsm w3) = STATE_IDLE)).
  { destruct Hc3 as [(_ & -> & ->)|(-> & _)]; [eauto|done]. }
  clear Hc3. destruct Hw3 as [Hf3 Hst3].
  destruct (ec_fsm_slave_action_process_soe w3) as [r4 w4] eqn:H4.
  apply process_soe_fsm in H4 as (Hs4 & Hf4 & Hc4).
  rewrite Hs3 in Hs4. rewrite Hf3 in Hf4. rewrite Ho3 in Hc4.
  intros [= <-]. simpl.
  destruct Hc4 as [(Ho4 & [->| ->])|(Ho4 & ->)]; [destruct Hst3 as [->| ->]|..];
    done.
Qed.

(** A call of the current state keeps the agreement. *)
Lemma run_state_refs_inv a w w' :
  refs_inv w → run_state a w = Some w' → refs_inv w'.
Proof.
  intros Hinv. unfold run_state.
  destruct (state (fsm w)) eqn:Hst.
  - by intros [= <-].
  - by apply state_ready_refs_inv.
  - unfold ec_fsm_slave_state_sdo_request, refs_inv in *. rewrite Hst in Hinv.
    destruct Hinv as ([request Hreq] & Hf & Ho).
    destruct (coe_exec a); [intros [= <-]; simpl; by rewrite Hst, Hreq|].
    rewrite Hreq. simpl. destruct (negb _); by intros [= <-].
  - unfold ec_fsm_slave_state_reg_request, refs_inv in *. rewrite Hst in Hinv.
    destruct (reg_request (fsm w)) as [r|]; [|by intros [= <-]].
    destruct (bool_decide _); [by intros [= <-]|].
    destruct (reg_objs (objs w) !! r) as [req|]; [|done]. simpl.
    destruct (_ =? 1); [destruct (reg_dir req)|]; by intros [= <-].
  - unfold ec_fsm_slave_state_foe_request, refs_inv in *. rewrite Hst in Hinv.
    destruct Hinv as (Hs & [request Hreq] & Ho).
    destruct (foe_exec a); [intros [= <-]; simpl; by rewrite Hst, Hreq|].
    rewrite Hreq. simpl. destruct (negb _); by intros [= <-].
  - unfold ec_fsm_slave_state_soe_request, refs_inv in *. rewrite Hst in Hinv.
    destruct Hinv as (Hs & Hf & [request Hreq]).
    destruct (soe_exec a); [intros [= <-]; simpl; by rewrite Hst, Hreq|].
    rewrite Hreq. simpl. destruct (negb _); by intros [= <-].
Qed.

(** Between the steps of a machine that was constructed in memory without
    request references, the SDO, FoE and SoE references agree with the
    state. The register reference is not part of this: see
    [ec_fsm_slave_state_reg_request]. *)
Lemma reachable_refs_inv w : reachable w → refs_inv w.
Proof.
  induction 1 as [w (Hs & _ & Hf & Ho)|a w w' _ IH Hstep|w _ IH
                  |w w' _ IH (Hst & Hs & Hf & Ho & _)].
  - by unfold refs_inv.
  - unfold ec_fsm_slave_exec in Hstep.
    destruct (_ || _); [by injection Hstep as <-|].
    by eapply run_state_refs_inv.
  - unfold ec_fsm_slave_ready. case_bool_decide as Hidle; [|done].
    unfold refs_inv in *. by rewrite Hidle in IH.
  - unfold refs_inv in *. by rewrite Hst, Hs, Hf, Ho.
Qed.

(** ** Steps that cannot start a request *)

Lemma quiet_trans w1 w2 w3 : quiet w1 w2 → quiet w2 w3 → quiet w1 w3.
Proof.
  intros (Hc1 & He1 & Hd1 & Hs1) (Hc2 & He2 & Hd2 & Hs2).
  split_and!; [congruence..|].
  destruct Hs2 as [Hs2|Hs2]; [rewrite Hs2; exact Hs1|by right].
Qed.

Lemma has_ack_err_quiet w w' :
  quiet w w' → has_ack_err w' = has_ack_err w.
Proof. intros (Hc & _). unfold has_ack_err. by rewrite Hc. Qed.

Lemma process_sdo_ack_err w :
  has_ack_err w = true →
  ∃ w', ec_fsm_slave_action_process_sdo w = (0, w') ∧ quiet w w'
        ∧ ∀ r rest, sdo_requests (slave w) = r :: rest →
            sdo_objs (objs w') !! r = Some EC_INT_REQUEST_FAILURE
            ∧ sdo_requests (slave w') = rest
            ∧ state (fsm w') = STATE_IDLE.
Proof.
  intros Hack. unfold ec_fsm_slave_action_process_sdo.
  destruct (sdo_requests (slave w)) as [|r rest].
  - exists w. split; [done|]. split; [|done]. unfold quiet.
    split_and!; done || by left.
  - change (has_ack_err (set_sdo_requests rest w)) with (has_ack_err w).
    rewrite Hack. eexists. split; [done|]. split.
    + unfold quiet. split_and!; done || by right.
    + intros ? ? [= <- <-]. simpl. split_and!; [|done..].
      apply lookup_insert_eq.
Qed.

Lemma process_reg_ack_err w :
  has_ack_err w = true →
  ∃ r w', ec_fsm_slave_action_process_reg w = Some (r, w') ∧ quiet w w'
          ∧ sdo_objs (objs w') = sdo_objs (objs w).
Proof.
  intros Hack. unfold ec_fsm_slave_action_process_reg.
  set (w1 := set_reg_request (find_internal_reg _) _).
  set (w2 := match reg_request (fsm w1) with Some _ => _ | None => _ end).
  assert (Hq : quiet w w2 ∧ sdo_objs (objs w2) = sdo_objs (objs w)).
  { unfold w2, quiet. destruct (reg_request (fsm w1));
      [split_and!; done || by left|].
    destruct (reg_requests (slave w1)); split_and!; done || by left. }
  destruct Hq as [Hq Ho].
  destruct (reg_request (fsm w2)) as [rr|].
  - rewrite (has_ack_err_quiet _ _ Hq), Hack. do 2 eexists. split; [done|].
    destruct Hq as (? & ? & ? & ?). unfold quiet.
    split_and!; done || by right.
  - by do 2 eexists.
Qed.

Lemma process_foe_ack_err w :
  has_ack_err w = true →
  ∃ w', ec_fsm_slave_action_process_foe w = (0, w') ∧ quiet w w'
        ∧ sdo_objs (objs w') = sdo_objs (objs w).
Proof.
  intros Hack. unfold ec_fsm_slave_action_process_foe.
  destruct (foe_requests (slave w)) as [|r rest].
  - exists w. split; [done|]. unfold quiet. split_and!; done || by left.
  - change (has_ack_err (set_foe_requests rest w)) with (has_ack_err w).
    rewrite Hack. eexists. split; [done|]. unfold quiet.
    split_and!; done || by left.
Qed.

Lemma process_soe_ack_err w :
  has_ack_err w = true →
  ∃ w', ec_fsm_slave_action_process_soe w = (0, w') ∧ quiet w w'
        ∧ sdo_objs (objs w') = sdo_objs (objs w).
Proof.
  intros Hack. unfold ec_fsm_slave_action_process_soe.
  destruct (soe_requests (slave w)) as [|r rest].
  - exists w. split; [done|]. unfold quiet. split_and!; done || by left.
  - change (has_ack_err (set_soe_requests rest w)) with (has_ack_err w).
    rewrite Hack. eexists. split; [done|]. unfold quiet.
    split_and!; done || by right.
Qed.

(** X15. While the slave has the error flag set, a step of a ready
    machine starts nothing: it returns, queues no datagram and leaves the
    datagram alone, and the machine is ready or idle afterwards. A queued
    SDO request is dequeued, failed, and the machine is idle. *)
Theorem ready_step_with_error_flag a w :
  state (fsm w) = STATE_READY →
  ¬ in_flight w →
  has_ack_err w = true →
  ∃ w', ec_fsm_slave_exec a w = Some w'
        ∧ ext_queued w' = ext_queued w
        ∧ datagram w' = datagram w
        ∧ (state (fsm w') = STATE_READY ∨ state (fsm w') = STATE_IDLE)
        ∧ ∀ r rest, sdo_requests (slave w) = r :: rest →
            sdo_objs (objs w') !! r = Some EC_INT_REQUEST_FAILURE
            ∧ state (fsm w') = STATE_IDLE.
Proof.
  intros Hst Hfl Hack. unfold ec_fsm_slave_exec, run_state.
  rewrite orb_false_intro, Hst
    by (apply bool_decide_eq_false_2; intros ?; apply Hfl;
        (by left) || (by right)).
  unfold ec_fsm_slave_state_ready.
  destruct (process_sdo_ack_err w Hack) as (w1 & -> & Hq1 & Hsdo). simpl.
  assert (Hkeep : ∀ w', quiet w1 w' →
            sdo_objs (objs w') = sdo_objs (objs w1) →
            ext_queued w' = ext_queued w
            ∧ datagram w' = datagram w
            ∧ (state (fsm w') = STATE_READY ∨ state (fsm w') = STATE_IDLE)
            ∧ ∀ r rest, sdo_requests (slave w) = r :: rest →
                sdo_objs (objs w') !! r = Some EC_INT_REQUEST_FAILURE
                ∧ state (fsm w') = STATE_IDLE).
  { intros w' Hq' Hobj.
    destruct (quiet_trans _ _ _ Hq1 Hq') as (_ & He & Hd & Hs).
    rewrite Hst in Hs. split_and!; [done|done|done|].
    intros r rest Hr. destruct (Hsdo r rest Hr) as (Hf & _ & Hidle).
    split; [by rewrite Hobj|].
    destruct Hq' as (_ & _ & _ & [Hs'|Hs']); congruence. }
  assert (Hack1 : has_ack_err w1 = true)
    by (by rewrite (has_ack_err_quiet _ _ Hq1)).
  destruct (process_reg_ack_err w1 Hack1) as (r2 & w2 & -> & Hq2 & Ho2).
  simpl. destruct (negb (r2 =? 0)).
  { exists w2. split; [done|]. by apply Hkeep. }
  assert (Hack2 : has_ack_err w2 = true)
    by (by rewrite (has_ack_err_quiet _ _ Hq2)).
  destruct (process_foe_ack_err w2 Hack2) as (w3 & -> & Hq3 & Ho3). simpl.
  assert (Hack3 : has_ack_err w3 = true)
    by (by rewrite (has_ack_err_quiet _ _ Hq3)).
  destruct (process_soe_ack_err w3 Hack3) as (w4 & -> & Hq4 & Ho4). simpl.
  exists w4. split; [done|]. apply Hkeep.
  - eauto using quiet_trans.
  - congruence.
Qed.

(** ** Steps of a machine whose datagram is back *)

Lemma exec_not_in_flight a w :
  ¬ in_flight w → ec_fsm_slave_exec a w = run_state a w.
Proof.
  intros Hfl. unfold ec_fsm_slave_exec.
  by rewrite orb_false_intro
    by (apply bool_decide_eq_false_2; intros ?; apply Hfl;
        (by left) || (by right)).
Qed.

(** X16. Between the steps of a machine that was constructed in memory
    without request references, the SDO, FoE and SoE references agree with
    the state, so a step in the idle, SDO, FoE or SoE request state always
    returns: no [NULL] request is written through. *)
Theorem request_references_sound w :
  reachable w →
  refs_inv w
  ∧ ∀ a, state (fsm w) ≠ STATE_READY →
         state (fsm w) ≠ STATE_REG_REQUEST →
         is_Some (ec_fsm_slave_exec a w).
Proof.
  intros Hr. pose proof (reachable_refs_inv w Hr) as Hinv.
  split; [done|]. intros a Hnr Hng.
  unfold ec_fsm_slave_exec. destruct (_ || _); [by eexists|].
  unfold run_state, refs_inv in *.
  destruct (state (fsm w)); try done.
  - unfold ec_fsm_slave_state_sdo_request.
    destruct Hinv as ([r ->] & _). destruct (coe_exec a); [by eexists|].
    simpl. destruct (negb _); by eexists.
  - unfold ec_fsm_slave_state_foe_request.
    destruct Hinv as (_ & [r ->] & _). destruct (foe_exec a); [by eexists|].
    simpl. destruct (negb _); by eexists.
  - unfold ec_fsm_slave_state_soe_request.
    destruct Hinv as (_ & _ & [r ->]). destruct (soe_exec a); [by eexists|].
    simpl. destruct (negb _); by eexists.
Qed.

(** X17. A queued SDO request goes first: on a slave without error flag
    and not in INIT, the step of a ready machine dequeues the head of the
    SDO queue, marks it busy, makes it the current request, queues the
    datagram once and wakes nobody; the register, FoE and SoE queues and
    their requests are not looked at. *)
Theorem sdo_request_goes_first a w r rest :
  state (fsm w) = STATE_READY →
  ¬ in_flight w →
  has_ack_err w = false →
  in_init w = false →
  sdo_requests (slave w) = r :: rest →
  ∃ w', ec_fsm_slave_exec a w = Some w'
        ∧ state (fsm w') = STATE_SDO_REQUEST
        ∧ sdo_request (fsm w') = Some r
        ∧ sdo_objs (objs w') !! r = Some EC_INT_REQUEST_BUSY
        ∧ sdo_requests (slave w') = rest
        ∧ reg_requests (slave w') = reg_requests (slave w)
        ∧ foe_requests (slave w') = foe_requests (slave w)
        ∧ soe_requests (slave w') = soe_requests (slave w)
        ∧ reg_objs (objs w') = reg_objs (objs w)
        ∧ foe_objs (objs w') = foe_objs (objs w)
        ∧ soe_objs (objs w') = soe_objs (objs w)
        ∧ ext_queued w' = S (ext_queued w)
        ∧ woken w' = woken w.
Proof.
  intros Hst Hfl Hack Hinit Hq.
  rewrite exec_not_in_flight by done. unfold run_state. rewrite Hst.
  unfold ec_fsm_slave_state_ready, ec_fsm_slave_action_process_sdo.
  rewrite Hq.
  change (has_ack_err (set_sdo_requests rest w)) with (has_ack_err w).
  change (in_init (set_sdo_requests rest w)) with (in_init w).
  rewrite Hack, Hinit. simpl. eexists. split; [done|]. simpl.
  split_and!; try done. apply lookup_insert_eq.
Qed.

(** X18. An SDO request that is refused because the slave is in INIT does
    not end the step: the register check still runs, so a queued register
    request is started in the same step, and the machine is in the
    register request state, not idle. *)
Theorem sdo_refused_in_init_then_register a w r rest q rest' req :
  state (fsm w) = STATE_READY →
  ¬ in_flight w →
  has_ack_err w = false →
  in_init w = true →
  sdo_requests (slave w) = r :: rest →
  find_internal_reg w = None →
  reg_requests (slave w) = q :: rest' →
  reg_objs (objs w) !! q = Some req →
  ∃ w', ec_fsm_slave_exec a w = Some w'
        ∧ sdo_objs (objs w') !! r = Some EC_INT_REQUEST_FAILURE
        ∧ woken w' = woken w ++ [sdo_queue]
        ∧ state (fsm w') = STATE_REG_REQUEST
        ∧ reg_request (fsm w') = Some q
        ∧ reg_objs (objs w') !! q
          = Some (set_reg_state EC_INT_REQUEST_BUSY req)
        ∧ ext_queued w' = S (ext_queued w).
Proof.
  intros Hst Hfl Hack Hinit Hq Hint Hrq Hreq.
  rewrite exec_not_in_flight by done. unfold run_state. rewrite Hst.
  unfold ec_fsm_slave_state_ready, ec_fsm_slave_action_process_sdo.
  rewrite Hq.
  change (has_ack_err (set_sdo_requests rest w)) with (has_ack_err w).
  change (in_init (set_sdo_requests rest w)) with (in_init w).
  rewrite Hack, Hinit. simpl.
  unfold ec_fsm_slave_action_process_reg.
  change (find_internal_reg (set_reg_request None _))
    with (find_internal_reg w).
  rewrite Hint. simpl. rewrite Hrq. simpl.
  change (has_ack_err _) with (has_ack_err w). rewrite Hack.
  rewrite Hreq. simpl. eexists. split; [done|]. simpl.
  split_and!; try done.
  - apply lookup_insert_eq.
  - by rewrite lookup_alter_eq, Hreq.
Qed.

(** X19. How the step in the register request state ends: it always
    returns to ready and queues no datagram. With a request reference it
    wakes the register queue once; the request is a success exactly when
    the datagram was received with a working counter of 1, and a failure
    otherwise; only a successful read writes the request data, and it
    writes the datagram bytes. With [reg_request] [NULL] (the
    configuration was cleared in the meantime) it wakes nobody and
    changes no request. *)
Theorem reg_request_outcome a w :
  state (fsm w) = STATE_REG_REQUEST →
  ¬ in_flight w →
  (reg_request (fsm w) = None →
   ∃ w', ec_fsm_slave_exec a w = Some w'
         ∧ state (fsm w') = STATE_READY
         ∧ reg_request (fsm w') = None
         ∧ woken w' = woken w
         ∧ objs w' = objs w
         ∧ ext_queued w' = ext_queued w)
  ∧ ∀ r req,
      reg_request (fsm w) = Some r →
      reg_objs (objs w) !! r = Some req →
      let ok := bool_decide (dg_state (datagram w) = EC_DATAGRAM_RECEIVED)
                && (dg_working_counter (datagram w) =? 1) in
      ∃ w' req',
        ec_fsm_slave_exec a w = Some w'
        ∧ state (fsm w') = STATE_READY
        ∧ woken w' = woken w ++ [reg_queue]
        ∧ ext_queued w' = ext_queued w
        ∧ reg_objs (objs w') !! r = Some req'
        ∧ reg_state req'
          = (if ok then EC_INT_REQUEST_SUCCESS else EC_INT_REQUEST_FAILURE)
        ∧ reg_data req'
          = match reg_dir req with
            | Domain.EC_DIR_INPUT =>
                if ok then memcpy_at (reg_data req) 0 (dg_data (datagram w))
                             (transfer_size req)
                else reg_data req
            | Domain.EC_DIR_OUTPUT => reg_data req
            end.
Proof.
  intros Hst Hfl.
  rewrite exec_not_in_flight by done. unfold run_state. rewrite Hst.
  unfold ec_fsm_slave_state_reg_request. split.
  { intros Hnone. rewrite Hnone. eexists. split; [done|]. simpl.
    by split_and!. }
  intros r req Hr Hreq. simpl. rewrite Hr.
  destruct (decide (dg_state (datagram w) = EC_DATAGRAM_RECEIVED))
    as [Hrecv|Hrecv].
  - rewrite (bool_decide_eq_true_2 _ Hrecv).
    rewrite bool_decide_eq_false_2 by (by intros []).
    rewrite Hreq. simpl.
    destruct (dg_working_counter (datagram w) =? 1); simpl.
    + destruct (reg_dir req) eqn:Hdir; do 2 eexists; (split; [done|]); simpl;
        rewrite ?lookup_alter_eq, Hreq; simpl; by rewrite ?Hdir.
    + do 2 eexists. split; [done|]. simpl.
      rewrite lookup_alter_eq, Hreq. simpl.
      split_and!; try done. by destruct (reg_dir req).
  - rewrite (bool_decide_eq_false_2 _ Hrecv).
    rewrite bool_decide_eq_true_2 by done. simpl.
    do 2 eexists. split; [done|]. simpl.
    rewrite lookup_alter_eq, Hreq. simpl.
    split_and!; try done. by destruct (reg_dir req).
Qed.

(** X20. A register read, from the queue to the result: the step of a
    ready machine that finds the request first builds the FPRD datagram
    for the station address of the slave, the register address and the
    size of the request, zeroed, and queues it; when the datagram is back
    with a working counter of 1, the next step copies its bytes into the
    request, marks it a success, wakes the register queue and is ready
    again. *)
Theorem reg_read_round_trip a w r rest req :
  state (fsm w) = STATE_READY →
  ¬ in_flight w →
  has_ack_err w = false →
  sdo_requests (slave w) = [] →
  find_internal_reg w = None →
  reg_requests (slave w) = r :: rest →
  reg_objs (objs w) !! r = Some req →
  reg_dir req = Domain.EC_DIR_INPUT →
  ∃ w1,
    ec_fsm_slave_exec a w = Some w1
    ∧ state (fsm w1) = STATE_REG_REQUEST
    ∧ ext_queued w1 = S (ext_queued w)
    ∧ dg_type (datagram w1) = EC_DATAGRAM_FPRD
    ∧ dg_station_address (datagram w1) = station_address (slave w)
    ∧ dg_mem_address (datagram w1) = reg_address req
    ∧ dg_data_size (datagram w1) = transfer_size req
    ∧ dg_data (datagram w1) = replicate (Z.to_nat (transfer_size req)) 0
    ∧ ∀ w1' bytes,
        fsm w1' = fsm w1 → objs w1' = objs w1 →
        dg_state (datagram w1') = EC_DATAGRAM_RECEIVED →
        dg_working_counter (datagram w1') = 1 →
        dg_data (datagram w1') = bytes →
        ∃ w2, ec_fsm_slave_exec a w1' = Some w2
              ∧ state (fsm w2) = STATE_READY
              ∧ woken w2 = woken w1' ++ [reg_queue]
              ∧ reg_objs (objs w2) !! r
                = Some (set_reg_state EC_INT_REQUEST_SUCCESS
                          (set_reg_data
                             (memcpy_at (reg_data req) 0 bytes
                                (transfer_size req)) req)).
Proof.
  intros Hst Hfl Hack Hsdo Hint Hrq Hreq Hdir.
  rewrite exec_not_in_flight by done. unfold run_state. rewrite Hst.
  unfold ec_fsm_slave_state_ready, ec_fsm_slave_action_process_sdo.
  rewrite Hsdo. simpl.
  unfold ec_fsm_slave_action_process_reg.
  change (find_internal_reg (set_reg_request None w))
    with (find_internal_reg w).
  rewrite Hint. simpl. rewrite Hrq. simpl.
  change (has_ack_err _) with (has_ack_err w). rewrite Hack.
  rewrite Hreq. simpl. rewrite Hdir. eexists. split; [done|]. simpl.
  split_and!; try done.
  intros w1' bytes Hfsm Hobjs Hrecv Hwc Hbytes.
  assert (Hnf : ¬ in_flight w1').
  { unfold in_flight. rewrite Hrecv. by intros [|]. }
  rewrite exec_not_in_flight by done. unfold run_state.
  rewrite Hfsm. simpl.
  unfold ec_fsm_slave_state_reg_request. rewrite Hfsm. simpl.
  rewrite Hrecv, Hobjs. simpl.
  rewrite lookup_alter_eq, Hreq. simpl. rewrite Hwc, Hdir. simpl.
  eexists. split; [done|]. simpl. split_and!; try done.
  rewrite !lookup_alter_eq, Hobjs. simpl.
  rewrite lookup_alter_eq, Hreq. simpl. by rewrite Hbytes.
Qed.

(** X21. How an SDO, FoE or SoE transfer ends: when the machine of the
    protocol reports that it is done, the step marks the request a success
    or a failure as that machine says, wakes the queue of the kind of the
    request once (the FoE queue for FoE), drops the reference and is ready
    again; it queues no datagram. *)
Theorem transfer_completion a w r :
  ¬ in_flight w →
  (state (fsm w) = STATE_SDO_REQUEST → sdo_request (fsm w) = Some r →
   coe_exec a = false →
   ∃ w', ec_fsm_slave_exec a w = Some w'
         ∧ sdo_objs (objs w') !! r
           = Some (if coe_success a then EC_INT_REQUEST_SUCCESS
                   else EC_INT_REQUEST_FAILURE)
         ∧ woken w' = woken w ++ [sdo_queue]
         ∧ state (fsm w') = STATE_READY ∧ sdo_request (fsm w') = None
         ∧ ext_queued w' = ext_queued w)
  ∧ (state (fsm w) = STATE_FOE_REQUEST → foe_request (fsm w) = Some r →
     foe_exec a = false →
     ∃ w', ec_fsm_slave_exec a w = Some w'
           ∧ foe_objs (objs w') !! r
             = Some (if foe_success a then EC_INT_REQUEST_SUCCESS
                     else EC_INT_REQUEST_FAILURE)
           ∧ woken w' = woken w ++ [foe_queue]
           ∧ state (fsm w') = STATE_READY ∧ foe_request (fsm w') = None
           ∧ ext_queued w' = ext_queued w)
  ∧ (state (fsm w) = STATE_SOE_REQUEST → soe_request (fsm w) = Some r →
     soe_exec a = false →
     ∃ w', ec_fsm_slave_exec a w = Some w'
           ∧ soe_objs (objs w') !! r
             = Some (if soe_success a then EC_INT_REQUEST_SUCCESS
                     else EC_INT_REQUEST_FAILURE)
           ∧ woken w' = woken w ++ [soe_queue]
           ∧ state (fsm w') = STATE_READY ∧ soe_request (fsm w') = None
           ∧ ext_queued w' = ext_queued w).
Proof.
  intros Hfl. rewrite exec_not_in_flight by done. unfold run_state.
  split_and!; intros -> Hr Hex.
  - unfold ec_fsm_slave_state_sdo_request. rewrite Hex, Hr. simpl.
    destruct (coe_success a); simpl; eexists; (split; [done|]); simpl;
      split_and!; try done; apply lookup_insert_eq.
  - unfold ec_fsm_slave_state_foe_request. rewrite Hex, Hr. simpl.
    destruct (foe_success a); simpl; eexists; (split; [done|]); simpl;
      split_and!; try done; apply lookup_insert_eq.
  - unfold ec_fsm_slave_state_soe_request. rewrite Hex, Hr. simpl.
    destruct (soe_success a); simpl; eexists; (split; [done|]); simpl;
      split_and!; try done; apply lookup_insert_eq.
Qed.

(** X22. An idle machine leaves queued requests alone: its step changes
    nothing, until [ec_fsm_slave_ready] has been called; the step after
    that starts the request at the head of the SDO queue. *)
Theorem idle_until_ready a w r rest :
  state (fsm w) = STATE_IDLE →
  ¬ in_flight w →
  has_ack_err w = false →
  in_init w = false →
  sdo_requests (slave w) = r :: rest →
  ec_fsm_slave_exec a w = Some w
  ∧ ∃ w', ec_fsm_slave_exec a (ec_fsm_slave_ready w) = Some w'
          ∧ state (fsm w') = STATE_SDO_REQUEST
          ∧ sdo_request (fsm w') = Some r
          ∧ sdo_objs (objs w') !! r = Some EC_INT_REQUEST_BUSY
          ∧ ext_queued w' = S (ext_queued w).
Proof.
  intros Hst Hfl Hack Hinit Hq. split.
  - rewrite exec_not_in_flight by done. unfold run_state. by rewrite Hst.
  - unfold ec_fsm_slave_ready. rewrite bool_decide_eq_true_2 by done.
    rewrite exec_not_in_flight by done. unfold run_state. simpl.
    unfold ec_fsm_slave_state_ready, ec_fsm_slave_action_process_sdo.
    simpl. rewrite Hq.
    change (has_ack_err _) with (has_ack_err w).
    change (in_init _) with (in_init w).
    rewrite Hack, Hinit. simpl. eexists. split; [done|]. simpl.
    split_and!; try done. apply lookup_insert_eq.
Qed.
End FsmFacts.

Section FsmExamples.
Import FsmSlave.

(** C8. A ready machine on a slave with the error flag set and one FoE
    request queued: the step dequeues the request and sets it to FAILURE,
    but it wakes the SDO queue, not the FoE queue, and the machine stays
    ready instead of going idle. *)
Theorem foe_abort_wakes_sdo_queue_and_stays_ready a :
  has_ack_err (H:=example_al_states) foe_error_world = true
  ∧ state (fsm foe_error_world) = STATE_READY
  ∧ foe_requests (slave foe_error_world) = [7%nat]
  ∧ ∃ w', ec_fsm_slave_exec (H:=example_al_states) a foe_error_world
          = Some w'
          ∧ foe_requests (slave w') = []
          ∧ foe_objs (objs w') !! 7%nat = Some EC_INT_REQUEST_FAILURE
          ∧ woken w' = [sdo_queue]
          ∧ state (fsm w') = STATE_READY.
Proof.
  split_and!; [reflexivity..|].
  eexists. split_and!; reflexivity.
Qed.

(** C9. A machine is constructed and made ready, a register request is
    queued, a step starts it, the datagram comes back and a second step
    completes it: the machine is ready again and [reg_request] still
    refers to the request. *)
Theorem reg_request_kept_when_ready a :
  ∃ w1 w2,
    ec_fsm_slave_exec (H:=example_al_states) a reg_world = Some w1
    ∧ state (fsm w1) = STATE_REG_REQUEST
    ∧ ec_fsm_slave_exec (H:=example_al_states) a (receive_datagram w1)
      = Some w2
    ∧ reachable (H:=example_al_states) w2
    ∧ reg_state <$> reg_objs (objs w2) !! 5%nat
      = Some EC_INT_REQUEST_SUCCESS
    ∧ state (fsm w2) = STATE_READY
    ∧ reg_request (fsm w2) = Some 5%nat.
Proof.
  set (r1 := ec_fsm_slave_exec (H:=example_al_states) a reg_world).
  set (w1 := default reg_world r1).
  set (r2 := ec_fsm_slave_exec (H:=example_al_states) a
               (receive_datagram w1)).
  set (w2 := default reg_world r2).
  assert (H1 : r1 = Some w1) by (vm_compute; reflexivity).
  assert (H2 : r2 = Some w2) by (vm_compute; reflexivity).
  exists w1, w2.
  split_and!; [exact H1|vm_compute; reflexivity|exact H2|
               |vm_compute; reflexivity..].
  eapply reach_exec; [|exact H2].
  eapply (reach_env w1).
  - eapply reach_exec; [|exact H1].
    eapply (reach_env
              (ec_fsm_slave_ready (ec_fsm_slave_init (blank_world 8)))).
    + apply reach_ready, reach_init. by split_and!.
    + split_and!; [vm_compute; reflexivity..|left; vm_compute; reflexivity].
  - split_and!; [vm_compute; reflexivity..|left; vm_compute; reflexivity].
Qed.

(** ** The further properties on examples *)

Lemma ready_step_with_error_flag_witness :
  ∃ w', ec_fsm_slave_exec (H:=example_al_states) done_answers (sdo_world 24)
        = Some w'
        ∧ ext_queued w' = ext_queued (sdo_world 24)
        ∧ datagram w' = datagram (sdo_world 24)
        ∧ (state (fsm w') = STATE_READY ∨ state (fsm w') = STATE_IDLE)
        ∧ ∀ r rest, sdo_requests (slave (sdo_world 24)) = r :: rest →
            sdo_objs (objs w') !! r = Some EC_INT_REQUEST_FAILURE
            ∧ state (fsm w') = STATE_IDLE.
Proof.
  apply (ready_step_with_error_flag (H:=example_al_states) done_answers
           (sdo_world 24)).
  - reflexivity.
  - by intros [|].
  - reflexivity.
Defined.

Lemma request_references_sound_witness :
  let w1 := default (sdo_world 8)
              (ec_fsm_slave_exec (H:=example_al_states) done_answers
                 (sdo_world 8)) in
  let w := receive_datagram w1 in
  state (fsm w) = STATE_SDO_REQUEST
  ∧ sdo_request (fsm w) = Some 3%nat
  ∧ refs_inv w
  ∧ ∀ a, state (fsm w) ≠ STATE_READY →
         state (fsm w) ≠ STATE_REG_REQUEST →
         is_Some (ec_fsm_slave_exec (H:=example_al_states) a w).
Proof.
  intros w1 w.
  split; [vm_compute; reflexivity|]. split; [vm_compute; reflexivity|].
  apply (request_references_sound (H:=example_al_states) w).
  apply (reach_env w1).
  - apply (reach_exec done_answers (sdo_world 8)).
    + apply (reach_env
               (ec_fsm_slave_ready (ec_fsm_slave_init (blank_world 8)))).
      * apply reach_ready, reach_init. by split_and!.
      * split_and!; [vm_compute; reflexivity..|left; vm_compute; reflexivity].
    + vm_compute. reflexivity.
  - split_and!; [vm_compute; reflexivity..|left; vm_compute; reflexivity].
Defined.

Lemma sdo_request_goes_first_witness :
  let w := sdo_world 8 in
  ∃ w', ec_fsm_slave_exec (H:=example_al_states) done_answers w = Some w'
        ∧ state (fsm w') = STATE_SDO_REQUEST
        ∧ sdo_request (fsm w') = Some 3%nat
        ∧ sdo_objs (objs w') !! 3%nat = Some EC_INT_REQUEST_BUSY
        ∧ sdo_requests (slave w') = []
        ∧ reg_requests (slave w') = reg_requests (slave w)
        ∧ foe_requests (slave w') = foe_requests (slave w)
        ∧ soe_requests (slave w') = soe_requests (slave w)
        ∧ reg_objs (objs w') = reg_objs (objs w)
        ∧ foe_objs (objs w') = foe_objs (objs w)
        ∧ soe_objs (objs w') = soe_objs (objs w)
        ∧ ext_queued w' = S (ext_queued w)
        ∧ woken w' = woken w.
Proof.
  intros w.
  apply (sdo_request_goes_first (H:=example_al_states) done_answers w
           3%nat []).
  - reflexivity.
  - by intros [|].
  - reflexivity.
  - reflexivity.
  - reflexivity.
Defined.

Lemma sdo_refused_in_init_then_register_witness :
  let w := submit_reg (sdo_world 1) in
  let req := {| reg_dir := Domain.EC_DIR_INPUT; reg_address := 304;
                transfer_size := 2; reg_data := [0; 0];
                reg_state := EC_INT_REQUEST_QUEUED |} in
  ∃ w', ec_fsm_slave_exec (H:=example_al_states) done_answers w = Some w'
        ∧ sdo_objs (objs w') !! 3%nat = Some EC_INT_REQUEST_FAILURE
        ∧ woken w' = woken w ++ [sdo_queue]
        ∧ state (fsm w') = STATE_REG_REQUEST
        ∧ reg_request (fsm w') = Some 5%nat
        ∧ reg_objs (objs w') !! 5%nat
          = Some (set_reg_state EC_INT_REQUEST_BUSY req)
        ∧ ext_queued w' = S (ext_queued w).
Proof.
  intros w req.
  apply (sdo_refused_in_init_then_register (H:=example_al_states)
           done_answers w 3%nat [] 5%nat [] req).
  - reflexivity.
  - by intros [|].
  - reflexivity.
  - reflexivity.
  - reflexivity.
  - reflexivity.
  - reflexivity.
  - vm_compute. reflexivity.
Defined.

Lemma reg_request_outcome_witness :
  let w := receive_datagram
             (default reg_world
                (ec_fsm_slave_exec (H:=example_al_states) done_answers
                   reg_world)) in
  let w0 := set_reg_request None w in
  let req := {| reg_dir := Domain.EC_DIR_INPUT; reg_address := 304;
                transfer_size := 2; reg_data := [0; 0];
                reg_state := EC_INT_REQUEST_BUSY |} in
  (∃ w', ec_fsm_slave_exec (H:=example_al_states) done_answers w0 = Some w'
         ∧ state (fsm w') = STATE_READY
         ∧ reg_request (fsm w') = None
         ∧ woken w' = woken w0
         ∧ objs w' = objs w0
         ∧ ext_queued w' = ext_queued w0)
  ∧ ∃ w' req',
      ec_fsm_slave_exec (H:=example_al_states) done_answers w = Some w'
      ∧ state (fsm w') = STATE_READY
      ∧ woken w' = woken w ++ [reg_queue]
      ∧ ext_queued w' = ext_queued w
      ∧ reg_objs (objs w') !! 5%nat = Some req'
      ∧ reg_state req' = EC_INT_REQUEST_SUCCESS
      ∧ reg_data req' = [8; 0].
Proof.
  intros w w0 req.
  assert (Hst : state (fsm w) = STATE_REG_REQUEST)
    by (vm_compute; reflexivity).
  assert (Hfl : ¬ in_flight w) by (by intros [|]).
  assert (Hst0 : state (fsm w0) = STATE_REG_REQUEST)
    by (vm_compute; reflexivity).
  assert (Hfl0 : ¬ in_flight w0) by (by intros [|]).
  split.
  - apply (proj1 (reg_request_outcome (H:=example_al_states) done_answers
                    w0 Hst0 Hfl0)).
    reflexivity.
  - apply (proj2 (reg_request_outcome (H:=example_al_states) done_answers
                    w Hst Hfl) 5%nat req).
    + vm_compute. reflexivity.
    + vm_compute. reflexivity.
Defined.

Lemma reg_read_round_trip_witness :
  let w := reg_world in
  let req := {| reg_dir := Domain.EC_DIR_INPUT; reg_address := 304;
                transfer_size := 2; reg_data := [0; 0];
                reg_state := EC_INT_REQUEST_QUEUED |} in
  ∃ w1,
    ec_fsm_slave_exec (H:=example_al_states) done_answers w = Some w1
    ∧ state (fsm w1) = STATE_REG_REQUEST
    ∧ ext_queued w1 = S (ext_queued w)
    ∧ dg_type (datagram w1) = EC_DATAGRAM_FPRD
    ∧ dg_station_address (datagram w1) = station_address (slave w)
    ∧ dg_mem_address (datagram w1) = reg_address req
    ∧ dg_data_size (datagram w1) = transfer_size req
    ∧ dg_data (datagram w1) = replicate (Z.to_nat (transfer_size req)) 0
    ∧ ∀ w1' bytes,
        fsm w1' = fsm w1 → objs w1' = objs w1 →
        dg_state (datagram w1') = EC_DATAGRAM_RECEIVED →
        dg_working_counter (datagram w1') = 1 →
        dg_data (datagram w1') = bytes →
        ∃ w2, ec_fsm_slave_exec (H:=example_al_states) done_answers w1'
              = Some w2
              ∧ state (fsm w2) = STATE_READY
              ∧ woken w2 = woken w1' ++ [reg_queue]
              ∧ reg_objs (objs w2) !! 5%nat
                = Some (set_reg_state EC_INT_REQUEST_SUCCESS
                          (set_reg_data
                             (memcpy_at (reg_data req) 0 bytes
                                (transfer_size req)) req)).
Proof.
  intros w req.
  apply (reg_read_round_trip (H:=example_al_states) done_answers w 5%nat []
           req).
  - reflexivity.
  - by intros [|].
  - reflexivity.
  - reflexivity.
  - reflexivity.
  - reflexivity.
  - vm_compute. reflexivity.
  - reflexivity.
Defined.

Lemma transfer_completion_witness :
  let w := receive_datagram
             (default (sdo_world 8)
                (ec_fsm_slave_exec (H:=example_al_states) done_answers
                   (sdo_world 8))) in
  state (fsm w) = STATE_SDO_REQUEST
  ∧ sdo_request (fsm w) = Some 3%nat
  ∧ ∃ w', ec_fsm_slave_exec (H:=example_al_states) done_answers w = Some w'
          ∧ sdo_objs (objs w') !! 3%nat = Some EC_INT_REQUEST_SUCCESS
          ∧ woken w' = woken w ++ [sdo_queue]
          ∧ state (fsm w') = STATE_READY ∧ sdo_request (fsm w') = None
          ∧ ext_queued w' = ext_queued w.
Proof.
  intros w.
  assert (Hst : state (fsm w) = STATE_SDO_REQUEST) by (vm_compute; reflexivity).
  assert (Hr : sdo_request (fsm w) = Some 3%nat) by (vm_compute; reflexivity).
  assert (Hfl : ¬ in_flight w) by (by intros [|]).
  split_and!; [exact Hst|exact Hr|].
  exact (proj1 (transfer_completion (H:=example_al_states) done_answers w
                  3%nat Hfl) Hst Hr eq_refl).
Defined.

Lemma idle_until_ready_witness :
  let w := submit_sdo (ec_fsm_slave_init (blank_world 8)) in
  ec_fsm_slave_exec (H:=example_al_states) done_answers w = Some w
  ∧ ∃ w', ec_fsm_slave_exec (H:=example_al_states) done_answers
            (ec_fsm_slave_ready w) = Some w'
          ∧ state (fsm w') = STATE_SDO_REQUEST
          ∧ sdo_request (fsm w') = Some 3%nat
          ∧ sdo_objs (objs w') !! 3%nat = Some EC_INT_REQUEST_BUSY
          ∧ ext_queued w' = S (ext_queued w).
Proof.
  intros w.
  apply (idle_until_ready (H:=example_al_states) done_answers w 3%nat []).
  - reflexivity.
  - by intros [|].
  - reflexivity.
  - reflexivity.
  - reflexivity.
Defined.
End FsmExamples.
